(** * AI-Powered System Configuration Manager: metrics, state, recommendations

    A shallow embedding of the three Python front ends
    ([windows_config_manager.py], [streamlit_config_app.py], [dashboard.py])
    and the properties of their shared core: the threshold classifier, the
    recommendation table, the process ranking, the bounded history, the JSON
    persistence of the history and the train/predict loop.

    Python values are dynamically typed, so the embedding works over one
    universe [pyval] of values and an exception monad [result]; every
    function below follows its Python source statement by statement. *)

From stdpp Require Import base option list strings gmap numbers sorting.
From Stdlib Require Import Ascii ZArith Lia DecimalString DecimalN.

Local Open Scope string_scope.
Local Open Scope Z_scope.

(** ** Exceptions and the result monad *)

Inductive exn : Type :=
| KeyError (key : string)
| TypeError
| AttributeError
| ValueError
| IndexError
| JSONDecodeError
| OSError.

Inductive result (A : Type) : Type :=
| Ok (a : A)
| Raise (e : exn).
Arguments Ok {A} a.
Arguments Raise {A} e.

Definition rbind {A B} (m : result A) (k : A -> result B) : result B :=
  match m with
  | Ok a => k a
  | Raise e => Raise e
  end.

Notation "'do' x <- m ; k" := (rbind m (fun x => k))
  (at level 10, x name, m at level 99, k at level 200,
   format "'[v' 'do'  x  <-  m ; '/' k ']'").
Notation "'do' ' p <- m ; k" := (rbind m (fun x => match x with p => k end))
  (at level 10, p pattern, m at level 99, k at level 200, only parsing).

(** ** Numbers

    A Python [int] is a [Z].  A finite Python [float] is modelled by the
    decimal [dmant * 10^-dscale] that its [repr], and so its JSON text,
    denotes.  Comparing that decimal with one of the integer thresholds of
    the program gives what Python gives for the float, since [repr] is the
    shortest decimal that rounds to the float and rounding is monotone and
    keeps small integers.  Addition is that of IEEE 754 doubles, see
    [num_add] below.  The values NaN and infinity are no [num]: the
    operating system reports finite counters. *)

Record dec : Type := Dec { dmant : Z; dscale : nat }.

Inductive num : Type :=
| NInt (z : Z)
| NFloat (d : dec).

Definition pow10 (k : nat) : Z := 10 ^ Z.of_nat k.

Definition num_mant (x : num) : Z :=
  match x with NInt z => z | NFloat d => dmant d end.
Definition num_scale (x : num) : nat :=
  match x with NInt _ => 0%nat | NFloat d => dscale d end.

(** [x > y], [x <= y] on values, by cross multiplication. *)
Definition num_gtb (x y : num) : bool :=
  num_mant y * pow10 (num_scale x) <? num_mant x * pow10 (num_scale y).
Definition num_le (x y : num) : Prop :=
  num_mant x * pow10 (num_scale y) <= num_mant y * pow10 (num_scale x).
Definition num_lt (x y : num) : Prop :=
  num_mant x * pow10 (num_scale y) < num_mant y * pow10 (num_scale x).
Definition num_eqv (x y : num) : Prop :=
  num_mant x * pow10 (num_scale y) = num_mant y * pow10 (num_scale x).

(** *** Float addition

    A float is an IEEE 754 double.  Every finite double is a multiple of
    [2^-1074]; it is written here as that multiple, an integer of magnitude
    below [2^2098].  [round_units n d] is the double nearest to the rational
    [n / d] of such units ([0 < d]), ties going to the even significand:
    the quotient is cut to 53 significant bits and rounded on the remainder.
    A result of magnitude [2^2098] (the value [2^1024]) or more is an
    infinity, written as [2^2098] itself, which is above every finite
    double as the infinity is. *)

Definition float_inf : Z := 2 ^ 2098.

Definition round_units (n d : Z) : Z :=
  let a := Z.abs n in
  let shift := Z.max 0 (Z.log2 (a / d) + 1 - 53) in
  let step := d * 2 ^ shift in
  let q := a / step in
  let r := a mod step in
  let q := if (step <? 2 * r) || ((2 * r =? step) && Z.odd q) then q + 1 else q in
  Z.sgn n * Z.min (q * 2 ^ shift) float_inf.

(** The double of a number: the one its decimal text is read as, and the
    one an [int] is converted to when it meets a float.  (Python refuses to
    convert an [int] beyond the range of floats; the counters of the
    operating system are far from it.) *)
Definition float_units (x : num) : Z :=
  match x with
  | NInt z => round_units (z * 2 ^ 1074) 1
  | NFloat d => round_units (dmant d * 2 ^ 1074) (pow10 (dscale d))
  end.

(** [k * 2^-j] with the common factors of two cancelled. *)
Fixpoint cancel_twos (j : nat) (k : Z) : Z * nat :=
  match j with
  | O => (k, O)
  | S j' => if Z.even k then cancel_twos j' (k / 2) else (k, j)
  end.

(** The number of a double: its exact value, [k * 2^-1074], as a decimal
    ([m * 2^-j] is [m * 5^j * 10^-j]). *)
Definition num_of_units (k : Z) : num :=
  let '(m, j) := cancel_twos 1074 k in NFloat (Dec (m * 5 ^ Z.of_nat j) j).

(** [x + y].  Two [int]s give their exact sum.  As soon as one operand is a
    float the sum is that of the two doubles, rounded to the nearest double
    as the hardware does.  The sum is kept with its exact value: the
    program compares a sum with other sums only, when it sorts, and
    comparing exact values is comparing the doubles.  (So [0.1 + 0.2] is
    above [0.3 + 0.0].) *)
Definition num_add (x y : num) : num :=
  match x, y with
  | NInt a, NInt b => NInt (a + b)
  | _, _ => num_of_units (round_units (float_units x + float_units y) 1)
  end.

(** ** Python values *)

Unset Elimination Schemes.
Inductive pyval : Type :=
| PNone
| PBool (b : bool)
| PInt (z : Z)
| PFloat (d : dec)
| PStr (s : string)
| PList (l : list pyval)
| PDict (d : list (string * pyval)).
Set Elimination Schemes.

Definition PNum (x : num) : pyval :=
  match x with NInt z => PInt z | NFloat d => PFloat d end.

(** [bool] is a subclass of [int]: [True] counts as 1 in arithmetic. *)
Definition as_num (v : pyval) : option num :=
  match v with
  | PBool b => Some (NInt (if b then 1 else 0))
  | PInt z => Some (NInt z)
  | PFloat d => Some (NFloat d)
  | _ => None
  end.

(** [v > k] for an integer literal [k]. *)
Definition py_gt (v : pyval) (k : Z) : result bool :=
  match as_num v with
  | Some x => Ok (num_gtb x (NInt k))
  | None => Raise TypeError
  end.

(** [a + b] on numbers (the only addition the program performs). *)
Definition py_add (a b : pyval) : result num :=
  match as_num a, as_num b with
  | Some x, Some y => Ok (num_add x y)
  | _, _ => Raise TypeError
  end.

Fixpoint assoc {V} (k : string) (d : list (string * V)) : option V :=
  match d with
  | [] => None
  | (k', v) :: d' => if String.eqb k k' then Some v else assoc k d'
  end.

(** [d[k]] for a string key. *)
Definition py_getitem (d : pyval) (k : string) : result pyval :=
  match d with
  | PDict l => match assoc k l with Some v => Ok v | None => Raise (KeyError k) end
  | _ => Raise TypeError
  end.

(** [len(v)] *)
Definition py_len (v : pyval) : result nat :=
  match v with
  | PStr s => Ok (String.length s)
  | PList l => Ok (length l)
  | PDict d => Ok (length d)
  | _ => Raise TypeError
  end.

(** Truth value of an object, as tested by [if v:]. *)
Definition py_truthy (v : pyval) : bool :=
  match v with
  | PNone => false
  | PBool b => b
  | PInt z => negb (z =? 0)
  | PFloat d => negb (dmant d =? 0)
  | PStr s => negb (String.eqb s "")
  | PList l => match l with [] => false | _ => true end
  | PDict d => match d with [] => false | _ => true end
  end.

(** ** The state classifier

    [analyze_system_state] of [windows_config_manager.py] and of
    [dashboard.py] (the two are the same text), and [analyze_state] of
    [streamlit_config_app.py], which returns its own display names together
    with a colour. *)

Definition analyze_system_state (metrics : pyval) : result string :=
  do cpu <- py_getitem metrics "cpu_percent";
  do mem <- py_getitem metrics "memory_percent";
  do c80 <- py_gt cpu 80;
  do c1 <- (if c80 then Ok true else py_gt mem 85);
  if c1 then Ok "CRITICAL" else
  do c60 <- py_gt cpu 60;
  do c2 <- (if c60 then Ok true else py_gt mem 70);
  if c2 then Ok "HIGH_LOAD" else
  do c30 <- py_gt cpu 30;
  do c3 <- (if c30 then Ok true else py_gt mem 50);
  if c3 then Ok "MODERATE" else
  Ok "IDLE".

Definition analyze_state (metrics : pyval) : result (string * string) :=
  do cpu <- py_getitem metrics "cpu_percent";
  do mem <- py_getitem metrics "memory_percent";
  do c80 <- py_gt cpu 80;
  do c1 <- (if c80 then Ok true else py_gt mem 85);
  if c1 then Ok ("CRITICAL", "#ff0000") else
  do c60 <- py_gt cpu 60;
  do c2 <- (if c60 then Ok true else py_gt mem 70);
  if c2 then Ok ("HIGH LOAD", "#ff9900") else
  do c30 <- py_gt cpu 30;
  do c3 <- (if c30 then Ok true else py_gt mem 50);
  if c3 then Ok ("MODERATE", "#3399ff") else
  Ok ("OPTIMAL", "#00ff00").

(** The ordinal states of the data model, their names in the command-line
    and dashboard front ends, and their severity rank. *)
Inductive State : Type := IDLE | MODERATE | HIGH_LOAD | CRITICAL.

Definition state_name (s : State) : string :=
  match s with
  | IDLE => "IDLE"
  | MODERATE => "MODERATE"
  | HIGH_LOAD => "HIGH_LOAD"
  | CRITICAL => "CRITICAL"
  end.

Definition severity (s : State) : nat :=
  match s with
  | IDLE => 0%nat
  | MODERATE => 1%nat
  | HIGH_LOAD => 2%nat
  | CRITICAL => 3%nat
  end.

(** The names the Streamlit front end displays for the same four states. *)
Definition streamlit_name (s : State) : string :=
  match s with
  | IDLE => "OPTIMAL"
  | MODERATE => "MODERATE"
  | HIGH_LOAD => "HIGH LOAD"
  | CRITICAL => "CRITICAL"
  end.

Definition streamlit_color (s : State) : string :=
  match s with
  | IDLE => "#00ff00"
  | MODERATE => "#3399ff"
  | HIGH_LOAD => "#ff9900"
  | CRITICAL => "#ff0000"
  end.

(** The cascade of the specification (section 4.1), first match wins; the
    classifier of the source is compared with it below. *)
Definition classify_spec (cpu mem : num) : State :=
  if num_gtb cpu (NInt 80) || num_gtb mem (NInt 85) then CRITICAL
  else if num_gtb cpu (NInt 60) || num_gtb mem (NInt 70) then HIGH_LOAD
  else if num_gtb cpu (NInt 30) || num_gtb mem (NInt 50) then MODERATE
  else IDLE.

(** The dictionary built by [collect_system_metrics] / [collect_metrics]
    from the readings of the operating system. *)
Definition snapshot (timestamp : string) (cpu mem avail disk : num)
    (process_count : Z) (cpu_freq : num) : pyval :=
  PDict [ ("timestamp", PStr timestamp);
          ("cpu_percent", PNum cpu);
          ("memory_percent", PNum mem);
          ("memory_available_gb", PNum avail);
          ("disk_percent", PNum disk);
          ("process_count", PInt process_count);
          ("cpu_freq", PNum cpu_freq) ].

(** [x > k] for an integer threshold [k], as a proposition. *)
Definition above (k : Z) (x : num) : Prop := num_lt (NInt k) x.

(** A sample with the given CPU and memory readings, the other readings
    fixed; used for the boundary cases. *)
Definition sample (cpu mem : num) : pyval :=
  snapshot "2024-01-01T00:00:00" cpu mem (NFloat (Dec 40 1)) (NFloat (Dec 100 1))
           100 (NFloat (Dec 24000 1)).

(** ** More operations on Python values *)

(** [v == s] for a string literal [s]; equality never raises. *)
Definition py_eq_str (v : pyval) (s : string) : bool :=
  match v with
  | PStr s' => String.eqb s' s
  | _ => false
  end.

(** [d[k] = v] on the association list of a dictionary: an existing key
    keeps its position, a new key goes last. *)
Fixpoint assoc_set {V} (k : string) (v : V) (d : list (string * V)) : list (string * V) :=
  match d with
  | [] => [(k, v)]
  | (k', v') :: d' =>
      if String.eqb k k' then (k, v) :: d' else (k', v') :: assoc_set k v d'
  end.

(** Formatting is the Python runtime's: [format_1f x] is [f"{x:.1f}"] for a
    number [x], [str_of v] is the text an f-string gives for [{v}], and
    [str_of_exn e] the text it gives for an exception.  They are kept
    abstract; no property below depends on the characters they print. *)
Class PyFormat : Type := {
  format_1f : num -> string;
  str_of : pyval -> string;
  str_of_exn : exn -> string
}.

Section Formatting.
Context `{PyFormat}.

(** [f"{v:.1f}"]: numbers are formatted, a string raises [ValueError], any
    other object [TypeError]. *)
Definition py_format_1f (v : pyval) : result string :=
  match as_num v with
  | Some x => Ok (format_1f x)
  | None => match v with PStr _ => Raise ValueError | _ => Raise TypeError end
  end.

(** [f"{v}"] *)
Definition py_format (v : pyval) : string :=
  match v with
  | PStr s => s
  | _ => str_of v
  end.

End Formatting.

(** ** Decimal text

    The digits of integers and of floats, as [json.dumps] and [repr] write
    them and as [json.loads] reads them. *)

Definition newline : string := String "010"%char "".

Definition is_digit (c : ascii) : bool :=
  (48 <=? nat_of_ascii c)%nat && (nat_of_ascii c <=? 57)%nat.

Definition digit_of (c : ascii) : Z := Z.of_nat (nat_of_ascii c) - 48.

Definition digit_char (d : Z) : ascii := ascii_of_nat (Z.to_nat (48 + d)).

(** The value of a digit string, most significant digit first, continuing
    from [acc]. *)
Fixpoint digits_val (acc : Z) (s : string) : Z :=
  match s with
  | EmptyString => acc
  | String c s' => digits_val (10 * acc + digit_of c) s'
  end.

(** The [k] low decimal digits of [r], written in front of [acc]. *)
Fixpoint frac_digits (k : nat) (r : Z) (acc : string) : string :=
  match k with
  | O => acc
  | S k' => frac_digits k' (r / 10) (String (digit_char (r mod 10)) acc)
  end.

(** A natural number without leading zeros. *)
Definition print_nat (n : Z) : string :=
  NilEmpty.string_of_uint (N.to_uint (Z.to_N n)).

Definition print_int (z : Z) : string :=
  if z <? 0 then String "-" (print_nat (- z)) else print_nat z.

(** A float always shows a fractional part.  The digits are written in
    positional notation, as [repr] writes a float from [0.0001] up to,
    not including, [1e16]; the readings of the sampler (percentages,
    gigabytes, megahertz) are in that range. *)
Definition print_dec (d : dec) : string :=
  let m := Z.abs (dmant d) in
  let k := dscale d in
  (if dmant d <? 0 then "-" else "") ++
  print_nat (m / pow10 k) ++ "." ++
  match k with
  | O => "0"
  | _ => frac_digits k (m mod pow10 k) ""
  end.

(** A formatter for closed examples.  [:.1f] writes the double of the
    number with one decimal place: the exact value of the double is rounded
    to tenths, ties to even, and a negative value keeps its sign also when
    it rounds to zero.  [str] writes scalars the way Python does. *)
Definition decimal_format_1f (x : num) : string :=
  let k := float_units x in
  let a := Z.abs k * 10 in
  let p := 2 ^ 1074 in
  let t := a / p in
  let rem := a mod p in
  let t := if p <? 2 * rem then t + 1
           else if 2 * rem =? p then (if Z.even t then t else t + 1)
           else t in
  (if k <? 0 then "-" else "") ++
  print_nat (t / 10) ++ "." ++ String (digit_char (t mod 10)) "".

Fixpoint py_repr (v : pyval) : string :=
  match v with
  | PNone => "None"
  | PBool b => if b then "True" else "False"
  | PInt z => print_int z
  | PFloat d => print_dec d
  | PStr s => "'" ++ s ++ "'"
  | PList l =>
      "[" ++
      (fix items (l : list pyval) : string :=
         match l with
         | [] => ""
         | [x] => py_repr x
         | x :: l' => py_repr x ++ ", " ++ items l'
         end) l ++ "]"
  | PDict d =>
      "{" ++
      (fix items (d : list (string * pyval)) : string :=
         match d with
         | [] => ""
         | [(k, x)] => "'" ++ k ++ "': " ++ py_repr x
         | (k, x) :: d' => "'" ++ k ++ "': " ++ py_repr x ++ ", " ++ items d'
         end) d ++ "}"
  end.

Definition exn_text (e : exn) : string :=
  match e with
  | KeyError k => "'" ++ k ++ "'"
  | TypeError => "unsupported operand"
  | AttributeError => "no such attribute"
  | ValueError => "invalid value"
  | IndexError => "index out of range"
  | JSONDecodeError => "Expecting value"
  | OSError => "Permission denied"
  end.

Definition decimal_format : PyFormat :=
  {| format_1f := decimal_format_1f; str_of := py_repr; str_of_exn := exn_text |}.

(** ** JSON text

    [json.dumps] and [json.loads] of the Python standard library, for the
    values above.  A string is a sequence of 8-bit characters.  The reader
    is that of JSON: the non-finite literals [NaN] and [Infinity] that
    Python also accepts, its limit on the digits of an integer and its
    recursion limit are outside the model; [plain] below tells the texts
    they cannot concern. *)

Definition is_ws (c : ascii) : bool :=
  match c with
  | " "%char | "009"%char | "010"%char | "013"%char => true
  | _ => false
  end.

Fixpoint skip_ws (s : string) : string :=
  match s with
  | String c s' => if is_ws c then skip_ws s' else s
  | EmptyString => s
  end.

(** *** Writing *)

Definition hex_char (d : Z) : ascii :=
  if d <? 10 then digit_char d else ascii_of_nat (Z.to_nat (87 + d)).

(** [\u00XX] *)
Definition escape_u (c : ascii) : string :=
  let n := Z.of_nat (nat_of_ascii c) in
  String "\" (String "u" (String "0" (String "0"
    (String (hex_char (n / 16)) (String (hex_char (n mod 16)) ""))))).

Definition escape_char (c : ascii) : string :=
  match c with
  | "034"%char => String "\" (String "034" "")
  | "\"%char => String "\" (String "\" "")
  | "010"%char => String "\" (String "n" "")
  | "013"%char => String "\" (String "r" "")
  | "009"%char => String "\" (String "t" "")
  | "008"%char => String "\" (String "b" "")
  | "012"%char => String "\" (String "f" "")
  | _ =>
      if (nat_of_ascii c <? 32)%nat || (127 <=? nat_of_ascii c)%nat
      then escape_u c else String c ""
  end.

Fixpoint escape_string (s : string) : string :=
  match s with
  | EmptyString => ""
  | String c s' => escape_char c ++ escape_string s'
  end.

Definition dumps_string (s : string) : string :=
  String "034" (escape_string s ++ String "034" "").

Fixpoint spaces (n : nat) : string :=
  match n with
  | O => ""
  | S n' => String " " (spaces n')
  end.

(** The line break and indentation in front of an item at [level], and the
    separator between two items; [indent] is the [indent=] argument. *)
Definition nl_indent (indent : option nat) (level : nat) : string :=
  match indent with
  | None => ""
  | Some n => newline ++ spaces (n * level)
  end.

Definition item_sep (indent : option nat) (level : nat) : string :=
  match indent with
  | None => ", "
  | Some _ => "," ++ nl_indent indent level
  end.

Fixpoint dumps_at (indent : option nat) (level : nat) (v : pyval) : string :=
  match v with
  | PNone => "null"
  | PBool b => if b then "true" else "false"
  | PInt z => print_int z
  | PFloat d => print_dec d
  | PStr s => dumps_string s
  | PList [] => "[]"
  | PList (x :: l) =>
      "[" ++ nl_indent indent (S level) ++ dumps_at indent (S level) x ++
      (fix items (l : list pyval) : string :=
         match l with
         | [] => ""
         | y :: l' =>
             item_sep indent (S level) ++ dumps_at indent (S level) y ++ items l'
         end) l ++
      nl_indent indent level ++ "]"
  | PDict [] => "{}"
  | PDict ((k, x) :: d) =>
      "{" ++ nl_indent indent (S level) ++
      dumps_string k ++ ": " ++ dumps_at indent (S level) x ++
      (fix members (d : list (string * pyval)) : string :=
         match d with
         | [] => ""
         | (k', y) :: d' =>
             item_sep indent (S level) ++
             dumps_string k' ++ ": " ++ dumps_at indent (S level) y ++ members d'
         end) d ++
      nl_indent indent level ++ "}"
  end.

Definition json_dumps (indent : option nat) (v : pyval) : string :=
  dumps_at indent 0 v.

(** *** Reading *)

(** The longest prefix of digits, and what follows it. *)
Fixpoint span_digits (s : string) : string * string :=
  match s with
  | String c s' =>
      if is_digit c then
        let '(ds, r) := span_digits s' in (String c ds, r)
      else ("", s)
  | EmptyString => ("", "")
  end.

(** The integer part of a number: [0], or a nonzero digit and digits. *)
Definition scan_int (s : string) : option (string * string) :=
  match s with
  | String "0" r => Some ("0", r)
  | String c _ =>
      if is_digit c then Some (span_digits s) else None
  | EmptyString => None
  end.

(** The fraction of a number: a point and at least one digit. *)
Definition scan_frac (s : string) : option (string * string) :=
  match s with
  | String "." r =>
      match span_digits r with
      | (EmptyString, _) => None
      | (ds, r') => Some (ds, r')
      end
  | _ => None
  end.

(** The exponent of a number: [e] or [E], a sign, at least one digit. *)
Definition scan_exp (s : string) : option (Z * string) :=
  match s with
  | String c r =>
      if Ascii.eqb c "e" || Ascii.eqb c "E" then
        let '(neg, r1) :=
          match r with
          | String "-" r1 => (true, r1)
          | String "+" r1 => (false, r1)
          | _ => (false, r)
          end in
        match span_digits r1 with
        | (EmptyString, _) => None
        | (ds, r') => Some (if neg : bool then - digits_val 0 ds else digits_val 0 ds, r')
        end
      else None
  | EmptyString => None
  end.

(** The float [m * 10^(e - k)]. *)
Definition dec_of_parts (m : Z) (k : nat) (e : Z) : dec :=
  if e <=? 0 then Dec m (k + Z.to_nat (- e))
  else if e <? Z.of_nat k then Dec m (k - Z.to_nat e)
  else Dec (m * 10 ^ (e - Z.of_nat k)) 0.

Definition parse_number (s : string) : option (pyval * string) :=
  let '(neg, s1) :=
    match s with
    | String "-" s1 => (true, s1)
    | _ => (false, s)
    end in
  match scan_int s1 with
  | None => None
  | Some (ip, s2) =>
      let sign (z : Z) := if neg : bool then - z else z in
      match scan_frac s2, scan_exp s2 with
      | None, None => Some (PInt (sign (digits_val 0 ip)), s2)
      | None, Some (e, s3) =>
          Some (PFloat (dec_of_parts (sign (digits_val 0 ip)) 0 e), s3)
      | Some (fp, s3), _ =>
          let m := sign (digits_val (digits_val 0 ip) fp) in
          let k := String.length fp in
          match scan_exp s3 with
          | None => Some (PFloat (Dec m k), s3)
          | Some (e, s4) => Some (PFloat (dec_of_parts m k e), s4)
          end
      end
  end.

Definition hex_of (c : ascii) : option Z :=
  let n := Z.of_nat (nat_of_ascii c) in
  if is_digit c then Some (n - 48)
  else if (97 <=? n) && (n <=? 102) then Some (n - 87)
  else if (65 <=? n) && (n <=? 70) then Some (n - 55)
  else None.

Definition char_of_code (n : Z) : ascii := ascii_of_nat (Z.to_nat n).

(** The characters of a [\uXXXX] escape: the character itself below 256,
    its UTF-8 bytes above. *)
Definition chars_of_code (n : Z) : string :=
  if n <? 256 then String (char_of_code n) ""
  else if n <? 2048 then
    String (char_of_code (192 + n / 64)) (String (char_of_code (128 + n mod 64)) "")
  else
    String (char_of_code (224 + n / 4096))
      (String (char_of_code (128 + (n / 64) mod 64))
         (String (char_of_code (128 + n mod 64)) "")).

(** The body of a string literal, after the opening quote. *)
Fixpoint parse_string (s : string) : option (string * string) :=
  match s with
  | EmptyString => None
  | String "034" r => Some ("", r)
  | String "\" (String c r) =>
      let continue (out : string) (r : string) :=
        match parse_string r with
        | Some (str, r') => Some (out ++ str, r')
        | None => None
        end in
      match c with
      | "034"%char => continue (String "034" "") r
      | "\"%char => continue (String "\" "") r
      | "/"%char => continue (String "/" "") r
      | "b"%char => continue (String "008" "") r
      | "f"%char => continue (String "012" "") r
      | "n"%char => continue (String "010" "") r
      | "r"%char => continue (String "013" "") r
      | "t"%char => continue (String "009" "") r
      | "u"%char =>
          match r with
          | String h1 (String h2 (String h3 (String h4 r'))) =>
              match hex_of h1, hex_of h2, hex_of h3, hex_of h4 with
              | Some a, Some b, Some c, Some d =>
                  match parse_string r' with
                  | Some (str, r'') =>
                      Some (chars_of_code (((a * 16 + b) * 16 + c) * 16 + d) ++ str, r'')
                  | None => None
                  end
              | _, _, _, _ => None
              end
          | _ => None
          end
      | _ => None
      end
  | String "\" EmptyString => None
  | String c r =>
      if (nat_of_ascii c <? 32)%nat then None
      else match parse_string r with
           | Some (str, r') => Some (String c str, r')
           | None => None
           end
  end.

(** [dict(pairs)]: a repeated key keeps its first position and its last
    value. *)
Definition dict_of_pairs (pairs : list (string * pyval)) : list (string * pyval) :=
  foldl (fun d kv => assoc_set (fst kv) (snd kv) d) [] pairs.

(** One value at the head of [s]; [fuel] bounds the number of values read. *)
Fixpoint parse_value (fuel : nat) (s : string) : option (pyval * string) :=
  match fuel with
  | O => None
  | S fuel =>
      match s with
      | String "n" (String "u" (String "l" (String "l" r))) => Some (PNone, r)
      | String "t" (String "r" (String "u" (String "e" r))) => Some (PBool true, r)
      | String "f" (String "a" (String "l" (String "s" (String "e" r)))) =>
          Some (PBool false, r)
      | String "034" r =>
          match parse_string r with
          | Some (str, r') => Some (PStr str, r')
          | None => None
          end
      | String "[" r =>
          match skip_ws r with
          | String "]" r' => Some (PList [], r')
          | r1 =>
              match parse_elems fuel r1 with
              | Some (vs, r') => Some (PList vs, r')
              | None => None
              end
          end
      | String "{" r =>
          match skip_ws r with
          | String "}" r' => Some (PDict [], r')
          | r1 =>
              match parse_members fuel r1 with
              | Some (kvs, r') => Some (PDict (dict_of_pairs kvs), r')
              | None => None
              end
          end
      | _ => parse_number s
      end
  end

(** The items of a list up to the closing bracket; [s] is at an item. *)
with parse_elems (fuel : nat) (s : string) : option (list pyval * string) :=
  match fuel with
  | O => None
  | S fuel =>
      match parse_value fuel s with
      | None => None
      | Some (v, r) =>
          match skip_ws r with
          | String "," r' =>
              match parse_elems fuel (skip_ws r') with
              | Some (vs, r'') => Some (v :: vs, r'')
              | None => None
              end
          | String "]" r' => Some ([v], r')
          | _ => None
          end
      end
  end

(** The members of an object up to the closing brace; [s] is at a key. *)
with parse_members (fuel : nat) (s : string)
    : option (list (string * pyval) * string) :=
  match fuel with
  | O => None
  | S fuel =>
      match s with
      | String "034" r =>
          match parse_string r with
          | None => None
          | Some (k, r1) =>
              match skip_ws r1 with
              | String ":" r2 =>
                  match parse_value fuel (skip_ws r2) with
                  | None => None
                  | Some (v, r3) =>
                      match skip_ws r3 with
                      | String "," r4 =>
                          match parse_members fuel (skip_ws r4) with
                          | Some (kvs, r5) => Some ((k, v) :: kvs, r5)
                          | None => None
                          end
                      | String "}" r4 => Some ([(k, v)], r4)
                      | _ => None
                      end
                  end
              | _ => None
              end
          end
      | _ => None
      end
  end.

(** [json.loads]: one value, surrounded by optional white space, and
    nothing else; anything else is a [JSONDecodeError]. *)
Definition json_loads (s : string) : result pyval :=
  match parse_value (S (String.length s)) (skip_ws s) with
  | Some (v, r) =>
      match skip_ws r with
      | EmptyString => Ok v
      | _ => Raise JSONDecodeError
      end
  | None => Raise JSONDecodeError
  end.

(** *** Texts that Python reads as the reader above does

    [json.loads] of CPython departs from JSON, and so from the reader
    above, on three kinds of text: it reads the words [NaN], [Infinity] and
    [-Infinity] as floats, it refuses an integer of more than 4300 digits
    with a plain [ValueError], and it gives up on text nested beyond its
    recursion limit (about 1000 levels) with [RecursionError].  A text is
    [plain] when it can be none of these: it holds neither word, no run of
    more than 4300 digits and at most 500 opening brackets and braces. *)

Fixpoint has_infix (p s : string) : bool :=
  String.prefix p s ||
  match s with
  | EmptyString => false
  | String _ s' => has_infix p s'
  end.

(** The opening brackets and braces of a text. *)
Fixpoint count_open (s : string) : nat :=
  match s with
  | EmptyString => 0
  | String c s' =>
      ((if Ascii.eqb c "[" || Ascii.eqb c "{" then 1 else 0) + count_open s')%nat
  end.

(** No run of digits of [s] is longer than [limit]; [run] is the length of
    the run that ends in front of [s]. *)
Fixpoint digit_runs_within (limit run : nat) (s : string) : bool :=
  match s with
  | EmptyString => true
  | String c s' =>
      if is_digit c then (S run <=? limit)%nat && digit_runs_within limit (S run) s'
      else digit_runs_within limit 0 s'
  end.

Definition plain (s : string) : bool :=
  negb (has_infix "NaN" s) && negb (has_infix "Infinity" s) &&
  digit_runs_within 4300 0 s && (count_open s <=? 500)%nat.

(** ** Facts about JSON text: the notions they use *)

(** Every character of [s] is a digit. *)
Fixpoint all_digits (s : string) : bool :=
  match s with
  | EmptyString => true
  | String c s' => is_digit c && all_digits s'
  end.

(** [rest] cannot continue a number: it is empty or starts with a character
    that is no digit, point or exponent mark. *)
Definition delimited (rest : string) : Prop :=
  match rest with
  | EmptyString => True
  | String c _ =>
      is_digit c = false /\ c <> "."%char /\ c <> "e"%char /\ c <> "E"%char
  end.

(** [rest] is empty or starts with a character that is no digit. *)
Definition digits_end (rest : string) : Prop :=
  match rest with
  | EmptyString => True
  | String c _ => is_digit c = false
  end.

(** A printed natural is one digit [0], or starts with a digit that is not
    [0]. *)
Definition no_leading_zero (s : string) : Prop :=
  match s with
  | EmptyString => False
  | String c s' =>
      is_digit c = true /\ (c = "0"%char -> s' = "")
  end.

(** A value that [json.dumps] and [json.loads] carry unchanged: a float
    shows a fractional digit, the keys of a dictionary are distinct. *)
Unset Elimination Schemes.
Inductive wf_json : pyval -> Prop :=
| wf_none : wf_json PNone
| wf_bool b : wf_json (PBool b)
| wf_int z : wf_json (PInt z)
| wf_float d : (1 <= dscale d)%nat -> wf_json (PFloat d)
| wf_str s : wf_json (PStr s)
| wf_list l : Forall wf_json l -> wf_json (PList l)
| wf_dict d :
    NoDup (map fst d) -> Forall (fun kv => wf_json (snd kv)) d -> wf_json (PDict d).
Set Elimination Schemes.

(** The fuel that reading a value back takes. *)
Fixpoint need (v : pyval) : nat :=
  match v with
  | PList l =>
      S ((fix sum (l : list pyval) : nat :=
            match l with
            | [] => 0
            | x :: l' => S (need x) + sum l'
            end) l)
  | PDict d =>
      S ((fix sum (d : list (string * pyval)) : nat :=
            match d with
            | [] => 0
            | kv :: d' => S (need (snd kv)) + sum d'
            end) d)
  | _ => 1
  end%nat.

Definition need_items (l : list pyval) : nat :=
  foldr (fun x n => S (need x) + n)%nat 0%nat l.
Definition need_members (d : list (string * pyval)) : nat :=
  foldr (fun kv n => S (need (snd kv)) + n)%nat 0%nat d.

(** The text of the items after the first, and of the members after the
    first. *)
Fixpoint dumps_items (indent : option nat) (level : nat) (l : list pyval) : string :=
  match l with
  | [] => ""
  | y :: l' =>
      item_sep indent level ++ dumps_at indent level y ++ dumps_items indent level l'
  end.

Fixpoint dumps_members (indent : option nat) (level : nat) (d : list (string * pyval))
    : string :=
  match d with
  | [] => ""
  | (k, y) :: d' =>
      item_sep indent level ++ dumps_string k ++ ": " ++ dumps_at indent level y ++
      dumps_members indent level d'
  end.

(** A character a value can start with. *)
Definition value_char (c : ascii) : Prop :=
  is_ws c = false /\ c <> "]"%char /\ c <> "}"%char.

(** What reading a value back means, for the induction. *)
Definition reads_back (indent : option nat) (v : pyval) : Prop :=
  forall level fuel rest,
    (need v <= fuel)%nat -> delimited rest ->
    parse_value fuel (dumps_at indent level v ++ rest) = Some (v, rest).

(** ** The process ranking

    [get_top_processes] of [windows_config_manager.py] and [dashboard.py]
    (the same text).  [procs] is the sequence of [info] dictionaries that
    [psutil.process_iter(['name', 'cpu_percent', 'memory_percent'])] yields;
    [n] is a count (every caller passes 5), so [processes[:n]] is [take n]. *)

(** The loop that filters the enumeration into [processes]. *)
Fixpoint collect_processes (procs : list pyval) (processes : list pyval)
    : result (list pyval) :=
  match procs with
  | [] => Ok processes
  | info :: rest =>
      do c <- py_getitem info "cpu_percent";
      do c_pos <- py_gt c 0;
      do keep <- (if c_pos then Ok true else
                  do m <- py_getitem info "memory_percent"; py_gt m 0);
      if keep then
        do name <- py_getitem info "name";
        do cpu <- py_getitem info "cpu_percent";
        do memory <- py_getitem info "memory_percent";
        collect_processes rest
          (processes ++ [PDict [("name", name); ("cpu", cpu); ("memory", memory)]])
      else collect_processes rest processes
  end.

(** [list.sort(key=..., reverse=True)]: the keys are computed first, then the
    elements are sorted by descending key.  Python's sort is stable, also
    with [reverse=True]; a stable sort has one possible result for keys that
    are totally preordered, which the insertion sort below computes. *)
Fixpoint insert_desc {A} (x : num * A) (l : list (num * A)) : list (num * A) :=
  match l with
  | [] => [x]
  | y :: l' =>
      if num_gtb (fst y) (fst x) then y :: insert_desc x l' else x :: y :: l'
  end.

Definition sort_desc {A} (l : list (num * A)) : list (num * A) :=
  foldr insert_desc [] l.

Fixpoint mapM {A B} (f : A -> result B) (l : list A) : result (list B) :=
  match l with
  | [] => Ok []
  | a :: l' => do b <- f a; do bs <- mapM f l'; Ok (b :: bs)
  end.

Definition py_sort_desc (key : pyval -> result num) (l : list pyval)
    : result (list pyval) :=
  do keys <- mapM key l;
  Ok (map snd (sort_desc (zip keys l))).

(** [lambda x: x['cpu'] + x['memory']] *)
Definition usage_key (x : pyval) : result num :=
  do c <- py_getitem x "cpu";
  do m <- py_getitem x "memory";
  py_add c m.

Definition get_top_processes (n : nat) (procs : list pyval) : result (list pyval) :=
  do processes <- collect_processes procs [];
  do processes <- py_sort_desc usage_key processes;
  Ok (take n processes).

(** A process sample of the data model, the [info] dictionary psutil
    reports for it and the entry the ranking builds from it. *)
Record ProcessSample : Type := {
  ps_name : string;
  ps_cpu : num;
  ps_memory : num
}.

Definition info_of (p : ProcessSample) : pyval :=
  PDict [("name", PStr (ps_name p)); ("cpu_percent", PNum (ps_cpu p));
         ("memory_percent", PNum (ps_memory p))].

Definition entry_of (p : ProcessSample) : pyval :=
  PDict [("name", PStr (ps_name p)); ("cpu", PNum (ps_cpu p));
         ("memory", PNum (ps_memory p))].

Definition ps_usage (p : ProcessSample) : num := num_add (ps_cpu p) (ps_memory p).

Definition ps_active (p : ProcessSample) : bool :=
  num_gtb (ps_cpu p) (NInt 0) || num_gtb (ps_memory p) (NInt 0).

(** Equality of the values of two numbers. *)
Definition num_eqb (x y : num) : bool :=
  num_mant x * pow10 (num_scale y) =? num_mant y * pow10 (num_scale x).

(** ** The recommendation engine *)

(** [l.append(x)]: only a list has the method. *)
Definition py_append (l x : pyval) : result pyval :=
  match l with
  | PList xs => Ok (PList (xs ++ [x]))
  | _ => Raise AttributeError
  end.

Section Recommendations.
Context `{PyFormat}.

(** The line of the report for one ranked process. *)
Definition process_line (proc : pyval) : result string :=
  do name <- py_getitem proc "name";
  do cpu <- py_getitem proc "cpu";
  do cpu_s <- py_format_1f cpu;
  do memory <- py_getitem proc "memory";
  do memory_s <- py_format_1f memory;
  Ok ("   • " ++ py_format name ++ ": CPU " ++ cpu_s ++ "% | RAM " ++ memory_s ++ "%").

Definition memory_line (metrics : pyval) : result pyval :=
  do mem <- py_getitem metrics "memory_percent";
  do mem_s <- py_format_1f mem;
  Ok (PStr ("📊 Memory Usage: " ++ mem_s ++ "%")).

Definition cpu_line (metrics : pyval) : result pyval :=
  do cpu <- py_getitem metrics "cpu_percent";
  do cpu_s <- py_format_1f cpu;
  Ok (PStr ("📊 CPU Usage: " ++ cpu_s ++ "%")).

(** The loop [for proc in top_processes: actions.append(...)]. *)
Fixpoint append_process_lines (top_processes : list pyval) (actions : pyval)
    : result pyval :=
  match top_processes with
  | [] => Ok actions
  | proc :: rest =>
      do line <- process_line proc;
      do actions <- py_append actions (PStr line);
      append_process_lines rest actions
  end.

(** [WindowsConfigManager.get_recommendations]; [procs] is the process
    enumeration that its call of [get_top_processes(5)] reads. *)
Definition get_recommendations (procs : list pyval) (metrics state : pyval)
    : result pyval :=
  let recommendations :=
    [("state", state); ("actions", PList []); ("priority", PStr "LOW")] in
  do recommendations <-
    (if py_eq_str state "CRITICAL" then
       let recommendations := assoc_set "priority" (PStr "CRITICAL") recommendations in
       do mem_line <- memory_line metrics;
       do cpu_line <- cpu_line metrics;
       Ok (assoc_set "actions"
             (PList [PStr "⚠️ CRITICAL: System under heavy load";
                     PStr "🔴 Close unnecessary applications immediately";
                     PStr "🔴 Disable startup programs";
                     PStr "🔴 Clear temporary files";
                     PStr "🔴 Restart high-memory processes";
                     mem_line; cpu_line])
             recommendations)
     else if py_eq_str state "HIGH_LOAD" then
       let recommendations := assoc_set "priority" (PStr "HIGH") recommendations in
       do mem_line <- memory_line metrics;
       do cpu_line <- cpu_line metrics;
       Ok (assoc_set "actions"
             (PList [PStr "⚡ System experiencing high load";
                     PStr "🟡 Consider closing browser tabs";
                     PStr "🟡 Disable background apps";
                     PStr "🟡 Check for Windows updates running";
                     mem_line; cpu_line])
             recommendations)
     else if py_eq_str state "MODERATE" then
       let recommendations := assoc_set "priority" (PStr "MEDIUM") recommendations in
       do mem_line <- memory_line metrics;
       do cpu_line <- cpu_line metrics;
       Ok (assoc_set "actions"
             (PList [PStr "✅ System running normally";
                     PStr "🟢 Performance optimizations available";
                     PStr "🟢 Consider disk cleanup if needed";
                     mem_line; cpu_line])
             recommendations)
     else
       let recommendations := assoc_set "priority" (PStr "LOW") recommendations in
       do mem_line <- memory_line metrics;
       do cpu_line <- cpu_line metrics;
       Ok (assoc_set "actions"
             (PList [PStr "✅ System running optimally";
                     PStr "🟢 No immediate actions needed";
                     PStr "🟢 Good time for maintenance tasks";
                     mem_line; cpu_line])
             recommendations));
  do top_processes <- get_top_processes 5 procs;
  if py_truthy (PList top_processes) then
    do actions <- py_getitem (PDict recommendations) "actions";
    do actions <- py_append actions (PStr (newline ++ "🔍 Top Resource Consumers:"));
    do actions <- append_process_lines top_processes actions;
    Ok (PDict (assoc_set "actions" actions recommendations))
  else Ok (PDict recommendations).

(** [get_recommendations] of [dashboard.py]: the record has a state and
    actions only. *)
Definition dashboard_get_recommendations (metrics state : pyval) : result pyval :=
  let recommendations := [("state", state); ("actions", PList [])] in
  if py_eq_str state "CRITICAL" then
    do mem_line <- memory_line metrics;
    do cpu_line <- cpu_line metrics;
    Ok (PDict (assoc_set "actions"
          (PList [PStr "⚠️ CRITICAL: System under heavy load";
                  PStr "🔴 Close unnecessary applications immediately";
                  PStr "🔴 Disable startup programs";
                  PStr "🔴 Clear temporary files";
                  mem_line; cpu_line])
          recommendations))
  else if py_eq_str state "HIGH_LOAD" then
    do mem_line <- memory_line metrics;
    Ok (PDict (assoc_set "actions"
          (PList [PStr "⚡ System experiencing high load";
                  PStr "🟡 Consider closing browser tabs";
                  PStr "🟡 Disable background apps";
                  PStr "🟡 Check for Windows updates running";
                  mem_line])
          recommendations))
  else if py_eq_str state "MODERATE" then
    do mem_line <- memory_line metrics;
    Ok (PDict (assoc_set "actions"
          (PList [PStr "✅ System running normally";
                  PStr "🟢 Performance optimizations available";
                  PStr "🟢 Consider disk cleanup if needed";
                  mem_line])
          recommendations))
  else
    Ok (PDict (assoc_set "actions"
          (PList [PStr "✅ System running optimally";
                  PStr "🟢 No immediate actions needed";
                  PStr "🟢 Good time for maintenance tasks"])
          recommendations)).

End Recommendations.

(** ** The learner

    [StandardScaler] and [DecisionTreeClassifier] are scikit-learn's.  The
    embedding takes them as an interface: an unfitted scaler and an unfitted
    tree, fitting, transforming and predicting, each of which may raise. *)

Class Sklearn : Type := {
  sk_scaler : Type;
  sk_model : Type;
  sk_matrix : Type;
  (** [StandardScaler()] *)
  scaler_new : sk_scaler;
  (** [scaler.fit(np.array(X))] *)
  scaler_fit : sk_scaler -> list (list pyval) -> result sk_scaler;
  (** [scaler.transform(np.array(X))] *)
  scaler_transform : sk_scaler -> list (list pyval) -> result sk_matrix;
  (** [DecisionTreeClassifier(max_depth=4, random_state=42)] *)
  tree_new : sk_model;
  (** [model.fit(X_scaled, np.array(y))] *)
  tree_fit : sk_model -> sk_matrix -> list Z -> result sk_model;
  (** [model.predict(X_scaled)] *)
  tree_predict : sk_model -> sk_matrix -> result (list Z);
  matrix_rows : sk_matrix -> nat;
  matrix_cols : sk_matrix -> nat
}.

Definition is_number (v : pyval) : Prop := exists x, v = PNum x.

(** A non-empty table of numbers with [cols] columns. *)
Definition numeric_table (cols : nat) (X : list (list pyval)) : Prop :=
  X <> [] /\ Forall (fun row => length row = cols /\ Forall is_number row) X.

(** What the program relies on: fitting a numeric table succeeds, a fitted
    scaler transforms a table of the same width row by row, fitting a tree
    on as many labels as rows succeeds, and a fitted tree predicts, for each
    row of a matrix of the training width, one of the labels it was fitted
    on (scikit-learn's [classes_]). *)
Class SklearnSpec `{Sklearn} : Prop := {
  scaler_fit_total s cols X :
    numeric_table cols X -> exists s', scaler_fit s X = Ok s';
  scaler_transform_total s s' cols X X2 :
    scaler_fit s X = Ok s' -> numeric_table cols X -> numeric_table cols X2 ->
    exists M, scaler_transform s' X2 = Ok M /\
              matrix_rows M = length X2 /\ matrix_cols M = cols;
  tree_fit_total t M y :
    matrix_rows M = length y -> y <> [] -> exists t', tree_fit t M y = Ok t';
  tree_predict_classes t t' M y M2 :
    tree_fit t M y = Ok t' -> matrix_cols M2 = matrix_cols M ->
    exists cs, tree_predict t' M2 = Ok cs /\
               length cs = matrix_rows M2 /\ Forall (fun c => c ∈ y) cs
}.

(** A learner for closed examples, the simplest one that meets the
    interface: the scaler leaves the table as it is and the tree predicts
    the first label it was fitted on. *)
Definition is_number_b (v : pyval) : bool :=
  match v with
  | PInt _ | PFloat _ => true
  | _ => false
  end.

Definition constant_learner : Sklearn := {|
  sk_scaler := bool;
  sk_model := option Z;
  sk_matrix := list (list pyval);
  scaler_new := false;
  scaler_fit := fun _ X =>
    match X with
    | [] => Raise ValueError
    | _ => if forallb (forallb is_number_b) X then Ok true else Raise ValueError
    end;
  scaler_transform := fun s X => if s then Ok X else Raise ValueError;
  tree_new := None;
  tree_fit := fun _ M y =>
    match y with
    | c :: _ => if (length M =? length y)%nat then Ok (Some c) else Raise ValueError
    | [] => Raise ValueError
    end;
  tree_predict := fun t M =>
    match t with
    | Some c => Ok (map (fun _ => c) M)
    | None => Raise ValueError
    end;
  matrix_rows := fun M => length M;
  matrix_cols := fun M => match M with row :: _ => length row | [] => 0%nat end
|}.

(** ** Files, state and effects *)

Section Effects.
Context `{PyFormat} `{Sklearn}.

(** A file is described by what the program gets when it reads it.
    [Text content] reads as the text [content] and is no pickle:
    [pickle.load] rejects it.  [Pickle model scaler] is the pickle of the
    dictionary [{'model': model, 'scaler': scaler}], as [train_model] writes
    it.  [PartialPickle model] is the pickle of a dictionary that lacks the
    key ['scaler'], and the key ['model'] too when [model] is [None]. *)
Inductive file : Type :=
| Text (content : string)
| Pickle (model : sk_model) (scaler : sk_scaler)
| PartialPickle (model : option sk_model).

(** The files by path, and the paths that cannot be opened for writing. *)
Record filesystem : Type := {
  fs_files : gmap string file;
  fs_denied : gset string
}.

(** The manager object of a front end. *)
Record manager : Type := {
  metrics_history : pyval;
  model : option sk_model;
  scaler : sk_scaler
}.

Record world : Type := {
  self : manager;
  fs : filesystem;
  stdout : list string
}.

(** Computations that read and change the world and may raise; what was
    changed before an exception stays changed. *)
Definition M (A : Type) : Type := world -> result A * world.

Definition ret {A} (a : A) : M A := fun w => (Ok a, w).

Definition bind {A B} (m : M A) (k : A -> M B) : M B :=
  fun w => match m w with
           | (Ok a, w') => k a w'
           | (Raise e, w') => (Raise e, w')
           end.

Definition lift {A} (r : result A) : M A := fun w => (r, w).

(** [try: m except Exception as e: h e] *)
Definition try_except {A} (m : M A) (h : exn -> M A) : M A :=
  fun w => match m w with
           | (Ok a, w') => (Ok a, w')
           | (Raise e, w') => h e w'
           end.

Definition get_history : M pyval := fun w => (Ok (metrics_history (self w)), w).
Definition set_history (h : pyval) : M unit := fun w =>
  (Ok tt, {| self := {| metrics_history := h; model := model (self w);
                        scaler := scaler (self w) |};
             fs := fs w; stdout := stdout w |}).
Definition get_model : M (option sk_model) := fun w => (Ok (model (self w)), w).
Definition set_model (m : option sk_model) : M unit := fun w =>
  (Ok tt, {| self := {| metrics_history := metrics_history (self w); model := m;
                        scaler := scaler (self w) |};
             fs := fs w; stdout := stdout w |}).
Definition get_scaler : M sk_scaler := fun w => (Ok (scaler (self w)), w).
Definition set_scaler (s : sk_scaler) : M unit := fun w =>
  (Ok tt, {| self := {| metrics_history := metrics_history (self w);
                        model := model (self w); scaler := s |};
             fs := fs w; stdout := stdout w |}).

(** [print(line)] *)
Definition print (line : string) : M unit := fun w =>
  (Ok tt, {| self := self w; fs := fs w; stdout := stdout w ++ [line] |}).

(** [os.path.exists(path)] *)
Definition path_exists (path : string) : M bool := fun w =>
  (Ok (bool_decide (is_Some (fs_files (fs w) !! path))), w).

(** [open(path, 'w')] or [open(path, 'wb')] followed by writing [f]: the
    whole file is replaced; a path that cannot be opened raises [OSError]. *)
Definition write_file (path : string) (f : file) : M unit := fun w =>
  if bool_decide (path ∈ fs_denied (fs w)) then (Raise OSError, w)
  else (Ok tt, {| self := self w;
                  fs := {| fs_files := <[path := f]> (fs_files (fs w));
                           fs_denied := fs_denied (fs w) |};
                  stdout := stdout w |}).

(** [open(path, 'r').read()] *)
Definition read_text (path : string) : M string := fun w =>
  match fs_files (fs w) !! path with
  | Some (Text content) => (Ok content, w)
  | Some (Pickle _ _) | Some (PartialPickle _) => (Raise ValueError, w)
  | None => (Raise OSError, w)
  end.

(** [os.path.getsize(path)]: only its being zero matters. *)
Definition file_is_empty (path : string) : M bool := fun w =>
  match fs_files (fs w) !! path with
  | Some (Text content) => (Ok (String.eqb content ""), w)
  | Some (Pickle _ _) | Some (PartialPickle _) => (Ok false, w)
  | None => (Raise OSError, w)
  end.

(** [pickle.load(open(path, 'rb'))]: the entries ['model'] and ['scaler']
    of the dictionary that was pickled, where it has them. *)
Definition read_pickle (path : string) : M (option sk_model * option sk_scaler) :=
  fun w =>
  match fs_files (fs w) !! path with
  | Some (Pickle m s) => (Ok (Some m, Some s), w)
  | Some (PartialPickle m) => (Ok (m, None), w)
  | Some (Text _) => (Raise ValueError, w)
  | None => (Raise OSError, w)
  end.

(** [data[key]] on what was unpickled. *)
Definition pickled_item {A} (entry : option A) (key : string) : result A :=
  match entry with
  | Some x => Ok x
  | None => Raise (KeyError key)
  end.

End Effects.

Notation "'let*' x := m 'in' k" := (bind m (fun x => k))
  (at level 10, x name, m at level 99, k at level 200,
   format "'[v' 'let*'  x  :=  m  'in' '/' k ']'").
Notation "m ;; k" := (bind m (fun _ => k))
  (at level 100, k at level 200, right associativity).

(** ** More operations on Python values, for the managers *)

Fixpoint chars (s : string) : list pyval :=
  match s with
  | EmptyString => []
  | String c s' => PStr (String c "") :: chars s'
  end.

(** [str.strip()]: white space is removed at both ends. *)
Definition is_space (c : ascii) : bool :=
  let n := nat_of_ascii c in
  ((9 <=? n) && (n <=? 13) || (28 <=? n) && (n <=? 32) || (n =? 133) || (n =? 160))%nat.

Fixpoint lstrip (s : string) : string :=
  match s with
  | String c s' => if is_space c then lstrip s' else s
  | EmptyString => s
  end.

Fixpoint rstrip (s : string) : string :=
  match s with
  | EmptyString => ""
  | String c s' =>
      match rstrip s' with
      | EmptyString => if is_space c then "" else String c ""
      | r => String c r
      end
  end.

Definition strip (s : string) : string := rstrip (lstrip s).

(** The items a [for] loop visits. *)
Definition py_iter (v : pyval) : result (list pyval) :=
  match v with
  | PList l => Ok l
  | PDict d => Ok (map (fun kv => PStr (fst kv)) d)
  | PStr s => Ok (chars s)
  | _ => Raise TypeError
  end.

(** [v[-k:]] *)
Definition py_last (k : nat) (v : pyval) : result pyval :=
  match v with
  | PList l => Ok (PList (drop (length l - k) l))
  | PStr s => Ok (PStr (String.substring (String.length s - k) k s))
  | _ => Raise TypeError
  end.

(** What one pass of a monitoring loop reads from the operating system:
    the counters, the process enumeration and the wall clock. *)
Record reading : Type := {
  rd_timestamp : string;
  rd_cpu : num;
  rd_memory : num;
  rd_available_gb : num;
  rd_disk : num;
  rd_pids : Z;
  rd_cpu_freq : num;
  rd_procs : list pyval;
  rd_clock : string
}.

(** [collect_system_metrics] / [collect_metrics] *)
Definition collect_system_metrics (r : reading) : pyval :=
  snapshot (rd_timestamp r) (rd_cpu r) (rd_memory r) (rd_available_gb r)
           (rd_disk r) (rd_pids r) (rd_cpu_freq r).

(** The class index of a state name: [state_map[state]]. *)
Definition state_map (state : string) : result Z :=
  if String.eqb state "IDLE" then Ok 0
  else if String.eqb state "MODERATE" then Ok 1
  else if String.eqb state "HIGH_LOAD" then Ok 2
  else if String.eqb state "CRITICAL" then Ok 3
  else Raise (KeyError state).

(** The state name of a class index, the reverse table of [predict_state]. *)
Definition state_of_class (c : Z) : result string :=
  if c =? 0 then Ok "IDLE"
  else if c =? 1 then Ok "MODERATE"
  else if c =? 2 then Ok "HIGH_LOAD"
  else if c =? 3 then Ok "CRITICAL"
  else Raise (KeyError (print_int c)).

(** The feature row of a history entry. *)
Definition features_of (entry : pyval) : result (list pyval) :=
  do cpu <- py_getitem entry "cpu_percent";
  do mem <- py_getitem entry "memory_percent";
  do disk <- py_getitem entry "disk_percent";
  do count <- py_getitem entry "process_count";
  Ok [cpu; mem; disk; count].

(** ** The command-line manager, [WindowsConfigManager] *)

Module Windows.
Section Windows.
Context `{PyFormat} `{Sklearn}.

Definition config_file : string := "system_metrics.json".
Definition model_file : string := "config_model.pkl".

(** [__init__] *)
Definition init : manager :=
  {| metrics_history := PList []; model := None; scaler := scaler_new |}.

(** The loop of [train_model] that fills [X] and [y]. *)
Fixpoint training_data (entries : list pyval) (X : list (list pyval)) (y : list Z)
    : result (list (list pyval) * list Z) :=
  match entries with
  | [] => Ok (X, y)
  | entry :: rest =>
      do features <- features_of entry;
      do state <- analyze_system_state entry;
      do label <- state_map state;
      training_data rest (X ++ [features]) (y ++ [label])
  end.

Definition train_model : M bool :=
  let* history := get_history in
  let* n := lift (py_len history) in
  if (n <? 10)%nat then
    print "⚠️  Not enough data to train model (need at least 10 samples)";;
    ret false
  else
    let* entries := lift (py_iter history) in
    let* Xy := lift (training_data entries [] []) in
    let* s := get_scaler in
    let* s := lift (scaler_fit s (fst Xy)) in
    set_scaler s;;
    let* X_scaled := lift (scaler_transform s (fst Xy)) in
    set_model (Some tree_new);;
    let* t := lift (tree_fit tree_new X_scaled (snd Xy)) in
    set_model (Some t);;
    write_file model_file (Pickle t s);;
    print "✅ ML Model trained successfully!";;
    ret true.

Definition predict_state (metrics : pyval) : M pyval :=
  let* m := get_model in
  match m with
  | None => ret PNone
  | Some t =>
      let* features := lift (features_of metrics) in
      let* s := get_scaler in
      let* X_scaled := lift (scaler_transform s [features]) in
      let* predictions := lift (tree_predict t X_scaled) in
      match predictions with
      | [] => lift (Raise IndexError)
      | prediction :: _ =>
          let* state := lift (state_of_class prediction) in
          ret (PStr state)
      end
  end.

Definition save_metrics : M unit :=
  let* history := get_history in
  write_file config_file (Text (json_dumps (Some 2%nat) history)).

Definition load_metrics : M unit :=
  let* found := path_exists config_file in
  if found then
    try_except
      (let* content := read_text config_file in
       let content := strip content in
       if negb (String.eqb content "") then
         let* history := lift (json_loads content) in
         set_history history;;
         let* n := lift (py_len history) in
         print ("✅ Loaded " ++ print_nat (Z.of_nat n) ++ " historical records")
       else
         print "⚠️  Empty metrics file, starting fresh";;
         set_history (PList []))
      (fun e =>
         match e with
         | JSONDecodeError =>
             print "⚠️  Corrupted metrics file, starting fresh";;
             set_history (PList [])
         | _ => lift (Raise e)
         end)
  else
    print "ℹ️  No previous data found, starting fresh".

Definition load_model : M bool :=
  let* found := path_exists model_file in
  if found then
    try_except
      (let* empty := file_is_empty model_file in
       if negb empty then
         let* data := read_pickle model_file in
         let* m := lift (pickled_item (fst data) "model") in
         set_model (Some m);;
         let* s := lift (pickled_item (snd data) "scaler") in
         set_scaler s;;
         print "✅ ML Model loaded successfully!";;
         ret true
       else
         print "⚠️  Empty model file, will need to train";;
         ret false)
      (fun e =>
         print ("⚠️  Could not load model: " ++ str_of_exn e);;
         print "ℹ️  You can train a new model using option 3";;
         ret false)
  else
    print "ℹ️  No trained model found, you can train one using option 3";;
    ret false.

(** ['='*60] *)
Definition rule : string :=
  "============================================================".

Fixpoint print_all (actions : list pyval) : M unit :=
  match actions with
  | [] => ret tt
  | a :: rest => print (py_format a);; print_all rest
  end.

(** One pass of the loop of [run_monitoring]; [count] is the value of the
    counter before the pass. *)
Definition monitoring_pass (count : nat) (r : reading) : M unit :=
  let count := S count in
  let metrics := collect_system_metrics r in
  let* state := lift (analyze_system_state metrics) in
  let* m := get_model in
  let* predicted_state :=
    match m with
    | Some _ => predict_state metrics
    | None => ret PNone
    end in
  let* history := get_history in
  let* history := lift (py_append history metrics) in
  set_history history;;
  let* recommendations := lift (get_recommendations (rd_procs r) metrics (PStr state)) in
  print (newline ++ rule);;
  print ("📸 Sample #" ++ print_nat (Z.of_nat count) ++ " | " ++ rd_clock r);;
  print rule;;
  let* priority := lift (py_getitem recommendations "priority") in
  print ("State: " ++ state ++ " | Priority: " ++ py_format priority);;
  (if py_truthy predicted_state && negb (py_eq_str predicted_state state)
   then print ("🤖 AI Prediction: " ++ py_format predicted_state)
   else ret tt);;
  let* actions := lift (py_getitem recommendations "actions") in
  let* actions := lift (py_iter actions) in
  print_all actions;;
  if (count `mod` 3 =? 0)%nat then save_metrics else ret tt.

Fixpoint monitoring_loop (count : nat) (readings : list reading) : M unit :=
  match readings with
  | [] => ret tt
  | r :: rest => monitoring_pass count r;; monitoring_loop (S count) rest
  end.

(** [run_monitoring]: the loop runs once for each reading taken before
    [duration] seconds have passed. *)
Definition run_monitoring (duration interval : Z) (readings : list reading) : M unit :=
  print ("🔄 Starting monitoring for " ++ print_int duration ++
         " seconds (interval: " ++ print_int interval ++ "s)");;
  print ("📊 Collecting data for AI training..." ++ newline);;
  monitoring_loop 0 readings;;
  save_metrics;;
  let* history := get_history in
  let* n := lift (py_len history) in
  print (newline ++ "✅ Monitoring complete! Collected " ++
         print_nat (Z.of_nat n) ++ " samples").

End Windows.
End Windows.

(** ** The Streamlit manager, [ConfigManager] *)

Module Streamlit.
Section Streamlit.
Context `{PyFormat} `{Sklearn}.

Definition metrics_file : string := "streamlit_metrics.json".
Definition model_file : string := "streamlit_model.pkl".

Definition init : manager :=
  {| metrics_history := PList []; model := None; scaler := scaler_new |}.

(** [st.error(text)] shows the text on the page. *)
Definition st_error (text : string) : M unit := print text.

Definition save_metrics (metrics : pyval) : M unit :=
  let* history := get_history in
  let* history := lift (py_append history metrics) in
  set_history history;;
  let* n := lift (py_len history) in
  (if (100 <? n)%nat then
     let* history := lift (py_last 100 history) in
     set_history history
   else ret tt);;
  try_except
    (let* history := get_history in
     write_file metrics_file (Text (json_dumps None history)))
    (fun e => st_error ("Error saving metrics: " ++ str_of_exn e)).

Definition load_metrics : M unit :=
  let* found := path_exists metrics_file in
  if found then
    try_except
      (let* content := read_text metrics_file in
       let content := strip content in
       if negb (String.eqb content "") then
         let* history := lift (json_loads content) in
         set_history history
       else ret tt)
      (fun _ => set_history (PList []))
  else ret tt.

Definition state_map (state : string) : result Z :=
  if String.eqb state "OPTIMAL" then Ok 0
  else if String.eqb state "MODERATE" then Ok 1
  else if String.eqb state "HIGH LOAD" then Ok 2
  else if String.eqb state "CRITICAL" then Ok 3
  else Raise (KeyError state).

Fixpoint training_data (entries : list pyval) (X : list (list pyval)) (y : list Z)
    : result (list (list pyval) * list Z) :=
  match entries with
  | [] => Ok (X, y)
  | entry :: rest =>
      do features <- features_of entry;
      do state <- analyze_state entry;
      do label <- state_map (fst state);
      training_data rest (X ++ [features]) (y ++ [label])
  end.

Definition train_model : M (bool * string) :=
  let* history := get_history in
  let* n := lift (py_len history) in
  if (n <? 10)%nat then ret (false, "Need at least 10 samples to train")
  else
    let* entries := lift (py_iter history) in
    let* Xy := lift (training_data entries [] []) in
    let* s := get_scaler in
    let* s := lift (scaler_fit s (fst Xy)) in
    set_scaler s;;
    let* X_scaled := lift (scaler_transform s (fst Xy)) in
    set_model (Some tree_new);;
    let* t := lift (tree_fit tree_new X_scaled (snd Xy)) in
    set_model (Some t);;
    try_except
      (write_file model_file (Pickle t s);;
       ret (true, "Model trained successfully"))
      (fun e => ret (false, "Error saving model: " ++ str_of_exn e)).

End Streamlit.
End Streamlit.

(** ** Histories and runs *)

(** [l[-k:]] on a list. *)
Definition last_n {A} (k : nat) (l : list A) : list A := drop (length l - k) l.

(** A reading whose process enumeration consists of process samples. *)
Definition wf_reading (r : reading) : Prop :=
  exists samples, rd_procs r = map info_of samples.

Module Runs.
Section Runs.
Context `{PyFormat} `{Sklearn}.

(** The Streamlit page collects one sample per click of "Collect Data
    Sample": [save_metrics] once for each. *)
Fixpoint save_all (samples : list pyval) : M unit :=
  match samples with
  | [] => ret tt
  | metrics :: rest => Streamlit.save_metrics metrics;; save_all rest
  end.

(** The world after a computation, and its history. *)
Definition after {A} (m : M A) (w : world) : world := snd (m w).
Definition outcome {A} (m : M A) (w : world) : result A := fst (m w).
Definition history_of (w : world) : pyval := metrics_history (self w).

(** Between [w] and [w'] the history is the same, element for element, the
    same paths refuse writes, and every file but [path] is as it was. *)
Definition untouched (path : string) (w w' : world) : Prop :=
  history_of w' = history_of w /\
  fs_denied (fs w') = fs_denied (fs w) /\
  forall p, p <> path -> fs_files (fs w') !! p = fs_files (fs w) !! p.

(** A computation that, however it ends, changes at most the model, the
    scaler, the printed text and the file [path]. *)
Definition keeps {A} (path : string) (m : M A) : Prop :=
  forall w, untouched path w (after m w).

(** The manager after a fit, and the world after the model file is
    written. *)
Definition trained (w : world) (s : sk_scaler) (t : sk_model) : world :=
  {| self := {| metrics_history := history_of w; model := Some t; scaler := s |};
     fs := fs w; stdout := stdout w |}.

Definition model_saved (path : string) (w : world) : world :=
  match model (self w) with
  | Some t =>
      {| self := self w;
         fs := {| fs_files := <[path := Pickle t (scaler (self w))]> (fs_files (fs w));
                  fs_denied := fs_denied (fs w) |};
         stdout := stdout w |}
  | None => w
  end.

Definition printed (line : string) (w : world) : world :=
  {| self := self w; fs := fs w; stdout := stdout w ++ [line] |}.

End Runs.
End Runs.

(** ** Well-formed histories *)

(** An entry is a snapshot when it is a dictionary of the sampler. *)
Definition is_snapshot (e : pyval) : Prop :=
  exists ts cpu mem avail disk pc freq, e = snapshot ts cpu mem avail disk pc freq.

(** The class index of a state, the label the trainer derives. *)
Definition class_of (s : State) : Z := Z.of_nat (severity s).

(** A fitted pair: what [train_model] computes from the entries of a
    history, step by step, starting from the scaler [s0]. *)
Definition fitted `{Sklearn} (s0 : sk_scaler) (X : list (list pyval)) (y : list Z)
    (s : sk_scaler) (t : sk_model) : Prop :=
  exists M, scaler_fit s0 X = Ok s /\ scaler_transform s X = Ok M /\
            tree_fit tree_new M y = Ok t.

(** A number the sampler reports: a float shows a fractional digit. *)
Definition wf_num (x : num) : Prop :=
  match x with
  | NInt _ => True
  | NFloat d => (1 <= dscale d)%nat
  end.

(** A row of the table the trainer derives from snapshots. *)
Definition table_row (row : list pyval) : Prop :=
  length row = 4%nat /\ Forall is_number row.

(** ** Closed examples *)

Module Examples.

Definition empty_fs : filesystem (H0 := constant_learner) :=
  {| fs_files := ∅; fs_denied := ∅ |}.

(** A world with the given manager, no files and nothing printed. *)
Definition world_of (m : manager (H0 := constant_learner)) : world :=
  {| self := m; fs := empty_fs; stdout := [] |}.

(** The [i]-th of a series of distinct snapshots: cpu [i mod 100]. *)
Definition sample_no (i : nat) : pyval :=
  sample (NInt (Z.of_nat i `mod` 100)) (NFloat (Dec 425 1)).

Definition samples_150 : list pyval := map sample_no (seq 0 150).

Definition reading_0 : reading :=
  {| rd_timestamp := "2024-01-01T00:00:00"; rd_cpu := NFloat (Dec 905 1);
     rd_memory := NFloat (Dec 500 1); rd_available_gb := NFloat (Dec 40 1);
     rd_disk := NFloat (Dec 100 1); rd_pids := 100;
     rd_cpu_freq := NFloat (Dec 24000 1);
     rd_procs := map info_of [ {| ps_name := "python.exe";
                                  ps_cpu := NFloat (Dec 125 1);
                                  ps_memory := NFloat (Dec 31234 4) |} ];
     rd_clock := "12:00:00" |}.

(** A command-line manager whose history already holds 100 snapshots. *)
Definition manager_100 : manager (H0 := constant_learner) :=
  {| metrics_history := PList (map sample_no (seq 0 100));
     model := None; scaler := scaler_new |}.

(** A manager with ten snapshots and no model, and a world where the
    Streamlit model file cannot be written. *)
Definition manager_10 : manager (H0 := constant_learner) :=
  {| metrics_history := PList (map sample_no (seq 0 10));
     model := None; scaler := scaler_new |}.

Definition world_model_denied : world :=
  {| self := manager_10;
     fs := {| fs_files := ∅; fs_denied := {[ Streamlit.model_file ]} |};
     stdout := [] |}.

(** A world where the metrics file of the command-line manager holds the
    text [42]. *)
Definition world_metrics_42 : world (H0 := constant_learner) :=
  {| self := Windows.init;
     fs := {| fs_files := {[ Windows.config_file := Text "42" ]}; fs_denied := ∅ |};
     stdout := [] |}.

End Examples.

(** The priority the data model pairs with each state. *)
Definition priority_name (s : State) : string :=
  match s with
  | IDLE => "LOW"
  | MODERATE => "MEDIUM"
  | HIGH_LOAD => "HIGH"
  | CRITICAL => "CRITICAL"
  end.

(** The priority of the branch [get_recommendations] takes for a state. *)
Definition branch_priority (state : pyval) : string :=
  if py_eq_str state "CRITICAL" then "CRITICAL"
  else if py_eq_str state "HIGH_LOAD" then "HIGH"
  else if py_eq_str state "MODERATE" then "MEDIUM"
  else "LOW".

(** The ranking on typed samples: the active samples, decorated with their
    usage, sorted, undecorated. *)
Definition ranked (samples : list ProcessSample) : list ProcessSample :=
  map snd (sort_desc (map (fun p => (ps_usage p, p)) (List.filter ps_active samples))).

(** [a] may stand before [b] in the ranking. *)
Definition usage_desc (a b : ProcessSample) : Prop :=
  num_le (ps_usage b) (ps_usage a).

Definition has_usage (k : num) (p : ProcessSample) : bool :=
  num_eqb (ps_usage p) k.

(** [x] may stand before [y] in a descending list, and [x] has key [k]. *)
Definition desc {A} (x y : num * A) : Prop := num_le (fst y) (fst x).

Definition has_key {A} (k : num) (x : num * A) : bool := num_eqb (fst x) k.

(** A pair of the decorated list: a sample with its usage. *)
Definition decorated (x : num * ProcessSample) : Prop := fst x = ps_usage (snd x).

(** ** The Streamlit page

    [ConfigManager.get_recommendations] and [ConfigManager.get_top_processes]
    of [streamlit_config_app.py], and the lines of the page script that call
    the classifier and the advice. *)

(** [round(x, 2)] is the Python runtime's; it is kept abstract, no property
    below depends on the digits it keeps. *)
Class PyRound : Type := { round_2 : num -> num }.

(** A rounding for closed examples.  [round(x, 2)] of a float rounds the
    exact value of the double to hundredths, ties to even, and returns the
    float of that decimal; an [int] is returned as it is. *)
Definition decimal_round_2 (x : num) : num :=
  match x with
  | NInt z => NInt z
  | NFloat _ =>
      let k := float_units x in
      let a := Z.abs k * 100 in
      let p := 2 ^ 1074 in
      let q := a / p in
      let rem := a mod p in
      let q := if p <? 2 * rem then q + 1
               else if 2 * rem =? p then (if Z.even q then q else q + 1)
               else q in
      NFloat (Dec (Z.sgn k * q) 2)
  end.

Definition decimal_round : PyRound := {| round_2 := decimal_round_2 |}.

(** [v is None] *)
Definition py_is_none (v : pyval) : bool :=
  match v with PNone => true | _ => false end.

Module StreamlitApp.

(** [get_recommendations(state, metrics)]: [metrics] is not read. *)
Definition get_recommendations (state metrics : pyval) : pyval :=
  if py_eq_str state "CRITICAL" then
    PList [PStr "CRITICAL: System under heavy load";
           PStr "Close unnecessary applications immediately";
           PStr "Disable startup programs";
           PStr "Clear temporary files";
           PStr "Restart high-memory processes"]
  else if py_eq_str state "HIGH LOAD" then
    PList [PStr "System experiencing high load";
           PStr "Consider closing browser tabs";
           PStr "Disable background applications";
           PStr "Check for Windows updates running"]
  else if py_eq_str state "MODERATE" then
    PList [PStr "System running normally";
           PStr "Performance optimizations available";
           PStr "Consider disk cleanup if needed"]
  else
    PList [PStr "System running optimally";
           PStr "No immediate actions needed";
           PStr "Good time for maintenance tasks"].

(** The page script: [state, color = manager.analyze_state(metrics)] and
    then [manager.get_recommendations(state, metrics)]. *)
Definition page_advice (metrics : pyval) : result pyval :=
  do st <- analyze_state metrics;
  Ok (get_recommendations (PStr (fst st)) metrics).

Section Ranking.
Context `{PyRound}.

(** [round(v, 2)] *)
Definition py_round_2 (v : pyval) : result pyval :=
  match as_num v with
  | Some x => Ok (PNum (round_2 x))
  | None => Raise TypeError
  end.

(** The loop of [get_top_processes]: a process whose counters are [None]
    is passed over before the counters are compared. *)
Fixpoint collect_processes (procs : list pyval) (processes : list pyval)
    : result (list pyval) :=
  match procs with
  | [] => Ok processes
  | info :: rest =>
      do c <- py_getitem info "cpu_percent";
      do known <- (if py_is_none c then Ok false else
                   do m <- py_getitem info "memory_percent";
                   Ok (negb (py_is_none m)));
      if known then
        do c <- py_getitem info "cpu_percent";
        do c_pos <- py_gt c 0;
        do keep <- (if c_pos then Ok true else
                    do m <- py_getitem info "memory_percent"; py_gt m 0);
        if keep then
          do name <- py_getitem info "name";
          do cpu <- py_getitem info "cpu_percent";
          do cpu <- py_round_2 cpu;
          do memory <- py_getitem info "memory_percent";
          do memory <- py_round_2 memory;
          collect_processes rest
            (processes ++
             [PDict [("Process", name); ("CPU (%)", cpu); ("Memory (%)", memory)]])
        else collect_processes rest processes
      else collect_processes rest processes
  end.

(** [lambda x: x['CPU (%)'] + x['Memory (%)']] *)
Definition usage_key (x : pyval) : result num :=
  do c <- py_getitem x "CPU (%)";
  do m <- py_getitem x "Memory (%)";
  py_add c m.

Definition get_top_processes (n : nat) (procs : list pyval) : result (list pyval) :=
  do processes <- collect_processes procs [];
  do processes <- py_sort_desc usage_key processes;
  Ok (take n processes).

End Ranking.
End StreamlitApp.

(** ** The dashboard endpoint, [get_metrics] of [dashboard.py] *)

Module Dashboard.
Section Dashboard.
Context `{PyFormat}.

(** The [metrics] dictionary of the endpoint: it has no timestamp and no
    available memory. *)
Definition metrics_of (r : reading) : pyval :=
  PDict [ ("cpu_percent", PNum (rd_cpu r));
          ("memory_percent", PNum (rd_memory r));
          ("disk_percent", PNum (rd_disk r));
          ("process_count", PInt (rd_pids r));
          ("cpu_freq", PNum (rd_cpu_freq r)) ].

(** The dictionary that [get_metrics] hands to [jsonify]. *)
Definition get_metrics (r : reading) : result pyval :=
  let metrics := metrics_of r in
  do state <- analyze_system_state metrics;
  do recommendations <- dashboard_get_recommendations metrics (PStr state);
  do top_processes <- get_top_processes 5 (rd_procs r);
  Ok (PDict [ ("metrics", metrics);
              ("state", PStr state);
              ("recommendations", recommendations);
              ("top_processes", PList top_processes);
              ("timestamp", PStr (rd_timestamp r)) ]).

End Dashboard.
End Dashboard.

(** ** Process reports with unread counters

    What psutil reports for a process: a counter it may not read is [None].
    [measured] is the sample of a process whose counters were both read. *)

Record ProcessInfo : Type := {
  pi_name : string;
  pi_cpu : option num;
  pi_memory : option num
}.

Definition counter (o : option num) : pyval :=
  match o with Some x => PNum x | None => PNone end.

Definition pinfo_of (p : ProcessInfo) : pyval :=
  PDict [("name", PStr (pi_name p)); ("cpu_percent", counter (pi_cpu p));
         ("memory_percent", counter (pi_memory p))].

Definition measured (p : ProcessInfo) : option ProcessSample :=
  match pi_cpu p, pi_memory p with
  | Some c, Some m => Some {| ps_name := pi_name p; ps_cpu := c; ps_memory := m |}
  | _, _ => None
  end.

(** The ranking by an arbitrary key: decorate, sort, undecorate. *)
Definition ranked_by {A} (key : A -> num) (l : list A) : list A :=
  map snd (sort_desc (map (fun a => (key a, a)) l)).

Section Rows.
Context `{PyRound}.

(** The row the Streamlit ranking shows for a sample, and the usage it
    sorts by: the sum of the two rounded counters. *)
Definition row_of (p : ProcessSample) : pyval :=
  PDict [("Process", PStr (ps_name p)); ("CPU (%)", PNum (round_2 (ps_cpu p)));
         ("Memory (%)", PNum (round_2 (ps_memory p)))].

Definition shown_usage (p : ProcessSample) : num :=
  num_add (round_2 (ps_cpu p)) (round_2 (ps_memory p)).

End Rows.

(** ** More closed examples *)

Module Scenarios.

(** A world with the given manager in which [path] holds the text
    [content], and one in which neither metrics file can be written. *)
Definition world_with (m : manager (H0 := constant_learner)) (path content : string)
    : world :=
  {| self := m;
     fs := {| fs_files := {[ path := Text content ]}; fs_denied := ∅ |};
     stdout := [] |}.

Definition world_unwritable (m : manager (H0 := constant_learner)) : world :=
  {| self := m;
     fs := {| fs_files := ∅;
              fs_denied := {[ Windows.config_file; Streamlit.metrics_file ]} |};
     stdout := [] |}.

(** A manager whose tenth entry is an empty dictionary. *)
Definition manager_bad_entry : manager (H0 := constant_learner) :=
  {| metrics_history := PList (map Examples.sample_no (seq 0 9) ++ [PDict []]);
     model := None; scaler := scaler_new |}.

(** A world in which the model file is the pickle of a dictionary with a
    model and no scaler. *)
Definition world_model_only (m : manager (H0 := constant_learner)) : world :=
  {| self := m;
     fs := {| fs_files :=
                {[ Windows.model_file :=
                     @PartialPickle constant_learner (Some (Some 2)) ]};
              fs_denied := ∅ |};
     stdout := [] |}.

(** A manager as it is after a restart, on the files of [w]. *)
Definition restarted (w : world (H0 := constant_learner)) : world :=
  {| self := Windows.init; fs := fs w; stdout := [] |}.

Definition python_exe : ProcessSample :=
  {| ps_name := "python.exe"; ps_cpu := NFloat (Dec 125 1);
     ps_memory := NFloat (Dec 31234 4) |}.

(** Two processes whose usages differ only in the last place of the float
    sum: [0.3 + 0.0] is [0.3], and [0.1 + 0.2] is the next float above it. *)
Definition proc_a : ProcessSample :=
  {| ps_name := "a.exe"; ps_cpu := NFloat (Dec 3 1); ps_memory := NFloat (Dec 0 1) |}.

Definition proc_b : ProcessSample :=
  {| ps_name := "b.exe"; ps_cpu := NFloat (Dec 1 1); ps_memory := NFloat (Dec 2 1) |}.

(** What psutil reports for a process whose counters it read. *)
Definition reported (p : ProcessSample) : ProcessInfo :=
  {| pi_name := ps_name p; pi_cpu := Some (ps_cpu p); pi_memory := Some (ps_memory p) |}.

(** The report of a process whose counters psutil could not read. *)
Definition unread : pyval :=
  PDict [("name", PStr "System"); ("cpu_percent", PNone); ("memory_percent", PNone)].

End Scenarios.

(** ** The menu of the command-line front end

    [display_system_info] and [main] of [windows_config_manager.py].  What
    the platform reports is given: the texts of the operating system and the
    processor, the text of the total memory as [:.2f] writes it, and the two
    core counts.  The menu reads one line per turn; [typed] is that line,
    [r] the reading a quick analysis takes and [readings] those a monitoring
    run takes during the turn.  The prompt of [input] is recorded with the
    printed lines. *)

Record platform : Type := {
  pf_system : string;
  pf_release : string;
  pf_processor : string;
  pf_total_ram : string;
  pf_physical : pyval;
  pf_logical : pyval
}.

Module WindowsMain.
Section WindowsMain.
Context `{PyFormat} `{Sklearn}.

Definition display_system_info (p : platform) : M unit :=
  print (newline ++ Windows.rule);;
  print "🖥️  WINDOWS AI-POWERED CONFIGURATION MANAGER";;
  print Windows.rule;;
  print ("OS: " ++ pf_system p ++ " " ++ pf_release p);;
  print ("Processor: " ++ pf_processor p);;
  print ("Total RAM: " ++ pf_total_ram p ++ " GB");;
  print ("CPU Cores: " ++ py_format (pf_physical p) ++ " Physical | " ++
         py_format (pf_logical p) ++ " Logical");;
  print (Windows.rule ++ newline).

(** Choice 1: one analysis, reported; the sample is not kept. *)
Definition quick_analysis (r : reading) : M unit :=
  print (newline ++ "🔍 Analyzing system...");;
  let metrics := collect_system_metrics r in
  let* state := lift (analyze_system_state metrics) in
  let* recommendations :=
    lift (get_recommendations (rd_procs r) metrics (PStr state)) in
  print (newline ++ Windows.rule);;
  print "📊 SYSTEM ANALYSIS REPORT";;
  print Windows.rule;;
  print ("State: " ++ state);;
  let* priority := lift (py_getitem recommendations "priority") in
  print ("Priority: " ++ py_format priority ++ newline);;
  let* actions := lift (py_getitem recommendations "actions") in
  let* actions := lift (py_iter actions) in
  Windows.print_all actions;;
  print Windows.rule.

(** The loop of choice 4 over [enumerate(recent, 1)]. *)
Fixpoint print_recent (i : nat) (recent : list pyval) : M unit :=
  match recent with
  | [] => ret tt
  | entry :: rest =>
      let* timestamp := lift (py_getitem entry "timestamp") in
      print (newline ++ print_nat (Z.of_nat i) ++ ". " ++ py_format timestamp);;
      let* cpu := lift (py_getitem entry "cpu_percent") in
      let* cpu_s := lift (py_format_1f cpu) in
      let* mem := lift (py_getitem entry "memory_percent") in
      let* mem_s := lift (py_format_1f mem) in
      print ("   CPU: " ++ cpu_s ++ "% | RAM: " ++ mem_s ++ "%");;
      print_recent (S i) rest
  end.

(** Choice 4: the number of records and the last five of them. *)
Definition view_history : M unit :=
  let* history := get_history in
  let* n := lift (py_len history) in
  print (newline ++ "📈 Historical Records: " ++ print_nat (Z.of_nat n));;
  if py_truthy history then
    let* recent := lift (py_last 5 history) in
    print (newline ++ "Last 5 samples:");;
    let* recent := lift (py_iter recent) in
    print_recent 1 recent
  else
    print "⚠️  No historical data available".

(** One turn of the loop of [main]; the result tells whether the loop goes
    on ([break] is [false]). *)
Definition menu_step (typed : string) (r : reading) (readings : list reading)
    : M bool :=
  print (newline ++ Windows.rule);;
  print "🤖 AI CONFIGURATION MANAGER - MAIN MENU";;
  print Windows.rule;;
  print "1. 📊 Quick System Analysis (Single Check)";;
  print "2. 🔄 Start Monitoring (60 seconds)";;
  print "3. 🧠 Train AI Model";;
  print "4. 📈 View Historical Data";;
  print "5. 🚀 Extended Monitoring (5 minutes)";;
  print "6. ❌ Exit";;
  print Windows.rule;;
  print (newline ++ "Select option (1-6): ");;
  let choice := strip typed in
  if String.eqb choice "1" then
    quick_analysis r;;
    ret true
  else if String.eqb choice "2" then
    Windows.run_monitoring 60 5 readings;;
    ret true
  else if String.eqb choice "3" then
    print (newline ++ "🧠 Training AI Model...");;
    let* trained := Windows.train_model in
    (if trained : bool then print "✅ Model ready for predictions!" else ret tt);;
    ret true
  else if String.eqb choice "4" then
    view_history;;
    ret true
  else if String.eqb choice "5" then
    Windows.run_monitoring 300 10 readings;;
    ret true
  else if String.eqb choice "6" then
    print (newline ++ "👋 Saving data and exiting...");;
    Windows.save_metrics;;
    print "✅ Goodbye!";;
    ret false
  else
    print "❌ Invalid option. Please try again.";;
    ret true.

(** The loop of [main] on the lines typed so far: [true] when it has left
    the loop, [false] when it waits for the next line. *)
Fixpoint menu_loop (turns : list (string * reading * list reading)) : M bool :=
  match turns with
  | [] => ret false
  | (typed, r, readings) :: rest =>
      let* go_on := menu_step typed r readings in
      if go_on : bool then menu_loop rest else ret true
  end.

(** [main]: a new manager, the banner, the saved history and model, then the
    menu. *)
Definition main (p : platform) (turns : list (string * reading * list reading))
    : M bool :=
  set_history (PList []);;
  set_model None;;
  set_scaler scaler_new;;
  display_system_info p;;
  Windows.load_metrics;;
  Windows.load_model;;
  menu_loop turns.

End WindowsMain.
End WindowsMain.

(** ** Sessions of the menu *)

(** The snapshots a turn adds to the history (those of a monitoring run),
    whether a turn leaves the menu, and the turns that are played: those up
    to the first that leaves. *)
Definition turn_samples (t : string * reading * list reading) : list pyval :=
  if String.eqb (strip (fst (fst t))) "2" || String.eqb (strip (fst (fst t))) "5"
  then map collect_system_metrics (snd t) else [].

Definition is_exit (t : string * reading * list reading) : bool :=
  String.eqb (strip (fst (fst t))) "6".

Fixpoint played (turns : list (string * reading * list reading))
    : list (string * reading * list reading) :=
  match turns with
  | [] => []
  | t :: rest => if is_exit t then [t] else t :: played rest
  end.

Definition wf_turn (t : string * reading * list reading) : Prop :=
  wf_reading (snd (fst t)) /\ Forall wf_reading (snd t).

(** A manager whose model, if it has one, was fitted by [train_model] on a
    table of snapshots. *)
Definition model_ok `{Sklearn} (m : manager) : Prop :=
  model m = None \/
  exists s0 X y t,
    model m = Some t /\ fitted s0 X y (scaler m) t /\
    X <> [] /\ Forall table_row X /\ Forall (fun c => 0 <= c <= 3) y.

(** A world in which a session can run: the history is a list of snapshots,
    the model is absent or fitted, and both files can be written. *)
Definition session_ok `{Sklearn} (w : world) : Prop :=
  (exists l, metrics_history (self w) = PList l /\ Forall is_snapshot l) /\
  model_ok (self w) /\
  (Windows.config_file ∉ fs_denied (fs w)) /\
  (Windows.model_file ∉ fs_denied (fs w)).

(** A machine and the lines of a short session: a monitoring run of two
    passes, a line that is no option, and the exit. *)
Module Sessions.

Definition this_machine : platform :=
  {| pf_system := "Windows"; pf_release := "10";
     pf_processor := "Intel64 Family 6 Model 142 Stepping 10, GenuineIntel";
     pf_total_ram := "15.89"; pf_physical := PInt 4; pf_logical := PInt 8 |}.

Definition monitor_then_exit : list (string * reading * list reading) :=
  [("2", Examples.reading_0, [Examples.reading_0; Examples.reading_0]);
   ("help", Examples.reading_0, []);
   (" 6 ", Examples.reading_0, [])].

End Sessions.

(** * Properties *)

(** ** Numbers *)

Lemma pow10_pos k : 0 < pow10 k.
Proof. unfold pow10. apply Z.pow_pos_nonneg; lia. Qed.

Lemma as_num_PNum x : as_num (PNum x) = Some x.
Proof. by destruct x. Qed.

Lemma py_gt_PNum x k : py_gt (PNum x) k = Ok (num_gtb x (NInt k)).
Proof. unfold py_gt. by rewrite as_num_PNum. Qed.

Lemma num_gtb_lt x y : num_gtb x y = true <-> num_lt y x.
Proof. unfold num_gtb, num_lt. apply Z.ltb_lt. Qed.

Lemma num_gtb_le x y : num_gtb x y = false <-> num_le x y.
Proof. unfold num_gtb, num_le. apply Z.ltb_ge. Qed.

Lemma num_gtb_mono x y k :
  num_le x y -> num_gtb x (NInt k) = true -> num_gtb y (NInt k) = true.
Proof.
  unfold num_le. rewrite !num_gtb_lt. unfold num_lt. simpl.
  pose proof (pow10_pos (num_scale x)) as Hx.
  pose proof (pow10_pos (num_scale y)) as Hy.
  rewrite !Z.mul_1_r. intros Hle Hlt.
  apply (Z.mul_lt_mono_pos_r (pow10 (num_scale x))); [done|].
  apply Z.lt_le_trans with (num_mant x * pow10 (num_scale y)); [|lia].
  replace (k * pow10 (num_scale y) * pow10 (num_scale x))
    with (k * pow10 (num_scale x) * pow10 (num_scale y)) by ring.
  by apply Z.mul_lt_mono_pos_r.
Qed.

(** ** Float addition *)

(** The significand [round_units] keeps: at most 53 bits, or [2^53] when
    rounding carries into the next binade; the double it stands for is
    within half a unit in the last place of [n / d], and on a tie the
    significand is even. *)
Lemma round_units_nearest n d :
  0 < d ->
  let shift := Z.max 0 (Z.log2 (Z.abs n / d) + 1 - 53) in
  exists q,
    0 <= q <= 2 ^ 53 /\
    round_units n d = Z.sgn n * Z.min (q * 2 ^ shift) float_inf /\
    2 * Z.abs (q * 2 ^ shift * d - Z.abs n) <= d * 2 ^ shift /\
    (2 * Z.abs (q * 2 ^ shift * d - Z.abs n) = d * 2 ^ shift -> Z.even q = true).
Proof.
  intros Hd shift. unfold round_units. fold shift.
  set (a := Z.abs n). set (step := d * 2 ^ shift).
  assert (0 <= a) as Ha by apply Z.abs_nonneg.
  assert (0 <= shift) as Hshift by (unfold shift; lia).
  assert (0 < 2 ^ shift) as Hpow by (by apply Z.pow_pos_nonneg).
  assert (0 < step) as Hstep by (unfold step; nia).
  pose proof (Z.div_mod a step ltac:(lia)) as Hdm.
  pose proof (Z.mod_pos_bound a step Hstep) as Hr.
  assert (0 <= a / step) as Hq0 by (apply Z.div_pos; lia).
  assert (a / step < 2 ^ 53) as Hq53.
  { unfold step. rewrite <- Z.div_div by lia.
    apply Z.div_lt_upper_bound; [done|].
    destruct (Z.eq_dec (a / d) 0) as [-> | Hne]; [nia|].
    assert (0 < a / d) as Hpos.
    { pose proof (Z.div_pos a d Ha Hd). lia. }
    pose proof (Z.log2_spec (a / d) Hpos) as [_ Hlt].
    eapply Z.lt_le_trans; [exact Hlt|].
    rewrite <- Z.pow_add_r by lia.
    apply Z.pow_le_mono_r; [lia|]. unfold shift. fold a. lia. }
  set (q := a / step) in *. set (r := a mod step) in *.
  assert (q * 2 ^ shift * d = q * step) as Hqs by (unfold step; lia).
  destruct ((step <? 2 * r) || (2 * r =? step) && Z.odd q) eqn:Hup.
  - exists (q + 1). split; [lia|]. split; [done|].
    assert ((q + 1) * 2 ^ shift * d = (q + 1) * step) as -> by (unfold step; lia).
    apply orb_true_iff in Hup.
    assert (step <= 2 * r /\ (2 * r = step -> Z.odd q = true)) as [Hhalf Hodd].
    { destruct Hup as [Hup | Hup].
      - apply Z.ltb_lt in Hup. split; lia.
      - apply andb_true_iff in Hup as [Heq Hodd]. apply Z.eqb_eq in Heq. split; [lia|done]. }
    split; [lia|]. intros Htie.
    rewrite Z.even_add, <- Z.negb_odd, Hodd by lia. reflexivity.
  - exists q. split; [lia|]. split; [done|]. rewrite Hqs.
    apply orb_false_iff in Hup as [Hlt Htie]. apply Z.ltb_ge in Hlt.
    split; [lia|]. intros Heq.
    assert (2 * r = step) as Heq' by lia.
    apply Z.eqb_eq in Heq'. rewrite Heq' in Htie. cbn [andb] in Htie.
    by rewrite <- Z.negb_odd, Htie.
Qed.

(** What [num_add] is when a float takes part. *)
Lemma num_add_float x y :
  (forall a b, x = NInt a -> y = NInt b -> False) ->
  num_add x y = num_of_units (round_units (float_units x + float_units y) 1).
Proof. by destruct x, y; intros Hxy; [destruct (Hxy _ _ eq_refl eq_refl)| | |]. Qed.

(** Cancelling factors of two keeps the value. *)
Lemma cancel_twos_spec j k :
  (snd (cancel_twos j k) <= j)%nat /\
  k = fst (cancel_twos j k) * 2 ^ Z.of_nat (j - snd (cancel_twos j k)).
Proof.
  revert k. induction j as [|j IH]; intros k; cbn [cancel_twos].
  - cbn. lia.
  - destruct (Z.even k) eqn:Hev.
    + destruct (IH (k / 2)) as [Hle Hk]. split; [lia|].
      apply Z.even_spec in Hev as [h ->].
      replace (2 * h / 2) with h in * by (rewrite Z.mul_comm, Z.div_mul; lia).
      rewrite Hk at 1.
      replace (Z.of_nat (S j - (cancel_twos j h).2)) with
        (Z.succ (Z.of_nat (j - (cancel_twos j h).2))) by lia.
      rewrite Z.pow_succ_r by lia. lia.
    + cbn [fst snd]. split; [lia|]. rewrite Nat.sub_diag. cbn. lia.
Qed.

(** The order of two numbers of doubles is that of the doubles. *)
Lemma num_of_units_gtb j k :
  num_gtb (num_of_units j) (num_of_units k) = (k <? j).
Proof.
  unfold num_gtb, num_of_units.
  pose proof (cancel_twos_spec 1074 j) as [Hj1 Hj2].
  pose proof (cancel_twos_spec 1074 k) as [Hk1 Hk2].
  destruct (cancel_twos 1074 j) as [mj ej], (cancel_twos 1074 k) as [mk ek].
  cbn [fst snd num_mant num_scale dmant dscale] in *.
  unfold pow10.
  set (N := 1074%nat) in *.
  assert (forall e : nat, 10 ^ Z.of_nat e = 2 ^ Z.of_nat e * 5 ^ Z.of_nat e) as H10.
  { intros e. by rewrite <- Z.pow_mul_l. }
  rewrite !H10.
  assert (forall e : nat, 0 < 2 ^ Z.of_nat e) as H2 by (intros; apply Z.pow_pos_nonneg; lia).
  assert (forall e : nat, 0 < 5 ^ Z.of_nat e) as H5 by (intros; apply Z.pow_pos_nonneg; lia).
  assert (2 ^ Z.of_nat N = 2 ^ Z.of_nat (N - ej) * 2 ^ Z.of_nat ej) as Hsj.
  { rewrite <- Z.pow_add_r by lia. f_equal. lia. }
  assert (2 ^ Z.of_nat N = 2 ^ Z.of_nat (N - ek) * 2 ^ Z.of_nat ek) as Hsk.
  { rewrite <- Z.pow_add_r by lia. f_equal. lia. }
  pose proof (H2 N) as HT. pose proof (H2 ej) as Htj. pose proof (H2 ek) as Htk.
  pose proof (H2 (N - ej)%nat) as Hdj. pose proof (H2 (N - ek)%nat) as Hdk.
  pose proof (H5 ej) as Hfj. pose proof (H5 ek) as Hfk.
  remember (2 ^ Z.of_nat N) as T eqn:ET.
  remember (2 ^ Z.of_nat ej) as tj eqn:Etj. remember (2 ^ Z.of_nat ek) as tk eqn:Etk.
  remember (2 ^ Z.of_nat (N - ej)) as dj eqn:Edj.
  remember (2 ^ Z.of_nat (N - ek)) as dk eqn:Edk.
  remember (5 ^ Z.of_nat ej) as fj eqn:Efj. remember (5 ^ Z.of_nat ek) as fk eqn:Efk.
  clear ET Etj Etk Edj Edk Efj Efk H10 H2 H5 Hj1 Hk1.
  subst j k.
  assert (0 < tj * tk) as Ht by nia.
  assert (0 < fj * fk) as Hf by nia.
  assert (mk * dk < mj * dj <-> mk * tj < mj * tk) as Hiff.
  { assert (mk * tj * T = mk * dk * (tj * tk)) as E1 by (rewrite Hsk; ring).
    assert (mj * tk * T = mj * dj * (tj * tk)) as E2 by (rewrite Hsj; ring).
    split; intros Hlt.
    - apply (Z.mul_lt_mono_pos_r T); [done|]. rewrite E1, E2.
      by apply Z.mul_lt_mono_pos_r.
    - apply (Z.mul_lt_mono_pos_r (tj * tk)); [done|]. rewrite <- E1, <- E2.
      by apply Z.mul_lt_mono_pos_r. }
  assert (mk * fk * (tj * fj) < mj * fj * (tk * fk) <-> mk * tj < mj * tk) as Hiff2.
  { replace (mk * fk * (tj * fj)) with (mk * tj * (fj * fk)) by ring.
    replace (mj * fj * (tk * fk)) with (mj * tk * (fj * fk)) by ring.
    symmetry. by apply Z.mul_lt_mono_pos_r. }
  destruct (mk * dk <? mj * dj) eqn:Hlt.
  - apply Z.ltb_lt. apply Z.ltb_lt in Hlt. tauto.
  - apply Z.ltb_ge. apply Z.ltb_ge in Hlt.
    destruct (Z.lt_ge_cases (mk * fk * (tj * fj)) (mj * fj * (tk * fk))) as [Hc|Hc]; [|lia].
    apply Hiff2, Hiff in Hc. lia.
Qed.

(** ** The classifier *)

Lemma analyze_system_state_classify m cpu mem :
  py_getitem m "cpu_percent" = Ok (PNum cpu) ->
  py_getitem m "memory_percent" = Ok (PNum mem) ->
  analyze_system_state m = Ok (state_name (classify_spec cpu mem)).
Proof.
  intros Hc Hm. unfold analyze_system_state, classify_spec.
  rewrite Hc, Hm. simpl. rewrite !py_gt_PNum. simpl.
  destruct (num_gtb cpu (NInt 80)); simpl; [done|].
  destruct (num_gtb mem (NInt 85)); simpl; [done|].
  destruct (num_gtb cpu (NInt 60)); simpl; [done|].
  destruct (num_gtb mem (NInt 70)); simpl; [done|].
  destruct (num_gtb cpu (NInt 30)); simpl; [done|].
  by destruct (num_gtb mem (NInt 50)).
Qed.

Lemma analyze_state_classify m cpu mem :
  py_getitem m "cpu_percent" = Ok (PNum cpu) ->
  py_getitem m "memory_percent" = Ok (PNum mem) ->
  analyze_state m =
    Ok (streamlit_name (classify_spec cpu mem), streamlit_color (classify_spec cpu mem)).
Proof.
  intros Hc Hm. unfold analyze_state, classify_spec.
  rewrite Hc, Hm. simpl. rewrite !py_gt_PNum. simpl.
  destruct (num_gtb cpu (NInt 80)); simpl; [done|].
  destruct (num_gtb mem (NInt 85)); simpl; [done|].
  destruct (num_gtb cpu (NInt 60)); simpl; [done|].
  destruct (num_gtb mem (NInt 70)); simpl; [done|].
  destruct (num_gtb cpu (NInt 30)); simpl; [done|].
  by destruct (num_gtb mem (NInt 50)).
Qed.

Lemma state_name_inj s1 s2 : state_name s1 = state_name s2 -> s1 = s2.
Proof. by destruct s1, s2. Qed.

Lemma classify_spec_cases cpu mem :
  let s := classify_spec cpu mem in
  (s = CRITICAL <-> above 80 cpu \/ above 85 mem) /\
  (s = HIGH_LOAD <->
     ~ (above 80 cpu \/ above 85 mem) /\ (above 60 cpu \/ above 70 mem)) /\
  (s = MODERATE <->
     ~ (above 80 cpu \/ above 85 mem) /\ ~ (above 60 cpu \/ above 70 mem) /\
     (above 30 cpu \/ above 50 mem)) /\
  (s = IDLE <->
     ~ (above 80 cpu \/ above 85 mem) /\ ~ (above 60 cpu \/ above 70 mem) /\
     ~ (above 30 cpu \/ above 50 mem)).
Proof.
  unfold classify_spec, above. simpl.
  destruct (num_gtb cpu (NInt 80)) eqn:C80, (num_gtb mem (NInt 85)) eqn:M85,
    (num_gtb cpu (NInt 60)) eqn:C60, (num_gtb mem (NInt 70)) eqn:M70,
    (num_gtb cpu (NInt 30)) eqn:C30, (num_gtb mem (NInt 50)) eqn:M50;
    simpl;
    repeat match goal with
    | H : num_gtb _ _ = true |- _ => apply num_gtb_lt in H
    | H : num_gtb _ _ = false |- _ =>
        apply num_gtb_le in H; unfold num_le in H
    end;
    unfold num_lt in *; simpl in *;
    repeat split; intros; try discriminate; try tauto; try lia.
Qed.

(** C2.  For every snapshot whose [cpu_percent] and [memory_percent] are
    numbers (in particular for all readings in [0,100]), the classifier
    returns exactly one of the four states, chosen by the first-match
    cascade: CRITICAL iff cpu > 80 or memory > 85; else HIGH_LOAD iff
    cpu > 60 or memory > 70; else MODERATE iff cpu > 30 or memory > 50; else
    IDLE.  The Streamlit copy returns the same state under its display name.
    The thresholds are strict: a reading exactly at 80, 60, 30 (cpu) or
    85, 70, 50 (memory) stays in the lower band, and 0.0001 above it is in
    the upper band. *)
Theorem classify_first_match_cascade :
  (forall m cpu mem,
      py_getitem m "cpu_percent" = Ok (PNum cpu) ->
      py_getitem m "memory_percent" = Ok (PNum mem) ->
      exists s,
        analyze_system_state m = Ok (state_name s) /\
        (forall s', analyze_system_state m = Ok (state_name s') -> s' = s) /\
        analyze_state m = Ok (streamlit_name s, streamlit_color s) /\
        (s = CRITICAL <-> above 80 cpu \/ above 85 mem) /\
        (s = HIGH_LOAD <->
           ~ (above 80 cpu \/ above 85 mem) /\ (above 60 cpu \/ above 70 mem)) /\
        (s = MODERATE <->
           ~ (above 80 cpu \/ above 85 mem) /\ ~ (above 60 cpu \/ above 70 mem) /\
           (above 30 cpu \/ above 50 mem)) /\
        (s = IDLE <->
           ~ (above 80 cpu \/ above 85 mem) /\ ~ (above 60 cpu \/ above 70 mem) /\
           ~ (above 30 cpu \/ above 50 mem))) /\
  analyze_system_state (sample (NFloat (Dec 800 1)) (NInt 0)) = Ok "HIGH_LOAD" /\
  analyze_system_state (sample (NFloat (Dec 800001 4)) (NInt 0)) = Ok "CRITICAL" /\
  analyze_system_state (sample (NFloat (Dec 600 1)) (NInt 0)) = Ok "MODERATE" /\
  analyze_system_state (sample (NFloat (Dec 600001 4)) (NInt 0)) = Ok "HIGH_LOAD" /\
  analyze_system_state (sample (NInt 61) (NInt 0)) = Ok "HIGH_LOAD" /\
  analyze_system_state (sample (NFloat (Dec 300 1)) (NInt 0)) = Ok "IDLE" /\
  analyze_system_state (sample (NFloat (Dec 300001 4)) (NInt 0)) = Ok "MODERATE" /\
  analyze_system_state (sample (NInt 31) (NInt 0)) = Ok "MODERATE" /\
  analyze_system_state (sample (NInt 0) (NFloat (Dec 850 1))) = Ok "HIGH_LOAD" /\
  analyze_system_state (sample (NInt 0) (NFloat (Dec 850001 4))) = Ok "CRITICAL" /\
  analyze_system_state (sample (NInt 0) (NFloat (Dec 700 1))) = Ok "MODERATE" /\
  analyze_system_state (sample (NInt 0) (NFloat (Dec 700001 4))) = Ok "HIGH_LOAD" /\
  analyze_system_state (sample (NInt 0) (NFloat (Dec 500 1))) = Ok "IDLE" /\
  analyze_system_state (sample (NInt 0) (NFloat (Dec 500001 4))) = Ok "MODERATE".
Proof.
  split; [|repeat split; vm_compute; reflexivity].
  intros m cpu mem Hc Hm. exists (classify_spec cpu mem).
  split; [by apply analyze_system_state_classify|].
  split.
  { intros s'. rewrite (analyze_system_state_classify m cpu mem Hc Hm).
    intros [= H]. symmetry. by apply state_name_inj. }
  split; [by apply analyze_state_classify|].
  apply classify_spec_cases.
Qed.

Lemma classify_first_match_cascade_witness :
  exists s,
    analyze_system_state (sample (NFloat (Dec 905 1)) (NFloat (Dec 500 1)))
      = Ok (state_name s) /\ s = CRITICAL.
Proof.
  destruct classify_first_match_cascade as [H _].
  destruct (H (sample (NFloat (Dec 905 1)) (NFloat (Dec 500 1)))
              (NFloat (Dec 905 1)) (NFloat (Dec 500 1)) eq_refl eq_refl)
    as (s & Hs & _ & _ & Hcrit & _).
  exists s. split; [exact Hs|].
  apply Hcrit. left. vm_compute. reflexivity.
Defined.

Lemma classify_spec_mono_cpu cpu1 cpu2 mem :
  num_le cpu1 cpu2 ->
  (severity (classify_spec cpu1 mem) <= severity (classify_spec cpu2 mem))%nat.
Proof.
  intros Hle. unfold classify_spec.
  pose proof (num_gtb_mono cpu1 cpu2 80 Hle) as H80.
  pose proof (num_gtb_mono cpu1 cpu2 60 Hle) as H60.
  pose proof (num_gtb_mono cpu1 cpu2 30 Hle) as H30.
  destruct (num_gtb cpu1 (NInt 80)), (num_gtb cpu1 (NInt 60)),
    (num_gtb cpu1 (NInt 30));
    try (rewrite H80 by done); try (rewrite H60 by done);
    try (rewrite H30 by done); simpl;
    destruct (num_gtb mem (NInt 85)), (num_gtb mem (NInt 70)),
      (num_gtb mem (NInt 50)); simpl;
    destruct (num_gtb cpu2 (NInt 80)), (num_gtb cpu2 (NInt 60)),
      (num_gtb cpu2 (NInt 30)); simpl; lia.
Qed.

Lemma classify_spec_mono_mem cpu mem1 mem2 :
  num_le mem1 mem2 ->
  (severity (classify_spec cpu mem1) <= severity (classify_spec cpu mem2))%nat.
Proof.
  intros Hle. unfold classify_spec.
  pose proof (num_gtb_mono mem1 mem2 85 Hle) as H85.
  pose proof (num_gtb_mono mem1 mem2 70 Hle) as H70.
  pose proof (num_gtb_mono mem1 mem2 50 Hle) as H50.
  destruct (num_gtb mem1 (NInt 85)), (num_gtb mem1 (NInt 70)),
    (num_gtb mem1 (NInt 50));
    try (rewrite H85 by done); try (rewrite H70 by done);
    try (rewrite H50 by done); simpl;
    destruct (num_gtb cpu (NInt 80)), (num_gtb cpu (NInt 60)),
      (num_gtb cpu (NInt 30)); simpl;
    destruct (num_gtb mem2 (NInt 85)), (num_gtb mem2 (NInt 70)),
      (num_gtb mem2 (NInt 50)); simpl; lia.
Qed.

(** C8.  The classifier is monotone in each resource under the ranking
    IDLE < MODERATE < HIGH_LOAD < CRITICAL: with the memory reading fixed, a
    larger cpu reading never gives a state of lower severity, and with the
    cpu reading fixed, a larger memory reading never does. *)
Theorem classify_monotone :
  (forall m1 m2 cpu1 cpu2 mem,
      py_getitem m1 "cpu_percent" = Ok (PNum cpu1) ->
      py_getitem m1 "memory_percent" = Ok (PNum mem) ->
      py_getitem m2 "cpu_percent" = Ok (PNum cpu2) ->
      py_getitem m2 "memory_percent" = Ok (PNum mem) ->
      num_le cpu1 cpu2 ->
      exists s1 s2,
        analyze_system_state m1 = Ok (state_name s1) /\
        analyze_system_state m2 = Ok (state_name s2) /\
        (severity s1 <= severity s2)%nat) /\
  (forall m1 m2 cpu mem1 mem2,
      py_getitem m1 "cpu_percent" = Ok (PNum cpu) ->
      py_getitem m1 "memory_percent" = Ok (PNum mem1) ->
      py_getitem m2 "cpu_percent" = Ok (PNum cpu) ->
      py_getitem m2 "memory_percent" = Ok (PNum mem2) ->
      num_le mem1 mem2 ->
      exists s1 s2,
        analyze_system_state m1 = Ok (state_name s1) /\
        analyze_system_state m2 = Ok (state_name s2) /\
        (severity s1 <= severity s2)%nat).
Proof.
  split.
  - intros m1 m2 cpu1 cpu2 mem H1c H1m H2c H2m Hle.
    exists (classify_spec cpu1 mem), (classify_spec cpu2 mem).
    rewrite (analyze_system_state_classify m1 cpu1 mem) by done.
    rewrite (analyze_system_state_classify m2 cpu2 mem) by done.
    repeat split. by apply classify_spec_mono_cpu.
  - intros m1 m2 cpu mem1 mem2 H1c H1m H2c H2m Hle.
    exists (classify_spec cpu mem1), (classify_spec cpu mem2).
    rewrite (analyze_system_state_classify m1 cpu mem1) by done.
    rewrite (analyze_system_state_classify m2 cpu mem2) by done.
    repeat split. by apply classify_spec_mono_mem.
Qed.

Lemma classify_monotone_witness :
  (exists s1 s2,
      analyze_system_state (sample (NFloat (Dec 455 1)) (NFloat (Dec 400 1)))
        = Ok (state_name s1) /\
      analyze_system_state (sample (NFloat (Dec 905 1)) (NFloat (Dec 400 1)))
        = Ok (state_name s2) /\
      (severity s1 <= severity s2)%nat) /\
  (exists s1 s2,
      analyze_system_state (sample (NInt 10) (NFloat (Dec 400 1)))
        = Ok (state_name s1) /\
      analyze_system_state (sample (NInt 10) (NFloat (Dec 725 1)))
        = Ok (state_name s2) /\
      (severity s1 <= severity s2)%nat).
Proof.
  split.
  - apply (proj1 classify_monotone
             (sample (NFloat (Dec 455 1)) (NFloat (Dec 400 1)))
             (sample (NFloat (Dec 905 1)) (NFloat (Dec 400 1)))
             (NFloat (Dec 455 1)) (NFloat (Dec 905 1)) (NFloat (Dec 400 1)));
      try reflexivity.
    vm_compute. discriminate.
  - apply (proj2 classify_monotone
             (sample (NInt 10) (NFloat (Dec 400 1)))
             (sample (NInt 10) (NFloat (Dec 725 1)))
             (NInt 10) (NFloat (Dec 400 1)) (NFloat (Dec 725 1)));
      try reflexivity.
    vm_compute. discriminate.
Defined.

(** ** Order on numbers *)

Lemma num_le_refl x : num_le x x.
Proof. unfold num_le. lia. Qed.

Lemma num_le_trans x y z : num_le x y -> num_le y z -> num_le x z.
Proof.
  unfold num_le.
  pose proof (pow10_pos (num_scale x)) as Hx.
  pose proof (pow10_pos (num_scale y)) as Hy.
  pose proof (pow10_pos (num_scale z)) as Hz.
  set (px := pow10 (num_scale x)) in *. set (py := pow10 (num_scale y)) in *.
  set (pz := pow10 (num_scale z)) in *.
  intros Hxy Hyz.
  apply (Z.mul_le_mono_pos_r _ _ py); [done|].
  apply Z.le_trans with (num_mant y * px * pz).
  - replace (num_mant x * pz * py) with (num_mant x * py * pz) by ring.
    apply Z.mul_le_mono_nonneg_r; lia.
  - replace (num_mant y * px * pz) with (num_mant y * pz * px) by ring.
    replace (num_mant z * px * py) with (num_mant z * py * px) by ring.
    apply Z.mul_le_mono_nonneg_r; lia.
Qed.

Lemma num_le_total x y : num_le x y \/ num_le y x.
Proof. unfold num_le. lia. Qed.

Lemma num_eqb_eqv x y : num_eqb x y = true <-> num_eqv x y.
Proof. unfold num_eqb, num_eqv. apply Z.eqb_eq. Qed.

Lemma num_eqv_le x y : num_eqv x y <-> num_le x y /\ num_le y x.
Proof. unfold num_eqv, num_le. lia. Qed.

Lemma num_eqv_sym x y : num_eqv x y -> num_eqv y x.
Proof. unfold num_eqv. lia. Qed.

Lemma num_eqv_trans x y z : num_eqv x y -> num_eqv y z -> num_eqv x z.
Proof.
  rewrite !num_eqv_le. intros [? ?] [? ?].
  split; eapply num_le_trans; eauto.
Qed.

(** ** The stable descending sort *)

Section Sorting.
Context {A : Type}.
Implicit Types (x y : num * A) (l : list (num * A)).

Lemma insert_desc_perm x l : insert_desc x l ≡ₚ x :: l.
Proof.
  induction l as [|y l IH]; simpl; [done|].
  destruct (num_gtb (fst y) (fst x)); [|done].
  rewrite IH. apply Permutation_swap.
Qed.

Lemma sort_desc_perm l : sort_desc l ≡ₚ l.
Proof.
  induction l as [|x l IH]; simpl; [done|].
  rewrite insert_desc_perm. by rewrite IH.
Qed.

Lemma insert_desc_sorted x l :
  StronglySorted desc l -> StronglySorted desc (insert_desc x l).
Proof.
  induction 1 as [|y l Hl IH Hy]; simpl.
  - repeat constructor.
  - destruct (num_gtb (fst y) (fst x)) eqn:Hgt.
    + constructor; [done|].
      rewrite insert_desc_perm. constructor; [|done].
      apply num_gtb_lt in Hgt. unfold desc, num_le. unfold num_lt in Hgt. lia.
    + apply num_gtb_le in Hgt.
      constructor; [by constructor|].
      constructor; [done|].
      eapply Forall_impl; [exact Hy|].
      intros z Hz. unfold desc in *. by eapply num_le_trans.
Qed.

Lemma sort_desc_sorted l : StronglySorted desc (sort_desc l).
Proof.
  induction l as [|x l IH]; simpl; [constructor|].
  by apply insert_desc_sorted.
Qed.

Lemma insert_desc_filter k x l :
  List.filter (has_key k) (insert_desc x l) = List.filter (has_key k) (x :: l).
Proof.
  induction l as [|y l IH]; [done|].
  cbn [insert_desc].
  destruct (num_gtb (fst y) (fst x)) eqn:Hgt; [|done].
  cbn [List.filter] in *. rewrite IH.
  destruct (has_key k y) eqn:Hy, (has_key k x) eqn:Hx; try done.
  exfalso. unfold has_key in *.
  apply num_eqb_eqv in Hx, Hy. apply num_gtb_lt in Hgt.
  assert (num_eqv (fst x) (fst y)) as Hxy.
  { eapply num_eqv_trans; [exact Hx|]. by apply num_eqv_sym. }
  unfold num_eqv in Hxy. unfold num_lt in Hgt. lia.
Qed.

Lemma sort_desc_stable k l :
  List.filter (has_key k) (sort_desc l) = List.filter (has_key k) l.
Proof.
  induction l as [|x l IH]; [done|].
  cbn [sort_desc foldr]. fold (sort_desc l).
  rewrite insert_desc_filter. cbn [List.filter]. by rewrite IH.
Qed.

End Sorting.

(** The sort only looks at the keys: it commutes with a map on the payload. *)
Lemma insert_desc_map {A B} (g : A -> B) (x : num * A) (l : list (num * A)) :
  insert_desc (prod_map id g x) (map (prod_map id g) l) =
  map (prod_map id g) (insert_desc x l).
Proof.
  induction l as [|y l IH]; [done|].
  cbn [map insert_desc]. destruct x as [kx ax], y as [ky ay]. cbn [prod_map fst id] in *.
  destruct (num_gtb ky kx); [|done].
  cbn [map]. by rewrite IH.
Qed.

Lemma sort_desc_map {A B} (g : A -> B) (l : list (num * A)) :
  sort_desc (map (prod_map id g) l) = map (prod_map id g) (sort_desc l).
Proof.
  induction l as [|x l IH]; [done|].
  cbn [map sort_desc foldr]. fold (sort_desc l).
  fold (sort_desc (map (prod_map id g) l)). rewrite IH.
  apply insert_desc_map.
Qed.

(** ** The process ranking on well-formed enumerations *)

Lemma py_add_PNum a b : py_add (PNum a) (PNum b) = Ok (num_add a b).
Proof. unfold py_add. by rewrite !as_num_PNum. Qed.

Lemma collect_processes_typed samples acc :
  collect_processes (map info_of samples) acc =
  Ok (acc ++ map entry_of (List.filter ps_active samples))%list.
Proof.
  revert acc. induction samples as [|p samples IH]; intros acc.
  - simpl. by rewrite app_nil_r.
  - cbn [map collect_processes List.filter].
    change (py_getitem (info_of p) "cpu_percent") with (Ok (PNum (ps_cpu p)) : result pyval).
    change (py_getitem (info_of p) "memory_percent") with (Ok (PNum (ps_memory p)) : result pyval).
    change (py_getitem (info_of p) "name") with (Ok (PStr (ps_name p)) : result pyval).
    cbn [rbind]. rewrite !py_gt_PNum. cbn [rbind].
    change (ps_active p)
      with (num_gtb (ps_cpu p) (NInt 0) || num_gtb (ps_memory p) (NInt 0)).
    destruct (num_gtb (ps_cpu p) (NInt 0)); cbn [rbind orb].
    + rewrite IH. by rewrite <- app_assoc.
    + destruct (num_gtb (ps_memory p) (NInt 0)).
      * rewrite IH. by rewrite <- app_assoc.
      * apply IH.
Qed.

Lemma mapM_usage_key l :
  mapM usage_key (map entry_of l) = Ok (map ps_usage l).
Proof.
  induction l as [|p l IH]; [done|].
  cbn [map mapM]. rewrite IH.
  unfold usage_key.
  change (py_getitem (entry_of p) "cpu") with (Ok (PNum (ps_cpu p)) : result pyval).
  change (py_getitem (entry_of p) "memory") with (Ok (PNum (ps_memory p)) : result pyval).
  cbn [rbind]. by rewrite py_add_PNum.
Qed.

Lemma zip_usage_entry l :
  zip (map ps_usage l) (map entry_of l) =
  map (prod_map id entry_of) (map (fun p => (ps_usage p, p)) l).
Proof. induction l as [|p l IH]; [done|]. simpl. by rewrite IH. Qed.

Lemma get_top_processes_typed n samples :
  get_top_processes n (map info_of samples) =
  Ok (map entry_of (take n (ranked samples))).
Proof.
  unfold get_top_processes. rewrite collect_processes_typed. cbn [rbind app].
  unfold py_sort_desc. rewrite mapM_usage_key. cbn [rbind].
  rewrite zip_usage_entry, sort_desc_map. unfold ranked.
  f_equal. rewrite <- firstn_map. f_equal.
  rewrite !map_map. apply map_ext. by intros [k p].
Qed.

Lemma decorated_sort l :
  Forall decorated (sort_desc (map (fun p => (ps_usage p, p)) l)).
Proof.
  rewrite sort_desc_perm. apply Forall_forall. intros x Hx.
  apply list_elem_of_In, in_map_iff in Hx as (p & <- & _). done.
Qed.

Lemma StronglySorted_undecorate (s : list (num * ProcessSample)) :
  Forall decorated s -> StronglySorted desc s ->
  StronglySorted usage_desc (map snd s).
Proof.
  intros Hd Hs. induction Hs as [|x s Hs IH Hx]; [constructor|].
  apply Forall_cons in Hd as [Hdx Hd]. cbn [map].
  constructor; [by apply IH|].
  apply Forall_forall. intros p Hp.
  apply list_elem_of_In, in_map_iff in Hp as (y & <- & Hy).
  apply list_elem_of_In in Hy.
  rewrite Forall_forall in Hx, Hd. specialize (Hx y Hy). specialize (Hd y Hy).
  unfold usage_desc, desc, decorated in *. by rewrite <- Hdx, <- Hd.
Qed.

Lemma filter_undecorate k (s : list (num * ProcessSample)) :
  Forall decorated s ->
  List.filter (has_usage k) (map snd s) = map snd (List.filter (has_key k) s).
Proof.
  induction 1 as [|x s Hx Hs IH]; [done|].
  cbn [map List.filter]. rewrite IH.
  unfold has_usage, has_key. rewrite <- Hx.
  by destruct (num_eqb (fst x) k).
Qed.

Lemma ranked_perm samples : ranked samples ≡ₚ List.filter ps_active samples.
Proof.
  unfold ranked.
  rewrite (Permutation_map snd (sort_desc_perm _)).
  rewrite map_map. simpl. by rewrite map_id.
Qed.

Lemma ranked_sorted samples : StronglySorted usage_desc (ranked samples).
Proof.
  apply StronglySorted_undecorate; [apply decorated_sort|apply sort_desc_sorted].
Qed.

Lemma ranked_stable k samples :
  List.filter (has_usage k) (ranked samples) =
  List.filter (has_usage k) (List.filter ps_active samples).
Proof.
  unfold ranked. rewrite filter_undecorate by apply decorated_sort.
  rewrite sort_desc_stable.
  induction (List.filter ps_active samples) as [|p l IH]; [done|].
  cbn [map List.filter]. unfold has_key at 1. unfold has_usage at 1.
  cbn [fst]. destruct (num_eqb (ps_usage p) k); cbn [map snd]; by rewrite IH.
Qed.

Lemma filter_take_prefix {A} (f : A -> bool) n (l : list A) :
  List.filter f (take n l) `prefix_of` List.filter f l.
Proof.
  rewrite <- (take_drop n l) at 2. rewrite List.filter_app.
  by apply prefix_app_r.
Qed.

(** C4.  For every count [n] and every finite enumeration of process
    samples, the ranking returns an entry list of at most [n] entries (as
    many as qualify when fewer than [n] do); every returned entry is a
    sample of the enumeration with cpu > 0 or memory > 0; the entries are in
    descending order of cpu + memory, the sum as the program computes it
    (of floats, rounded to the nearest float); and among the entries of one
    and the same usage the order of the enumeration is kept: they are the
    first ones, in order, of the active samples with that usage. *)
Theorem top_processes_ranked (n : nat) (samples : list ProcessSample) :
  exists out : list ProcessSample,
    get_top_processes n (map info_of samples) = Ok (map entry_of out) /\
    (length out <= n)%nat /\
    length out = (n `min` length (List.filter ps_active samples))%nat /\
    Forall (fun p => p ∈ samples /\ (above 0 (ps_cpu p) \/ above 0 (ps_memory p))) out /\
    StronglySorted usage_desc out /\
    forall k,
      List.filter (has_usage k) out `prefix_of`
      List.filter (has_usage k) (List.filter ps_active samples).
Proof.
  exists (take n (ranked samples)).
  split; [apply get_top_processes_typed|].
  assert (length (take n (ranked samples))
          = (n `min` length (List.filter ps_active samples))%nat) as Hlen.
  { rewrite length_take. by rewrite (Permutation_length (ranked_perm samples)). }
  split; [lia|]. split; [done|].
  split.
  { apply Forall_forall. intros p Hp.
    apply subseteq_take in Hp. rewrite ranked_perm in Hp.
    apply list_elem_of_In, filter_In in Hp as [Hin Hact].
    split; [by apply list_elem_of_In|].
    unfold ps_active in Hact. apply orb_true_iff in Hact.
    unfold above. by rewrite <- !num_gtb_lt. }
  split.
  { pose proof (ranked_sorted samples) as Hs.
    rewrite <- (take_drop n (ranked samples)) in Hs.
    by apply StronglySorted_app_1_l in Hs. }
  intros k. rewrite <- ranked_stable. apply filter_take_prefix.
Qed.

(** The usage is a sum of floats: [0.1 + 0.2] is above [0.3 + 0.0], while
    [0.5 + 0.25] is [0.75].  So of two processes with the counters 0.3, 0.0
    and 0.1, 0.2 the second is ranked first. *)
Lemma float_sum_rounds :
  num_gtb (num_add (NFloat (Dec 1 1)) (NFloat (Dec 2 1)))
          (num_add (NFloat (Dec 3 1)) (NFloat (Dec 0 1))) = true /\
  num_eqb (num_add (NFloat (Dec 5 1)) (NFloat (Dec 25 2)))
          (num_add (NFloat (Dec 75 2)) (NInt 0)) = true.
Proof. vm_compute. done. Qed.

Lemma top_processes_float_order :
  get_top_processes 5 (map info_of [Scenarios.proc_a; Scenarios.proc_b]) =
  Ok (map entry_of [Scenarios.proc_b; Scenarios.proc_a]).
Proof. vm_compute. reflexivity. Qed.

(** ** The recommendation engine *)

Section RecommendationFacts.
Context `{PyFormat}.

Lemma py_format_1f_PNum x : py_format_1f (PNum x) = Ok (format_1f x).
Proof. unfold py_format_1f. by rewrite as_num_PNum. Qed.

Lemma memory_line_numeric m mem :
  py_getitem m "memory_percent" = Ok (PNum mem) ->
  memory_line m = Ok (PStr ("📊 Memory Usage: " ++ format_1f mem ++ "%")).
Proof. intros Hm. unfold memory_line. rewrite Hm. cbn [rbind]. by rewrite py_format_1f_PNum. Qed.

Lemma cpu_line_numeric m cpu :
  py_getitem m "cpu_percent" = Ok (PNum cpu) ->
  cpu_line m = Ok (PStr ("📊 CPU Usage: " ++ format_1f cpu ++ "%")).
Proof. intros Hc. unfold cpu_line. rewrite Hc. cbn [rbind]. by rewrite py_format_1f_PNum. Qed.

Lemma append_process_lines_typed (l : list ProcessSample) (acts : list pyval) :
  exists lines,
    append_process_lines (map entry_of l) (PList acts) = Ok (PList (acts ++ lines)).
Proof.
  revert acts. induction l as [|p l IH]; intros acts.
  - exists []. simpl. by rewrite app_nil_r.
  - cbn [map append_process_lines]. unfold process_line.
    change (py_getitem (entry_of p) "name") with (Ok (PStr (ps_name p)) : result pyval).
    change (py_getitem (entry_of p) "cpu") with (Ok (PNum (ps_cpu p)) : result pyval).
    change (py_getitem (entry_of p) "memory") with (Ok (PNum (ps_memory p)) : result pyval).
    cbn [rbind]. rewrite !py_format_1f_PNum. cbn [rbind py_append].
    edestruct IH as [lines ->]. eexists (_ :: lines).
    by rewrite <- app_assoc.
Qed.

Lemma get_recommendations_shape procs m state r :
  get_recommendations procs m state = Ok r ->
  exists actions,
    r = PDict [("state", state); ("actions", actions);
               ("priority", PStr (branch_priority state))].
Proof.
  unfold get_recommendations, branch_priority.
  destruct (py_eq_str state "CRITICAL");
    [|destruct (py_eq_str state "HIGH_LOAD");
      [|destruct (py_eq_str state "MODERATE")]];
    (destruct (memory_line m) as [ml|]; [|discriminate]);
    (destruct (cpu_line m) as [cl|]; [|discriminate]);
    cbn [rbind assoc_set String.eqb Ascii.eqb Bool.eqb];
    (destruct (get_top_processes 5 procs) as [top|]; [|discriminate]);
    cbn [rbind];
    (destruct (py_truthy (PList top)); [|intros [= <-]; eauto]);
    cbn [py_getitem assoc String.eqb Ascii.eqb Bool.eqb rbind py_append];
    match goal with
    | |- context [append_process_lines top ?a] =>
        destruct (append_process_lines top a) as [acts|]; [|discriminate]
    end;
    cbn [rbind assoc_set String.eqb Ascii.eqb Bool.eqb];
    intros [= <-]; eauto.
Qed.

End RecommendationFacts.

Lemma priority_name_inj s1 s2 : priority_name s1 = priority_name s2 -> s1 = s2.
Proof. by destruct s1, s2. Qed.

Lemma branch_priority_state_name s :
  branch_priority (PStr (state_name s)) = priority_name s.
Proof. by destruct s. Qed.

Lemma branch_priority_critical state :
  branch_priority state = "CRITICAL" <-> state = PStr "CRITICAL".
Proof.
  unfold branch_priority. split.
  - destruct (py_eq_str state "CRITICAL") eqn:Hc.
    + intros _. destruct state; try discriminate. simpl in Hc.
      apply String.eqb_eq in Hc. by subst.
    + by repeat case_match.
  - by intros ->.
Qed.

Lemma dashboard_get_recommendations_shape `{PyFormat} m state r :
  dashboard_get_recommendations m state = Ok r ->
  exists actions, r = PDict [("state", state); ("actions", actions)].
Proof.
  unfold dashboard_get_recommendations.
  repeat case_match;
    repeat (match goal with
            | |- context [rbind ?x _] => destruct x; [|discriminate]
            end; cbn [rbind]);
    cbn [assoc_set String.eqb Ascii.eqb Bool.eqb];
    intros [= <-]; eauto.
Qed.

Lemma get_recommendations_total `{PyFormat} samples m cpu mem s :
  py_getitem m "cpu_percent" = Ok (PNum cpu) ->
  py_getitem m "memory_percent" = Ok (PNum mem) ->
  exists actions,
    get_recommendations (map info_of samples) m (PStr (state_name s)) =
    Ok (PDict [("state", PStr (state_name s)); ("actions", PList actions);
               ("priority", PStr (priority_name s))]).
Proof.
  intros Hc Hm. unfold get_recommendations.
  rewrite (memory_line_numeric m mem Hm), (cpu_line_numeric m cpu Hc).
  rewrite get_top_processes_typed.
  destruct s; cbn [state_name py_eq_str String.eqb Ascii.eqb Bool.eqb rbind];
    (destruct (py_truthy _); [|by eexists]);
    cbn [assoc_set py_getitem assoc String.eqb Ascii.eqb Bool.eqb rbind py_append];
    match goal with
    | |- context [append_process_lines (map entry_of ?l) (PList ?a)] =>
        destruct (append_process_lines_typed l a) as [lines ->]
    end; cbn [rbind assoc_set String.eqb Ascii.eqb Bool.eqb priority_name];
    by eexists.
Qed.

(** C3, as amended.  Every record returned by the command-line engine
    [WindowsConfigManager.get_recommendations] carries the state it was
    given and a priority that corresponds to it one to one: CRITICAL gives
    CRITICAL, HIGH_LOAD gives HIGH, MODERATE gives MEDIUM, IDLE gives LOW,
    and a record has priority CRITICAL exactly when its state is CRITICAL;
    on a snapshot with numeric readings and a well-formed process
    enumeration the engine does return such a record.  The dashboard's
    [get_recommendations] returns a record with a state and actions only. *)
Theorem recommendation_priority_matches_state `{PyFormat} :
  (forall procs m state r,
      get_recommendations procs m state = Ok r ->
      exists actions priority,
        r = PDict [("state", state); ("actions", actions);
                   ("priority", PStr priority)] /\
        (forall s, state = PStr (state_name s) -> priority = priority_name s) /\
        (priority = "CRITICAL" <-> state = PStr "CRITICAL")) /\
  (forall samples m cpu mem s,
      py_getitem m "cpu_percent" = Ok (PNum cpu) ->
      py_getitem m "memory_percent" = Ok (PNum mem) ->
      exists actions,
        get_recommendations (map info_of samples) m (PStr (state_name s)) =
        Ok (PDict [("state", PStr (state_name s)); ("actions", actions);
                   ("priority", PStr (priority_name s))])) /\
  (forall s1 s2, priority_name s1 = priority_name s2 -> s1 = s2) /\
  (forall m state r,
      dashboard_get_recommendations m state = Ok r ->
      exists actions, r = PDict [("state", state); ("actions", actions)]).
Proof.
  split; [|split; [|split]].
  - intros procs m state r Hr.
    apply get_recommendations_shape in Hr as [actions ->].
    exists actions, (branch_priority state). split; [done|]. split.
    + intros s ->. apply branch_priority_state_name.
    + apply branch_priority_critical.
  - intros samples m cpu mem s Hc Hm.
    destruct (get_recommendations_total samples m cpu mem s Hc Hm) as [acts Hr].
    by exists (PList acts).
  - apply priority_name_inj.
  - intros m state r. apply dashboard_get_recommendations_shape.
Qed.

Lemma recommendation_priority_matches_state_witness :
  exists actions,
    @get_recommendations decimal_format
      (map info_of [ {| ps_name := "python.exe"; ps_cpu := NFloat (Dec 125 1);
                        ps_memory := NFloat (Dec 31234 4) |} ])
      (sample (NFloat (Dec 905 1)) (NFloat (Dec 500 1)))
      (PStr (state_name CRITICAL)) =
    Ok (PDict [("state", PStr (state_name CRITICAL)); ("actions", actions);
               ("priority", PStr (priority_name CRITICAL))]).
Proof.
  apply (proj1 (proj2 (@recommendation_priority_matches_state decimal_format)))
    with (cpu := NFloat (Dec 905 1)) (mem := NFloat (Dec 500 1));
    reflexivity.
Defined.

(** The record the dashboard returns for a CRITICAL snapshot has no
    priority: reading it raises [KeyError]. *)
Lemma dashboard_recommendation_without_priority :
  exists r,
    @dashboard_get_recommendations decimal_format
      (sample (NFloat (Dec 905 1)) (NFloat (Dec 500 1))) (PStr "CRITICAL") = Ok r /\
    py_getitem r "state" = Ok (PStr "CRITICAL") /\
    py_getitem r "priority" = Raise (KeyError "priority").
Proof. eexists. repeat split; vm_compute; reflexivity. Qed.

(** ** The bounded history *)

Lemma last_n_length {A} k (l : list A) : length (last_n k l) = (length l `min` k)%nat.
Proof. unfold last_n. rewrite length_drop. lia. Qed.

Lemma last_n_short {A} k (l : list A) : (length l <= k)%nat -> last_n k l = l.
Proof. intros Hl. unfold last_n. by replace (length l - k)%nat with 0%nat by lia. Qed.

Lemma last_n_snoc {A} k (l : list A) x :
  last_n k (last_n k l ++ [x]) = last_n k (l ++ [x]).
Proof.
  unfold last_n. rewrite !length_app, length_drop. simpl.
  destruct (decide (length l <= k)%nat) as [Hle|Hgt].
  - replace (length l - k)%nat with 0%nat by lia.
    rewrite drop_0. by rewrite Nat.sub_0_r.
  - destruct k as [|k].
    + rewrite !drop_ge; [done| |]; rewrite length_app, ?length_drop; simpl; lia.
    + rewrite (drop_app_le l) by lia.
      rewrite drop_app_le by (rewrite length_drop; lia).
      rewrite drop_drop. do 2 f_equal. lia.
Qed.

Lemma last_n_app {A} k (l l' : list A) :
  last_n k (last_n k l ++ l') = last_n k (l ++ l').
Proof.
  induction l' as [|x l' IH] using rev_ind.
  - rewrite !app_nil_r. apply last_n_short. rewrite last_n_length. lia.
  - rewrite !app_assoc. rewrite <- last_n_snoc, IH. apply last_n_snoc.
Qed.

Section HistoryFacts.
Context `{PyFormat} `{Sklearn}.
Import Runs.

Lemma outcome_bind {A B} (m : M A) (k : A -> M B) w a :
  outcome m w = Ok a -> outcome (bind m k) w = outcome (k a) (after m w).
Proof. unfold outcome, after, bind. destruct (m w) as [r w']. simpl. by intros ->. Qed.

Lemma after_bind {A B} (m : M A) (k : A -> M B) w a :
  outcome m w = Ok a -> after (bind m k) w = after (k a) (after m w).
Proof. unfold outcome, after, bind. destruct (m w) as [r w']. simpl. by intros ->. Qed.

Lemma run_eq {A} (m : M A) w a :
  outcome m w = Ok a -> m w = (Ok a, after m w).
Proof. unfold outcome, after. destruct (m w) as [r w']. simpl. by intros ->. Qed.

Lemma bind_run {A B} (m : M A) (k : A -> M B) w a w' :
  m w = (Ok a, w') -> bind m k w = k a w'.
Proof. unfold bind. by intros ->. Qed.

Lemma print_then {A} line (k : M A) w :
  (print line;; k) w =
  k {| self := self w; fs := fs w; stdout := stdout w ++ [line] |}.
Proof. reflexivity. Qed.

Lemma outcome_bind_raise {A B} (m : M A) (k : A -> M B) w e :
  outcome m w = Raise e -> outcome (bind m k) w = Raise e.
Proof. unfold outcome, bind. destruct (m w) as [r w']. simpl. by intros ->. Qed.

Lemma after_bind_raise {A B} (m : M A) (k : A -> M B) w e :
  outcome m w = Raise e -> after (bind m k) w = after m w.
Proof. unfold outcome, after, bind. destruct (m w) as [r w']. simpl. by intros ->. Qed.

(** One [save_metrics] of the Streamlit manager: it never raises, and the
    history becomes the last 100 entries of the old history followed by the
    new sample. *)
Lemma streamlit_save_metrics_history w l metrics :
  history_of w = PList l ->
  outcome (Streamlit.save_metrics metrics) w = Ok tt /\
  history_of (after (Streamlit.save_metrics metrics) w) = PList (last_n 100 (l ++ [metrics])).
Proof.
  destruct w as [[h m sc] fs0 out]. unfold history_of. simpl. intros ->.
  unfold outcome, after, Streamlit.save_metrics, bind, get_history, set_history,
    lift, try_except, write_file, ret, Streamlit.st_error, print.
  cbn [metrics_history self py_append py_len fst snd fs stdout model scaler].
  destruct (100 <? length (l ++ [metrics]))%nat eqn:Hlen.
  - cbn [py_last metrics_history self fs stdout model scaler fst snd].
    destruct (bool_decide _); cbn; done.
  - apply Nat.ltb_ge in Hlen.
    cbn [metrics_history self fs stdout model scaler fst snd].
    rewrite last_n_short by done.
    destruct (bool_decide _); cbn; done.
Qed.

Lemma streamlit_save_all_history samples w l :
  history_of w = PList l ->
  outcome (save_all samples) w = Ok tt /\
  history_of (after (save_all samples) w) =
    PList (if samples is [] then l else last_n 100 (l ++ samples)).
Proof.
  revert w l. induction samples as [|metrics rest IH]; intros w l Hw.
  - done.
  - destruct (streamlit_save_metrics_history w l metrics Hw) as [Hok Hh].
    cbn [save_all].
    rewrite (outcome_bind _ _ _ _ Hok), (after_bind _ _ _ _ Hok).
    destruct (IH _ _ Hh) as [Hok' Hh'].
    split; [done|]. rewrite Hh'.
    destruct rest as [|m2 rest]; [done|].
    f_equal. rewrite last_n_app. by rewrite <- app_assoc.
Qed.

Lemma print_all_run actions w :
  Windows.print_all actions w =
  (Ok tt, {| self := self w; fs := fs w;
             stdout := stdout w ++ map py_format actions |}).
Proof.
  revert w. induction actions as [|a rest IH]; intros [s f out].
  - cbn. by rewrite app_nil_r.
  - cbn [Windows.print_all]. unfold bind, print at 1. cbn [self fs stdout].
    rewrite IH. cbn [self fs stdout map]. by rewrite <- app_assoc.
Qed.

(** One pass of the monitoring loop of the command-line manager with no
    model loaded: the snapshot is appended and nothing is evicted. *)
Lemma windows_monitoring_pass_history count r w l :
  wf_reading r ->
  history_of w = PList l ->
  model (self w) = None ->
  Windows.config_file ∉ fs_denied (fs w) ->
  let w' := after (Windows.monitoring_pass count r) w in
  outcome (Windows.monitoring_pass count r) w = Ok tt /\
  history_of w' = PList (l ++ [collect_system_metrics r]) /\
  model (self w') = None /\
  fs_denied (fs w') = fs_denied (fs w).
Proof.
  intros [samples Hprocs] Hh Hm Hden.
  destruct w as [[h m sc] [files denied] out].
  unfold history_of in *. cbn [self metrics_history model fs fs_denied] in *. subst h m.
  unfold outcome, after, Windows.monitoring_pass.
  unfold bind, lift, get_model, get_history, set_history, ret, print.
  rewrite (analyze_system_state_classify (collect_system_metrics r)
             (rd_cpu r) (rd_memory r) eq_refl eq_refl).
  cbn [self model metrics_history scaler fs stdout py_append fst snd].
  rewrite Hprocs.
  destruct (get_recommendations_total samples (collect_system_metrics r)
              (rd_cpu r) (rd_memory r)
              (classify_spec (rd_cpu r) (rd_memory r)) eq_refl eq_refl)
    as [acts ->].
  cbn [self model metrics_history scaler fs stdout py_append fst snd
       py_getitem assoc String.eqb Ascii.eqb Bool.eqb py_truthy andb py_iter].
  rewrite print_all_run. cbn [self model metrics_history scaler fs stdout fst snd].
  destruct (S count `mod` 3 =? 0)%nat; [|done].
  unfold Windows.save_metrics, bind, get_history, write_file.
  cbn [self model metrics_history scaler fs stdout fs_denied fst snd].
  rewrite bool_decide_eq_false_2 by done. done.
Qed.

Lemma windows_monitoring_loop_history readings count w l :
  Forall wf_reading readings ->
  history_of w = PList l ->
  model (self w) = None ->
  Windows.config_file ∉ fs_denied (fs w) ->
  let w' := after (Windows.monitoring_loop count readings) w in
  outcome (Windows.monitoring_loop count readings) w = Ok tt /\
  history_of w' = PList (l ++ map collect_system_metrics readings) /\
  model (self w') = None /\
  fs_denied (fs w') = fs_denied (fs w).
Proof.
  intros Hwf. revert count w l.
  induction Hwf as [|r readings Hr Hwf IH]; intros count w l Hh Hm Hden.
  - cbn. by rewrite app_nil_r.
  - destruct (windows_monitoring_pass_history count r w l Hr Hh Hm Hden)
      as (Hok & Hh1 & Hm1 & Hden1).
    cbn [Windows.monitoring_loop].
    rewrite (outcome_bind _ _ _ _ Hok), (after_bind _ _ _ _ Hok).
    destruct (IH (S count) _ _ Hh1 Hm1) as (Hok2 & Hh2 & Hm2 & Hden2).
    { by rewrite Hden1. }
    split; [done|]. split; [|split; [done|congruence]].
    rewrite Hh2. cbn [map]. by rewrite <- app_assoc.
Qed.

(** A whole [run_monitoring]: the history grows by one snapshot for each
    reading, whatever its length. *)
Lemma windows_run_monitoring_history duration interval readings w l :
  Forall wf_reading readings ->
  history_of w = PList l ->
  model (self w) = None ->
  Windows.config_file ∉ fs_denied (fs w) ->
  outcome (Windows.run_monitoring duration interval readings) w = Ok tt /\
  history_of (after (Windows.run_monitoring duration interval readings) w) =
    PList (l ++ map collect_system_metrics readings).
Proof.
  intros Hwf Hh Hm Hden.
  unfold outcome, after, Windows.run_monitoring.
  rewrite !print_then.
  match goal with |- context [bind _ _ ?w0] => set (w2 := w0) end.
  destruct (windows_monitoring_loop_history readings 0 w2 l Hwf Hh Hm Hden)
    as (Hok3 & Hh3 & Hm3 & Hden3).
  rewrite (bind_run _ _ _ _ _ (run_eq _ _ _ Hok3)).
  destruct (after (Windows.monitoring_loop 0 readings) w2)
    as [[h3 m3 sc3] [files3 denied3] out3].
  unfold history_of in Hh3. cbn [self metrics_history model fs fs_denied] in *.
  subst h3.
  unfold Windows.save_metrics, bind, get_history, write_file, lift, print.
  cbn [self metrics_history model scaler fs fs_denied stdout fst snd py_len].
  rewrite bool_decide_eq_false_2 by (rewrite Hden3; exact Hden).
  done.
Qed.

End HistoryFacts.

(** ** The example learner meets the interface *)

Lemma is_number_b_true v : is_number v -> is_number_b v = true.
Proof. intros [[z|d] ->]; done. Qed.

Lemma numeric_table_forallb cols X :
  numeric_table cols X -> forallb (forallb is_number_b) X = true.
Proof.
  intros [_ HX]. apply forallb_forall. intros row Hrow.
  rewrite Forall_forall in HX. apply list_elem_of_In, HX in Hrow as [_ Hrow].
  apply forallb_forall. intros v Hv. apply is_number_b_true.
  rewrite Forall_forall in Hrow. by apply Hrow, list_elem_of_In.
Qed.

#[global] Instance constant_learner_spec : @SklearnSpec constant_learner.
Proof.
  split.
  - intros s cols X HX. exists true. cbn.
    rewrite (numeric_table_forallb _ _ HX). destruct X; [by destruct HX|done].
  - intros s s' cols X X2 Hfit HX HX2. cbn in *.
    rewrite (numeric_table_forallb _ _ HX) in Hfit.
    destruct X; [by destruct HX|]. injection Hfit as <-.
    exists X2. repeat split.
    destruct HX2 as [Hne HX2]. destruct X2 as [|row X2]; [done|].
    by apply Forall_cons in HX2 as [[? _] _].
  - intros t M y Hrows Hy. cbn in *. destruct y as [|c y]; [done|].
    exists (Some c). by rewrite Hrows, Nat.eqb_refl.
  - intros t t' M y M2 Hfit _. cbn in *. destruct y as [|c y]; [done|].
    destruct (length M =? length (c :: y))%nat; [|done].
    injection Hfit as <-. exists (map (fun _ => c) M2).
    split; [done|]. split; [by rewrite length_map|].
    apply Forall_forall. intros c' Hc'.
    apply list_elem_of_In, in_map_iff in Hc' as (? & <- & _). by left.
Qed.

(** C1, as amended.  In the Streamlit manager every [save_metrics] succeeds
    and leaves a history of at most 100 entries, the last 100 of the old
    history followed by the new sample; so after any sequence of appends to
    an empty history the log holds the last 100 appended snapshots in append
    order, and after 150 appends exactly the last 100.  The command-line
    manager's [run_monitoring] appends without evicting: with no model
    loaded, a writable metrics file and well-formed readings, its history
    after a run is the old history followed by one snapshot per reading. *)
Theorem history_keeps_last_100 `{PyFormat} `{Sklearn} :
  (forall w l metrics,
      Runs.history_of w = PList l ->
      Runs.outcome (Streamlit.save_metrics metrics) w = Ok tt /\
      exists l',
        Runs.history_of (Runs.after (Streamlit.save_metrics metrics) w) = PList l' /\
        (length l' <= 100)%nat /\
        l' = last_n 100 (l ++ [metrics])) /\
  (forall w samples,
      Runs.history_of w = PList [] ->
      Runs.outcome (Runs.save_all samples) w = Ok tt /\
      exists l',
        Runs.history_of (Runs.after (Runs.save_all samples) w) = PList l' /\
        (length l' <= 100)%nat /\
        l' = last_n 100 samples /\
        (length samples = 150%nat -> length l' = 100%nat /\ l' = drop 50 samples)) /\
  (forall duration interval readings w l,
      Forall wf_reading readings ->
      Runs.history_of w = PList l ->
      model (self w) = None ->
      Windows.config_file ∉ fs_denied (fs w) ->
      Runs.outcome (Windows.run_monitoring duration interval readings) w = Ok tt /\
      Runs.history_of (Runs.after (Windows.run_monitoring duration interval readings) w) =
        PList (l ++ map collect_system_metrics readings)).
Proof.
  split; [|split].
  - intros w l metrics Hw.
    destruct (streamlit_save_metrics_history w l metrics Hw) as [Hok Hh].
    split; [done|]. eexists. split; [exact Hh|]. split; [|done].
    rewrite last_n_length. lia.
  - intros w samples Hw.
    destruct (streamlit_save_all_history samples w [] Hw) as [Hok Hh].
    split; [done|]. exists (last_n 100 samples).
    split; [|split; [rewrite last_n_length; lia|split; [done|]]].
    + rewrite Hh. by destruct samples.
    + intros Hlen. rewrite last_n_length. split; [lia|].
      unfold last_n. by rewrite Hlen.
  - apply windows_run_monitoring_history.
Qed.

Lemma history_keeps_last_100_witness :
  (exists l',
      Runs.history_of (Runs.after (@Streamlit.save_metrics decimal_format constant_learner (Examples.sample_no 100))
                         (Examples.world_of Examples.manager_100)) = PList l' /\
      (length l' <= 100)%nat) /\
  (exists l',
      Runs.history_of (Runs.after (@Runs.save_all decimal_format constant_learner Examples.samples_150)
                         (Examples.world_of Streamlit.init)) = PList l' /\
      length l' = 100%nat /\ l' = drop 50 Examples.samples_150) /\
  Runs.history_of
    (Runs.after (@Windows.run_monitoring decimal_format constant_learner 60 5 [Examples.reading_0; Examples.reading_0])
       (Examples.world_of Windows.init)) =
  PList [collect_system_metrics Examples.reading_0;
         collect_system_metrics Examples.reading_0].
Proof.
  pose proof (@history_keeps_last_100 decimal_format constant_learner)
    as (Hone & Hall & Hwin).
  split; [|split].
  - destruct (Hone (Examples.world_of Examples.manager_100) _
                (Examples.sample_no 100) eq_refl) as (_ & l' & Hl' & Hlen & _).
    by exists l'.
  - destruct (Hall (Examples.world_of Streamlit.init) Examples.samples_150 eq_refl)
      as (_ & l' & Hl' & _ & _ & H150).
    exists l'. split; [done|]. by apply H150.
  - apply (Hwin 60 5 [Examples.reading_0; Examples.reading_0]
             (Examples.world_of Windows.init) []).
    + repeat constructor; by eexists.
    + reflexivity.
    + reflexivity.
    + cbn. apply not_elem_of_empty.
Defined.

(** In the command-line manager an append can leave 101 entries: one
    monitoring pass on a history of 100 snapshots. *)
Lemma windows_history_exceeds_100 :
  exists l,
    Runs.outcome (@Windows.run_monitoring decimal_format constant_learner 60 5 [Examples.reading_0])
      (Examples.world_of Examples.manager_100) = Ok tt /\
    Runs.history_of
      (Runs.after (@Windows.run_monitoring decimal_format constant_learner 60 5 [Examples.reading_0])
         (Examples.world_of Examples.manager_100)) = PList l /\
    length l = 101%nat.
Proof.
  destruct (@windows_run_monitoring_history decimal_format constant_learner 60 5
              [Examples.reading_0] (Examples.world_of Examples.manager_100)
              (map Examples.sample_no (seq 0 100)))
    as [Hok Hh].
  - repeat constructor. by eexists.
  - reflexivity.
  - reflexivity.
  - cbn. apply not_elem_of_empty.
  - eexists. split; [exact Hok|]. split; [exact Hh|].
    by rewrite length_app, length_map, length_seq.
Qed.

(** ** Training data *)

Lemma features_of_snapshot ts cpu mem avail disk pc freq :
  features_of (snapshot ts cpu mem avail disk pc freq) =
  Ok [PNum cpu; PNum mem; PNum disk; PInt pc].
Proof. reflexivity. Qed.

Lemma state_map_state_name s : state_map (state_name s) = Ok (class_of s).
Proof. by destruct s. Qed.

Lemma streamlit_state_map_name s :
  Streamlit.state_map (streamlit_name s) = Ok (class_of s).
Proof. by destruct s. Qed.

Lemma class_of_range s : 0 <= class_of s <= 3.
Proof. destruct s; unfold class_of; simpl; lia. Qed.

Lemma state_of_class_of s : state_of_class (class_of s) = Ok (state_name s).
Proof. by destruct s. Qed.

Lemma state_of_class_range c :
  0 <= c <= 3 -> exists s, c = class_of s /\ state_of_class c = Ok (state_name s).
Proof.
  intros Hc.
  assert (c = 0 \/ c = 1 \/ c = 2 \/ c = 3) as [-> | [-> | [-> | ->]]] by lia;
    [exists IDLE|exists MODERATE|exists HIGH_LOAD|exists CRITICAL]; done.
Qed.

Lemma windows_training_data_wf entries X y :
  Forall is_snapshot entries ->
  exists X' y',
    Windows.training_data entries X y = Ok (X ++ X', y ++ y')%list /\
    length X' = length entries /\ length y' = length entries /\
    Forall table_row X' /\ Forall (fun c => 0 <= c <= 3) y'.
Proof.
  intros Hwf. revert X y.
  induction Hwf as [|e entries He Hwf IH]; intros X y.
  - exists [], []. by rewrite !app_nil_r.
  - destruct He as (ts & cpu & mem & avail & disk & pc & freq & ->).
    cbn [Windows.training_data].
    rewrite features_of_snapshot. cbn [rbind].
    rewrite (analyze_system_state_classify (snapshot ts cpu mem avail disk pc freq)
               cpu mem eq_refl eq_refl). cbn [rbind].
    rewrite state_map_state_name. cbn [rbind].
    destruct (IH (X ++ [[PNum cpu; PNum mem; PNum disk; PInt pc]])%list
                 (y ++ [class_of (classify_spec cpu mem)])%list)
      as (X' & y' & -> & HX & Hy & HXrows & Hyr).
    exists ([PNum cpu; PNum mem; PNum disk; PInt pc] :: X'),
           (class_of (classify_spec cpu mem) :: y').
    rewrite <- !app_assoc. split; [done|]. simpl. rewrite HX, Hy.
    repeat split; try done.
    + constructor; [|done]. split; [done|].
      repeat constructor; try by eexists. by exists (NInt pc).
    + constructor; [apply class_of_range|done].
Qed.

Lemma streamlit_training_data_wf entries X y :
  Forall is_snapshot entries ->
  exists X' y',
    Streamlit.training_data entries X y = Ok (X ++ X', y ++ y')%list /\
    length X' = length entries /\ length y' = length entries /\
    Forall table_row X' /\ Forall (fun c => 0 <= c <= 3) y'.
Proof.
  intros Hwf. revert X y.
  induction Hwf as [|e entries He Hwf IH]; intros X y.
  - exists [], []. by rewrite !app_nil_r.
  - destruct He as (ts & cpu & mem & avail & disk & pc & freq & ->).
    cbn [Streamlit.training_data].
    rewrite features_of_snapshot. cbn [rbind].
    rewrite (analyze_state_classify (snapshot ts cpu mem avail disk pc freq)
               cpu mem eq_refl eq_refl). cbn [rbind fst].
    rewrite streamlit_state_map_name. cbn [rbind].
    destruct (IH (X ++ [[PNum cpu; PNum mem; PNum disk; PInt pc]])%list
                 (y ++ [class_of (classify_spec cpu mem)])%list)
      as (X' & y' & -> & HX & Hy & HXrows & Hyr).
    exists ([PNum cpu; PNum mem; PNum disk; PInt pc] :: X'),
           (class_of (classify_spec cpu mem) :: y').
    rewrite <- !app_assoc. split; [done|]. simpl. rewrite HX, Hy.
    repeat split; try done.
    + constructor; [|done]. split; [done|].
      repeat constructor; try by eexists. by exists (NInt pc).
    + constructor; [apply class_of_range|done].
Qed.

Lemma numeric_table_rows X :
  X <> [] -> Forall table_row X -> numeric_table 4 X.
Proof. by split. Qed.

(** On the table of a history of at least one snapshot, fitting goes
    through. *)
Lemma fitting_total `{SklearnSpec} s0 X y :
  X <> [] -> Forall table_row X -> length y = length X ->
  exists s t, fitted s0 X y s t.
Proof.
  intros HX Hrows Hlen.
  pose proof (numeric_table_rows X HX Hrows) as Htab.
  destruct (scaler_fit_total s0 4%nat X Htab) as [s Hs].
  destruct (scaler_transform_total s0 s 4%nat X X Hs Htab Htab) as (M & HM & Hr & Hc).
  destruct (tree_fit_total tree_new M y) as [t Ht].
  { by rewrite Hr, Hlen. }
  { destruct y; [|done]. destruct X; [done|]. simpl in Hlen. lia. }
  exists s, t, M. done.
Qed.

(** ** Training *)

Section TrainingFacts.
Context `{PyFormat} `{Sklearn}.
Import Runs.

Lemma windows_train_model_short w l :
  history_of w = PList l -> (length l < 10)%nat ->
  Windows.train_model w =
  (Ok false,
   printed "⚠️  Not enough data to train model (need at least 10 samples)" w).
Proof.
  destruct w as [[h m sc] f out]. unfold history_of. simpl. intros -> Hlen.
  unfold Windows.train_model, bind, get_history, lift. cbn [self metrics_history py_len].
  apply Nat.ltb_lt in Hlen. by rewrite Hlen.
Qed.

Lemma windows_train_model_fit w l X y s t :
  history_of w = PList l -> (10 <= length l)%nat ->
  Windows.training_data l [] [] = Ok (X, y) ->
  fitted (scaler (self w)) X y s t ->
  Windows.train_model w =
  if bool_decide (Windows.model_file ∈ fs_denied (fs w))
  then (Raise OSError, trained w s t)
  else (Ok true,
        printed "✅ ML Model trained successfully!"
          (model_saved Windows.model_file (trained w s t))).
Proof.
  destruct w as [[h m sc] f out]. unfold history_of. simpl.
  intros -> Hlen HXy (M & Hs & HM & Ht).
  unfold Windows.train_model, bind, get_history, get_scaler, set_scaler, set_model,
    lift, write_file, print, ret.
  cbn [self metrics_history py_len py_iter scaler model fs stdout].
  apply Nat.ltb_ge in Hlen. rewrite Hlen, HXy.
  cbn [fst snd self metrics_history scaler model fs stdout].
  rewrite Hs, HM, Ht. unfold trained, model_saved, printed, history_of.
  cbn [fst snd self metrics_history scaler model fs stdout fs_denied fs_files].
  by destruct (bool_decide _).
Qed.

Lemma streamlit_train_model_short w l :
  history_of w = PList l -> (length l < 10)%nat ->
  Streamlit.train_model w = (Ok (false, "Need at least 10 samples to train"), w).
Proof.
  destruct w as [[h m sc] f out]. unfold history_of. simpl. intros -> Hlen.
  unfold Streamlit.train_model, bind, get_history, lift. cbn [self metrics_history py_len].
  apply Nat.ltb_lt in Hlen. by rewrite Hlen.
Qed.

Lemma streamlit_train_model_fit w l X y s t :
  history_of w = PList l -> (10 <= length l)%nat ->
  Streamlit.training_data l [] [] = Ok (X, y) ->
  fitted (scaler (self w)) X y s t ->
  Streamlit.train_model w =
  if bool_decide (Streamlit.model_file ∈ fs_denied (fs w))
  then (Ok (false, "Error saving model: " ++ str_of_exn OSError), trained w s t)
  else (Ok (true, "Model trained successfully"),
        model_saved Streamlit.model_file (trained w s t)).
Proof.
  destruct w as [[h m sc] f out]. unfold history_of. simpl.
  intros -> Hlen HXy (M & Hs & HM & Ht).
  unfold Streamlit.train_model, bind, get_history, get_scaler, set_scaler, set_model,
    lift, try_except, write_file, print, ret.
  cbn [self metrics_history py_len py_iter scaler model fs stdout].
  apply Nat.ltb_ge in Hlen. rewrite Hlen, HXy.
  cbn [fst snd self metrics_history scaler model fs stdout].
  rewrite Hs, HM, Ht. unfold trained, model_saved, printed, history_of.
  cbn [fst snd self metrics_history scaler model fs stdout fs_denied fs_files].
  by destruct (bool_decide _).
Qed.

Context `{!SklearnSpec}.

(** On a history of at least ten snapshots both trainers reach the fit. *)
Lemma windows_training_fits w l :
  history_of w = PList l -> Forall is_snapshot l -> (10 <= length l)%nat ->
  exists X y s t,
    Windows.training_data l [] [] = Ok (X, y) /\
    fitted (scaler (self w)) X y s t /\
    length y = length l /\ Forall (fun c => 0 <= c <= 3) y /\ Forall table_row X.
Proof.
  intros Hh Hwf Hlen.
  destruct (windows_training_data_wf l [] [] Hwf) as (X & y & HXy & HX & Hy & Hrows & Hyr).
  destruct (fitting_total (scaler (self w)) X y) as (s & t & Hfit); [|done|lia|].
  { destruct X; [simpl in HX; lia|done]. }
  by exists X, y, s, t.
Qed.

Lemma streamlit_training_fits w l :
  history_of w = PList l -> Forall is_snapshot l -> (10 <= length l)%nat ->
  exists X y s t,
    Streamlit.training_data l [] [] = Ok (X, y) /\
    fitted (scaler (self w)) X y s t /\
    length y = length l /\ Forall (fun c => 0 <= c <= 3) y /\ Forall table_row X.
Proof.
  intros Hh Hwf Hlen.
  destruct (streamlit_training_data_wf l [] [] Hwf) as (X & y & HXy & HX & Hy & Hrows & Hyr).
  destruct (fitting_total (scaler (self w)) X y) as (s & t & Hfit); [|done|lia|].
  { destruct X; [simpl in HX; lia|done]. }
  by exists X, y, s, t.
Qed.

End TrainingFacts.

(** ** The training precondition *)

Lemma is_snapshot_sample_no i : is_snapshot (Examples.sample_no i).
Proof. unfold Examples.sample_no, sample. by repeat eexists. Qed.

Lemma Forall_is_snapshot_samples l : Forall is_snapshot (map Examples.sample_no l).
Proof.
  apply Forall_forall. intros e He.
  apply list_elem_of_In, in_map_iff in He as (i & <- & _).
  apply is_snapshot_sample_no.
Qed.

(** C5, as amended.  Training reports insufficient samples exactly when the
    history has fewer than 10 entries: the command-line manager prints the
    reason and returns [False], the Streamlit manager returns [False] with
    the reason; it then produces no model, writes nothing and leaves the
    manager as it was.  On a history of at least 10 snapshots it fits a
    scaler and a model and installs them in the manager, and the reason is
    not reported; it then succeeds, with the pair written to the model file,
    when that file can be written.  A refused write is reported by the
    Streamlit manager as the failure "Error saving model" and raised by the
    command-line manager as [OSError], in both with the new model kept in
    memory and no file written. *)
Theorem train_needs_ten_samples `{PyFormat} `{SklearnSpec} :
  (forall w l,
      Runs.history_of w = PList l -> (length l < 10)%nat ->
      Runs.outcome Windows.train_model w = Ok false /\
      stdout (Runs.after Windows.train_model w) =
        (stdout w ++
         ["⚠️  Not enough data to train model (need at least 10 samples)"])%list /\
      self (Runs.after Windows.train_model w) = self w /\
      fs (Runs.after Windows.train_model w) = fs w /\
      Runs.outcome Streamlit.train_model w =
        Ok (false, "Need at least 10 samples to train") /\
      Runs.after Streamlit.train_model w = w) /\
  (forall w l,
      Runs.history_of w = PList l -> Forall is_snapshot l -> (10 <= length l)%nat ->
      Runs.outcome Windows.train_model w <> Ok false /\
      (forall reason, Runs.outcome Streamlit.train_model w = Ok (false, reason) ->
                      reason <> "Need at least 10 samples to train") /\
      exists s t s' t',
        self (Runs.after Windows.train_model w) =
          {| metrics_history := PList l; model := Some t; scaler := s |} /\
        self (Runs.after Streamlit.train_model w) =
          {| metrics_history := PList l; model := Some t'; scaler := s' |} /\
        (Windows.model_file ∉ fs_denied (fs w) ->
         Runs.outcome Windows.train_model w = Ok true /\
         stdout (Runs.after Windows.train_model w) =
           (stdout w ++ ["✅ ML Model trained successfully!"])%list /\
         fs_files (fs (Runs.after Windows.train_model w)) !! Windows.model_file =
           Some (Pickle t s)) /\
        (Windows.model_file ∈ fs_denied (fs w) ->
         Runs.outcome Windows.train_model w = Raise OSError /\
         stdout (Runs.after Windows.train_model w) = stdout w /\
         fs (Runs.after Windows.train_model w) = fs w) /\
        (Streamlit.model_file ∉ fs_denied (fs w) ->
         Runs.outcome Streamlit.train_model w = Ok (true, "Model trained successfully") /\
         fs_files (fs (Runs.after Streamlit.train_model w)) !! Streamlit.model_file =
           Some (Pickle t' s')) /\
        (Streamlit.model_file ∈ fs_denied (fs w) ->
         Runs.outcome Streamlit.train_model w =
           Ok (false, "Error saving model: " ++ str_of_exn OSError) /\
         fs (Runs.after Streamlit.train_model w) = fs w)).
Proof.
  split.
  - intros w l Hh Hlen. unfold Runs.outcome, Runs.after.
    rewrite (windows_train_model_short w l Hh Hlen).
    rewrite (streamlit_train_model_short w l Hh Hlen). done.
  - intros w l Hh Hwf Hlen. unfold Runs.outcome, Runs.after.
    destruct (windows_training_fits w l Hh Hwf Hlen) as (X & y & s & t & HXy & Hfit & _).
    destruct (streamlit_training_fits w l Hh Hwf Hlen)
      as (X' & y' & s' & t' & HXy' & Hfit' & _).
    rewrite (windows_train_model_fit w l X y s t Hh Hlen HXy Hfit).
    rewrite (streamlit_train_model_fit w l X' y' s' t' Hh Hlen HXy' Hfit').
    split; [by destruct (bool_decide _)|]. split.
    { intros reason. destruct (bool_decide _); simpl; intros [= <-]; done. }
    exists s, t, s', t'.
    split; [destruct (bool_decide _); simpl; by rewrite Hh|].
    split; [destruct (bool_decide _); simpl; by rewrite Hh|].
    split; [|split; [|split]].
    + intros Hden. rewrite bool_decide_eq_false_2 by done. simpl.
      split; [done|]. split; [done|]. apply lookup_insert_eq.
    + intros Hden. rewrite bool_decide_eq_true_2 by done. done.
    + intros Hden. rewrite bool_decide_eq_false_2 by done. simpl.
      split; [done|]. apply lookup_insert_eq.
    + intros Hden. rewrite bool_decide_eq_true_2 by done. done.
Qed.

Lemma train_needs_ten_samples_witness :
  Runs.outcome (@Streamlit.train_model decimal_format constant_learner)
    (Examples.world_of Streamlit.init) =
    Ok (false, "Need at least 10 samples to train") /\
  stdout (Runs.after (@Windows.train_model constant_learner)
            (Examples.world_of Windows.init)) =
    ["⚠️  Not enough data to train model (need at least 10 samples)"] /\
  Runs.outcome (@Windows.train_model constant_learner)
    (Examples.world_of Examples.manager_10) = Ok true.
Proof.
  pose proof (@train_needs_ten_samples decimal_format constant_learner
                constant_learner_spec) as [Hshort Hfit].
  split; [|split].
  - destruct (Hshort (Examples.world_of Streamlit.init) [] eq_refl)
      as (_ & _ & _ & _ & Hs & _); [simpl; lia|exact Hs].
  - destruct (Hshort (Examples.world_of Windows.init) [] eq_refl)
      as (_ & Hp & _); [simpl; lia|exact Hp].
  - destruct (Hfit (Examples.world_of Examples.manager_10) _ eq_refl)
      as (_ & _ & s & t & s' & t' & _ & _ & Hw & _).
    + apply Forall_is_snapshot_samples.
    + rewrite length_map, length_seq. lia.
    + apply Hw. cbn. apply not_elem_of_empty.
Defined.

(** With ten snapshots and a model file that cannot be written, the
    Streamlit trainer fails, and the manager holds a model it did not hold
    before. *)
Lemma streamlit_train_fails_with_ten_samples :
  Runs.history_of Examples.world_model_denied = PList (map Examples.sample_no (seq 0 10)) /\
  model (self Examples.world_model_denied) = None /\
  Runs.outcome (@Streamlit.train_model decimal_format constant_learner)
    Examples.world_model_denied =
    Ok (false, "Error saving model: Permission denied") /\
  model (self (Runs.after (@Streamlit.train_model decimal_format constant_learner)
                 Examples.world_model_denied)) = Some (Some 0).
Proof.
  split; [done|]. split; [done|].
  unfold Runs.outcome, Runs.after.
  rewrite (@streamlit_train_model_fit decimal_format constant_learner
             Examples.world_model_denied (map Examples.sample_no (seq 0 10))
             (map (fun e => match features_of e with Ok r => r | Raise _ => [] end)
                  (map Examples.sample_no (seq 0 10)))
             (replicate 10 0) true (Some 0)).
  - rewrite bool_decide_eq_true_2; [done|]. cbn. by apply elem_of_singleton.
  - done.
  - simpl. lia.
  - vm_compute. reflexivity.
  - eexists. vm_compute. done.
Qed.

(** ** What training leaves alone *)

Section Frame.
Context `{PyFormat} `{Sklearn}.
Import Runs.
Variable path : string.

Lemma untouched_refl w : untouched path w w.
Proof. done. Qed.

Lemma untouched_trans w1 w2 w3 :
  untouched path w1 w2 -> untouched path w2 w3 -> untouched path w1 w3.
Proof.
  intros (Hh1 & Hd1 & Hf1) (Hh2 & Hd2 & Hf2). repeat split; try congruence.
  intros p Hp. by rewrite Hf2, Hf1.
Qed.

Lemma keeps_ret {A} (a : A) : keeps path (ret a).
Proof. intros w. apply untouched_refl. Qed.

Lemma keeps_lift {A} (r : result A) : keeps path (lift r).
Proof. intros w. apply untouched_refl. Qed.

Lemma keeps_bind {A B} (m : M A) (k : A -> M B) :
  keeps path m -> (forall a, keeps path (k a)) -> keeps path (bind m k).
Proof.
  intros Hm Hk w. specialize (Hm w). unfold after, bind in *.
  destruct (m w) as [[a|e] w1]; simpl in *; [|done].
  eapply untouched_trans; [exact Hm|]. apply Hk.
Qed.

Lemma keeps_try_except {A} (m : M A) (h : exn -> M A) :
  keeps path m -> (forall e, keeps path (h e)) -> keeps path (try_except m h).
Proof.
  intros Hm Hh w. specialize (Hm w). unfold after, try_except in *.
  destruct (m w) as [[a|e] w1]; simpl in *; [done|].
  eapply untouched_trans; [exact Hm|]. apply Hh.
Qed.

Lemma keeps_get_history : keeps path get_history.
Proof. intros w. apply untouched_refl. Qed.

Lemma keeps_get_scaler : keeps path get_scaler.
Proof. intros w. apply untouched_refl. Qed.

Lemma keeps_get_model : keeps path get_model.
Proof. intros w. apply untouched_refl. Qed.

Lemma keeps_set_scaler s : keeps path (set_scaler s).
Proof. by intros [[h m sc] f out]. Qed.

Lemma keeps_set_model m : keeps path (set_model m).
Proof. by intros [[h m0 sc] f out]. Qed.

Lemma keeps_print line : keeps path (print line).
Proof. by intros [[h m sc] f out]. Qed.

Lemma keeps_write_file f : keeps path (write_file path f).
Proof.
  intros [[h m sc] [files denied] out]. unfold after, write_file. simpl.
  destruct (bool_decide _); simpl; [done|].
  repeat split. intros p Hp. simpl. by rewrite lookup_insert_ne.
Qed.

End Frame.

Ltac keeps_step :=
  first
    [ apply keeps_ret | apply keeps_lift | apply keeps_get_history
    | apply keeps_get_scaler | apply keeps_get_model | apply keeps_set_scaler
    | apply keeps_set_model | apply keeps_print | apply keeps_write_file
    | apply keeps_bind; [|intros ?]
    | apply keeps_try_except; [|intros ?]
    | match goal with
      | |- Runs.keeps _ (if ?b then _ else _) => destruct b
      | |- Runs.keeps _ (match ?x with _ => _ end) => destruct x
      end ].

(** C9.  [train_model] leaves the metrics history unchanged, element for
    element, however it ends: when it fails the sample-count precondition,
    when it fits and saves a model, and when it stops with an error on the
    way.  Besides the model and the scaler of the manager (and what is
    printed), only the model file can change; the persisted history and
    every other file stay as they were. *)
Theorem train_model_keeps_history `{PyFormat} `{Sklearn} (w : world) :
  (Runs.history_of (Runs.after Windows.train_model w) = Runs.history_of w /\
   fs_denied (fs (Runs.after Windows.train_model w)) = fs_denied (fs w) /\
   forall p, p <> Windows.model_file ->
     fs_files (fs (Runs.after Windows.train_model w)) !! p = fs_files (fs w) !! p) /\
  (Runs.history_of (Runs.after Streamlit.train_model w) = Runs.history_of w /\
   fs_denied (fs (Runs.after Streamlit.train_model w)) = fs_denied (fs w) /\
   forall p, p <> Streamlit.model_file ->
     fs_files (fs (Runs.after Streamlit.train_model w)) !! p = fs_files (fs w) !! p).
Proof.
  split.
  - assert (Runs.keeps Windows.model_file Windows.train_model) as Hk.
    { unfold Windows.train_model. repeat keeps_step. }
    apply Hk.
  - assert (Runs.keeps Streamlit.model_file Streamlit.train_model) as Hk.
    { unfold Streamlit.train_model. repeat keeps_step. }
    apply Hk.
Qed.

Lemma train_model_keeps_history_witness :
  Runs.history_of
    (Runs.after (@Windows.train_model constant_learner)
       (Examples.world_of Examples.manager_10)) =
    PList (map Examples.sample_no (seq 0 10)) /\
  fs_files (fs (Runs.after (@Streamlit.train_model decimal_format constant_learner)
                  Examples.world_metrics_42)) !! Windows.config_file =
    Some (Text "42").
Proof.
  split.
  - apply (@train_model_keeps_history decimal_format constant_learner
             (Examples.world_of Examples.manager_10)).
  - destruct (@train_model_keeps_history decimal_format constant_learner
                Examples.world_metrics_42) as [_ (_ & _ & Hfiles)].
    rewrite (Hfiles Windows.config_file); [reflexivity|discriminate].
Defined.

(** ** Prediction *)

Section PredictionFacts.
Context `{PyFormat} `{SklearnSpec}.
Import Runs.

(** With a pair fitted on a table of snapshots whose labels are class
    indices, the prediction for a snapshot is one of the four classes and
    the reverse table finds its state. *)
Lemma windows_predict_state_fitted w s0 X y s t ts cpu mem avail disk pc freq :
  model (self w) = Some t -> scaler (self w) = s ->
  fitted s0 X y s t ->
  X <> [] -> Forall table_row X -> Forall (fun c => 0 <= c <= 3) y ->
  exists M c st,
    scaler_transform s [[PNum cpu; PNum mem; PNum disk; PInt pc]] = Ok M /\
    tree_predict t M = Ok [c] /\ 0 <= c <= 3 /\
    state_of_class c = Ok (state_name st) /\
    Windows.predict_state (snapshot ts cpu mem avail disk pc freq) w =
      (Ok (PStr (state_name st)), w).
Proof.
  intros Hm Hs (M0 & Hfit & HM0 & Ht) HX Hrows Hy.
  pose proof (numeric_table_rows X HX Hrows) as Htab.
  assert (numeric_table 4 [[PNum cpu; PNum mem; PNum disk; PInt pc]]) as Hrow.
  { split; [done|]. repeat constructor; try by eexists. by exists (NInt pc). }
  destruct (scaler_transform_total s0 s 4%nat X X Hfit Htab Htab)
    as (M0' & HM0' & _ & Hc0).
  rewrite HM0 in HM0'. injection HM0' as <-.
  destruct (scaler_transform_total s0 s 4%nat X _ Hfit Htab Hrow)
    as (M & HM & Hr & Hc).
  destruct (tree_predict_classes tree_new t M0 y M Ht) as (cs & Hcs & Hlen & Hin).
  { by rewrite Hc, Hc0. }
  rewrite Hr in Hlen. destruct cs as [|c [|c' cs]]; try done.
  apply Forall_cons in Hin as [Hin _].
  rewrite Forall_forall in Hy. specialize (Hy c Hin).
  destruct (state_of_class_range c Hy) as (st & _ & Hst).
  exists M, c, st. repeat split; try done; try lia.
  destruct w as [[h m sc] f out]. simpl in Hm, Hs. subst m sc.
  unfold Windows.predict_state, bind, get_model, get_scaler, lift, ret.
  cbn [self model scaler].
  rewrite features_of_snapshot, HM, Hcs, Hst. done.
Qed.

End PredictionFacts.

(** C10.  [predict_state] is total at the public interface.  With no model
    loaded it returns [None].  When the model and the scaler of the manager
    are those [train_model] fitted on a history of at least ten snapshots,
    then for every snapshot the predicted class index is one of 0, 1, 2, 3,
    the labels of the training set, so the reverse lookup succeeds and the
    result is the name of one of the four states; the world is not
    changed. *)
Theorem predict_state_total `{SklearnSpec} :
  (forall w metrics,
      model (self w) = None ->
      Windows.predict_state metrics w = (Ok PNone, w)) /\
  (forall w l,
      Runs.history_of w = PList l -> Forall is_snapshot l -> (10 <= length l)%nat ->
      exists s t,
        model (self (Runs.after Windows.train_model w)) = Some t /\
        scaler (self (Runs.after Windows.train_model w)) = s /\
        forall w' ts cpu mem avail disk pc freq,
          model (self w') = Some t -> scaler (self w') = s ->
          exists M c st,
            scaler_transform s [[PNum cpu; PNum mem; PNum disk; PInt pc]] = Ok M /\
            tree_predict t M = Ok [c] /\ 0 <= c <= 3 /\
            state_of_class c = Ok (state_name st) /\
            Windows.predict_state (snapshot ts cpu mem avail disk pc freq) w' =
              (Ok (PStr (state_name st)), w')).
Proof.
  split.
  - intros [[h m sc] f out] metrics. simpl. by intros ->.
  - intros w l Hh Hwf Hlen.
    destruct (windows_training_fits w l Hh Hwf Hlen)
      as (X & y & s & t & HXy & Hfit & Hy & Hyr & Hrows).
    exists s, t. unfold Runs.after.
    rewrite (windows_train_model_fit w l X y s t Hh Hlen HXy Hfit).
    split; [by destruct (bool_decide _)|]. split; [by destruct (bool_decide _)|].
    intros w' ts cpu mem avail disk pc freq Hm Hs.
    apply (windows_predict_state_fitted w' (scaler (self w)) X y s t); try done.
    destruct (windows_training_data_wf l [] [] Hwf) as (X' & y' & HXy' & HX' & _).
    rewrite HXy in HXy'. injection HXy' as -> ->.
    destruct X'; [simpl in HX'; lia|done].
Qed.

Lemma predict_state_total_witness :
  @Windows.predict_state constant_learner (Examples.sample_no 3)
    (Examples.world_of Windows.init) =
    (Ok PNone, Examples.world_of Windows.init) /\
  exists st,
    Runs.outcome
      (@Windows.predict_state constant_learner
         (snapshot "2024-01-01T00:00:00" (NFloat (Dec 905 1)) (NFloat (Dec 500 1))
            (NFloat (Dec 40 1)) (NFloat (Dec 100 1)) 100 (NFloat (Dec 24000 1))))
      (Runs.after (@Windows.train_model constant_learner)
         (Examples.world_of Examples.manager_10)) = Ok (PStr (state_name st)).
Proof.
  pose proof (@predict_state_total constant_learner constant_learner_spec)
    as [Hnone Hfit].
  split; [by apply Hnone|].
  destruct (Hfit (Examples.world_of Examples.manager_10) _ eq_refl)
    as (s & t & Hm & Hs & Hp).
  - apply Forall_is_snapshot_samples.
  - rewrite length_map, length_seq. lia.
  - destruct (Hp _ "2024-01-01T00:00:00" (NFloat (Dec 905 1)) (NFloat (Dec 500 1))
                (NFloat (Dec 40 1)) (NFloat (Dec 100 1)) 100 (NFloat (Dec 24000 1))
                Hm Hs) as (M & c & st & _ & _ & _ & _ & Hrun).
    exists st. unfold Runs.outcome. by rewrite Hrun.
Defined.

(** * JSON text read back *)

(** ** Text *)

Ltac eval_ascii :=
  repeat match goal with
  | |- context [nat_of_ascii ?c] =>
      let v := eval vm_compute in (nat_of_ascii c) in
      change (nat_of_ascii c) with v
  end.


Lemma append_cons c (a b : string) : String c a ++ b = String c (a ++ b).
Proof. reflexivity. Qed.

Lemma append_nil_l (a : string) : "" ++ a = a.
Proof. reflexivity. Qed.

Lemma append_assoc (a b c : string) : (a ++ b) ++ c = a ++ (b ++ c).
Proof. induction a as [|x a IH]; [done|]. rewrite !append_cons. by rewrite IH. Qed.

Lemma append_nil_r (a : string) : a ++ "" = a.
Proof. induction a as [|x a IH]; [done|]. rewrite !append_cons. by rewrite IH. Qed.

Lemma length_append (a b : string) :
  String.length (a ++ b) = (String.length a + String.length b)%nat.
Proof.
  induction a as [|x a IH]; [done|]. rewrite !append_cons. simpl. by rewrite IH.
Qed.




Lemma delimited_digits_end rest : delimited rest -> digits_end rest.
Proof. destruct rest; [done|]. by intros [? _]. Qed.

Lemma span_digits_app ds rest :
  all_digits ds = true -> digits_end rest ->
  span_digits (ds ++ rest) = (ds, rest).
Proof.
  intros Hds Hrest. induction ds as [|c ds IH].
  - rewrite append_nil_l. destruct rest as [|c rest]; [done|]. simpl. by rewrite Hrest.
  - rewrite append_cons. simpl in *.
    apply andb_true_iff in Hds as [Hc Hds]. rewrite Hc, IH by done. done.
Qed.

Lemma all_digits_string_of_uint d : all_digits (NilEmpty.string_of_uint d) = true.
Proof. induction d; simpl; done. Qed.

Lemma digits_val_string_of_uint_acc d acc :
  digits_val (Z.pos acc) (NilEmpty.string_of_uint d) = Z.pos (Pos.of_uint_acc d acc).
Proof.
  revert acc. induction d; intros acc; simpl; [done|..];
    rewrite <- IHd; f_equal; unfold digit_of; eval_ascii; lia.
Qed.

Lemma digits_val_string_of_uint d :
  digits_val 0 (NilEmpty.string_of_uint d) = Z.of_N (Pos.of_uint d).
Proof.
  induction d; simpl; try done;
    rewrite <- digits_val_string_of_uint_acc; f_equal.
Qed.

Lemma digits_val_print_nat n : 0 <= n -> digits_val 0 (print_nat n) = n.
Proof.
  intros Hn. unfold print_nat. rewrite digits_val_string_of_uint.
  change (Pos.of_uint ?d) with (N.of_uint d).
  rewrite DecimalN.Unsigned.of_to. lia.
Qed.

Lemma all_digits_print_nat n : all_digits (print_nat n) = true.
Proof. apply all_digits_string_of_uint. Qed.


Lemma no_leading_zero_unorm d :
  no_leading_zero (NilEmpty.string_of_uint (Decimal.unorm d)).
Proof.
  unfold Decimal.unorm.
  assert (match Decimal.nzhead d with Decimal.D0 _ => False | _ => True end) as Hnz.
  { induction d; simpl; done. }
  destruct (Decimal.nzhead d); simpl; try done.
Qed.

Lemma no_leading_zero_print_nat n : no_leading_zero (print_nat n).
Proof.
  unfold print_nat.
  rewrite <- (DecimalN.Unsigned.of_to (Z.to_N n)) at 1.
  rewrite DecimalN.Unsigned.to_of. apply no_leading_zero_unorm.
Qed.


Lemma is_digit_cases c :
  is_digit c = true ->
  c = "0"%char \/ c = "1"%char \/ c = "2"%char \/ c = "3"%char \/ c = "4"%char \/
  c = "5"%char \/ c = "6"%char \/ c = "7"%char \/ c = "8"%char \/ c = "9"%char.
Proof.
  destruct c as [[] [] [] [] [] [] [] []]; vm_compute; intros; try discriminate; tauto.
Qed.

Lemma scan_int_print_nat n rest :
  digits_end rest ->
  scan_int (print_nat n ++ rest) = Some (print_nat n, rest).
Proof.
  intros Hrest.
  pose proof (no_leading_zero_print_nat n) as Hnz.
  pose proof (all_digits_print_nat n) as Hd.
  destruct (print_nat n) as [|c s] eqn:Hp; [done|].
  destruct Hnz as [Hc Hz]. rewrite append_cons. unfold scan_int.
  destruct (Ascii.eqb_spec c "0") as [->|Hne].
  - by rewrite (Hz eq_refl).
  - rewrite Hc. rewrite <- append_cons. rewrite span_digits_app by done.
    apply is_digit_cases in Hc.
    destruct Hc as [->|[->|[->|[->|[->|[->|[->|[->|[->| ->]]]]]]]]]; done.
Qed.

Lemma delimited_scan_frac rest : delimited rest -> scan_frac rest = None.
Proof.
  destruct rest as [|c rest]; [done|]. intros (_ & Hc & _). unfold scan_frac.
  destruct c as [[] [] [] [] [] [] [] []]; done.
Qed.

Lemma delimited_scan_exp rest : delimited rest -> scan_exp rest = None.
Proof.
  destruct rest as [|c rest]; [done|]. intros (_ & _ & He & HE). unfold scan_exp.
  destruct (Ascii.eqb_spec c "e"); [done|].
  destruct (Ascii.eqb_spec c "E"); done.
Qed.

Lemma print_nat_first n :
  exists c s, print_nat n = String c s /\ is_digit c = true.
Proof.
  pose proof (no_leading_zero_print_nat n) as Hnz.
  destruct (print_nat n) as [|c s]; [done|]. exists c, s. by destruct Hnz.
Qed.

(** A digit is not a minus sign. *)
Lemma parse_number_digit c s :
  is_digit c = true ->
  parse_number (String c s) =
  match scan_int (String c s) with
  | None => None
  | Some (ip, s2) =>
      match scan_frac s2, scan_exp s2 with
      | None, None => Some (PInt (digits_val 0 ip), s2)
      | None, Some (e, s3) => Some (PFloat (dec_of_parts (digits_val 0 ip) 0 e), s3)
      | Some (fp, s3), _ =>
          let m := digits_val (digits_val 0 ip) fp in
          let k := String.length fp in
          match scan_exp s3 with
          | None => Some (PFloat (Dec m k), s3)
          | Some (e, s4) => Some (PFloat (dec_of_parts m k e), s4)
          end
      end
  end.
Proof.
  intros Hc. apply is_digit_cases in Hc.
  destruct Hc as [->|[->|[->|[->|[->|[->|[->|[->|[->| ->]]]]]]]]]; reflexivity.
Qed.

Lemma parse_number_print_int z rest :
  delimited rest ->
  parse_number (print_int z ++ rest) = Some (PInt z, rest).
Proof.
  intros Hrest. unfold print_int.
  destruct (Z.ltb_spec z 0) as [Hneg|Hpos].
  - rewrite append_cons. unfold parse_number.
    rewrite scan_int_print_nat by by apply delimited_digits_end.
    rewrite delimited_scan_frac, delimited_scan_exp by done.
    rewrite digits_val_print_nat by lia. do 3 f_equal. lia.
  - destruct (print_nat_first z) as (c & s & Hp & Hc).
    rewrite Hp, append_cons, parse_number_digit by done.
    rewrite <- append_cons, <- Hp.
    rewrite scan_int_print_nat by by apply delimited_digits_end.
    rewrite delimited_scan_frac, delimited_scan_exp by done.
    by rewrite digits_val_print_nat.
Qed.

Lemma is_digit_digit_char d : 0 <= d < 10 -> is_digit (digit_char d) = true.
Proof.
  intros Hd.
  assert (d = 0 \/ d = 1 \/ d = 2 \/ d = 3 \/ d = 4 \/ d = 5 \/ d = 6 \/ d = 7 \/
          d = 8 \/ d = 9) as Hc by lia.
  destruct Hc as [->|[->|[->|[->|[->|[->|[->|[->|[->| ->]]]]]]]]]; reflexivity.
Qed.

Lemma digit_of_digit_char d : 0 <= d < 10 -> digit_of (digit_char d) = d.
Proof.
  intros Hd.
  assert (d = 0 \/ d = 1 \/ d = 2 \/ d = 3 \/ d = 4 \/ d = 5 \/ d = 6 \/ d = 7 \/
          d = 8 \/ d = 9) as Hc by lia.
  destruct Hc as [->|[->|[->|[->|[->|[->|[->|[->|[->| ->]]]]]]]]]; reflexivity.
Qed.

Lemma all_digits_frac_digits k r acc :
  all_digits acc = true -> all_digits (frac_digits k r acc) = true.
Proof.
  revert r acc. induction k as [|k IH]; intros r acc Hacc; [done|].
  simpl. apply IH. simpl. rewrite Hacc, andb_true_r.
  apply is_digit_digit_char. apply Z.mod_pos_bound. lia.
Qed.

Lemma length_frac_digits k r acc :
  String.length (frac_digits k r acc) = (k + String.length acc)%nat.
Proof.
  revert r acc. induction k as [|k IH]; intros r acc; [done|].
  simpl. rewrite IH. simpl. lia.
Qed.

Lemma frac_digits_app k r acc :
  frac_digits k r acc = frac_digits k r "" ++ acc.
Proof.
  revert r acc. induction k as [|k IH]; intros r acc; [done|].
  simpl. rewrite IH. rewrite (IH _ (String _ "")).
  by rewrite append_assoc.
Qed.

Lemma digits_val_app a s t :
  digits_val a (s ++ t) = digits_val (digits_val a s) t.
Proof.
  revert a. induction s as [|c s IH]; intros a; [done|].
  rewrite append_cons. simpl. apply IH.
Qed.

Lemma pow10_S k : pow10 (S k) = 10 * pow10 k.
Proof. unfold pow10. rewrite Nat2Z.inj_succ, Z.pow_succ_r by lia. done. Qed.

Lemma digits_val_frac_digits k r a :
  0 <= r < pow10 k ->
  digits_val a (frac_digits k r "") = a * pow10 k + r.
Proof.
  revert r a. induction k as [|k IH]; intros r a Hr.
  - unfold pow10 in *. simpl in *. lia.
  - simpl. rewrite frac_digits_app, digits_val_app.
    rewrite pow10_S in Hr.
    rewrite IH by (split; [apply Z.div_pos; lia|apply Z.div_lt_upper_bound; lia]).
    simpl. rewrite digit_of_digit_char by (apply Z.mod_pos_bound; lia).
    rewrite pow10_S. pose proof (Z.div_mod r 10). lia.
Qed.

Lemma scan_frac_digits ds rest :
  all_digits ds = true -> ds <> "" -> delimited rest ->
  scan_frac (String "." (ds ++ rest)) = Some (ds, rest).
Proof.
  intros Hds Hne Hrest. unfold scan_frac.
  rewrite span_digits_app; [by destruct ds| done |by apply delimited_digits_end].
Qed.

Lemma parse_number_print_dec d rest :
  (1 <= dscale d)%nat -> delimited rest ->
  parse_number (print_dec d ++ rest) = Some (PFloat d, rest).
Proof.
  intros Hk Hrest. destruct d as [m k]. simpl in Hk. unfold print_dec. simpl.
  destruct k as [|k]; [lia|].
  set (p := pow10 (S k)). set (a := Z.abs m).
  assert (0 < p) as Hp by apply pow10_pos.
  assert (0 <= a / p) as Hip by (apply Z.div_pos; lia).
  assert (0 <= a mod p < p) as Hfp by (apply Z.mod_pos_bound; lia).
  set (F := frac_digits (S k) (a mod p) "").
  assert (all_digits F = true) as HF by by apply all_digits_frac_digits.
  assert (F <> "") as HFne.
  { intros HF0. pose proof (length_frac_digits (S k) (a mod p) "") as Hl.
    fold F in Hl. rewrite HF0 in Hl. simpl in Hl. lia. }
  assert (String.length F = S k) as HFlen.
  { unfold F. rewrite length_frac_digits. simpl. lia. }
  assert (forall r, digits_end (String "." r)) as Hpoint by done.
  assert (digits_val (digits_val 0 (print_nat (a / p))) F = a) as Hval.
  { rewrite digits_val_print_nat by done. unfold F.
    rewrite digits_val_frac_digits by done. fold p.
    pose proof (Z.div_mod a p). lia. }
  destruct (Z.ltb_spec m 0) as [Hneg|Hpos].
  - rewrite !append_assoc. rewrite append_cons, append_nil_l.
    unfold parse_number.
    rewrite scan_int_print_nat by apply Hpoint.
    change ("." ++ F ++ rest) with (String "." (F ++ rest)).
    rewrite scan_frac_digits by done.
    rewrite delimited_scan_exp by done.
    rewrite Hval, HFlen. by replace (- a) with m by (unfold a; lia).
  - rewrite append_nil_l. rewrite !append_assoc.
    destruct (print_nat_first (a / p)) as (c & s & Hpn & Hc).
    rewrite Hpn, append_cons, parse_number_digit by done.
    rewrite <- append_cons, <- Hpn.
    rewrite scan_int_print_nat by apply Hpoint.
    change ("." ++ F ++ rest) with (String "." (F ++ rest)).
    rewrite scan_frac_digits by done.
    rewrite delimited_scan_exp by done.
    cbv zeta. rewrite Hval, HFlen. by replace a with m by (unfold a; lia).
Qed.

(** ** String literals *)

Lemma parse_string_escape_char c r :
  parse_string (escape_char c ++ r) =
  match parse_string r with
  | Some (str, r') => Some (String c str, r')
  | None => None
  end.
Proof. destruct c as [[] [] [] [] [] [] [] []]; reflexivity. Qed.

Lemma parse_string_escape s rest :
  parse_string (escape_string s ++ String "034" rest) = Some (s, rest).
Proof.
  induction s as [|c s IH]; [done|].
  cbn [escape_string]. rewrite append_assoc, parse_string_escape_char.
  by rewrite IH.
Qed.

Lemma parse_value_dumps_string fuel s rest :
  parse_value (S fuel) (dumps_string s ++ rest) = Some (PStr s, rest).
Proof.
  unfold dumps_string. rewrite append_cons, append_assoc, append_cons, append_nil_l.
  cbn [parse_value]. by rewrite parse_string_escape.
Qed.

(** ** Values that JSON text represents *)

(** Induction on values, with the items of lists and dictionaries. *)
Lemma pyval_ind (P : pyval -> Prop) :
  P PNone -> (forall b, P (PBool b)) -> (forall z, P (PInt z)) ->
  (forall d, P (PFloat d)) -> (forall s, P (PStr s)) ->
  (forall l, Forall P l -> P (PList l)) ->
  (forall d, Forall (fun kv => P (snd kv)) d -> P (PDict d)) ->
  forall v, P v.
Proof.
  intros HNone HBool HInt HFloat HStr HList HDict.
  fix IH 1.
  intros [|b|z|d|s|l|d];
    [exact HNone|apply HBool|apply HInt|apply HFloat|apply HStr| |].
  - apply HList. induction l as [|x l IHl]; constructor; [apply IH|apply IHl].
  - apply HDict. induction d as [|kv d IHd]; constructor; [apply IH|apply IHd].
Qed.




Lemma need_list l : need (PList l) = S (need_items l).
Proof. reflexivity. Qed.

Lemma need_dict d : need (PDict d) = S (need_members d).
Proof. reflexivity. Qed.



Lemma dumps_at_list indent level x l :
  dumps_at indent level (PList (x :: l)) =
  "[" ++ nl_indent indent (S level) ++ dumps_at indent (S level) x ++
  dumps_items indent (S level) l ++ nl_indent indent level ++ "]".
Proof.
  cbn [dumps_at]. do 4 f_equal.
  induction l as [|y l IH]; [done|]. cbn [dumps_items]. by rewrite <- IH.
Qed.

Lemma dumps_at_dict indent level k x d :
  dumps_at indent level (PDict ((k, x) :: d)) =
  "{" ++ nl_indent indent (S level) ++ dumps_string k ++ ": " ++
  dumps_at indent (S level) x ++ dumps_members indent (S level) d ++
  nl_indent indent level ++ "}".
Proof.
  cbn [dumps_at]. do 6 f_equal.
  induction d as [|[k' y] d IH]; [done|]. cbn [dumps_members]. by rewrite <- IH.
Qed.

(** ** White space and the first character of a value *)

Lemma skip_ws_spaces n s : skip_ws (spaces n ++ s) = skip_ws s.
Proof. induction n as [|n IH]; [done|]. cbn [spaces]. rewrite append_cons. apply IH. Qed.

Lemma skip_ws_nl_indent indent level s :
  skip_ws (nl_indent indent level ++ s) = skip_ws s.
Proof.
  destruct indent as [n|]; [|done]. unfold nl_indent.
  rewrite append_assoc. unfold newline. rewrite append_cons, append_nil_l.
  cbn [skip_ws is_ws]. apply skip_ws_spaces.
Qed.


Lemma skip_ws_value_char c s : value_char c -> skip_ws (String c s) = String c s.
Proof. intros [Hc _]. simpl. by rewrite Hc. Qed.

Lemma value_char_digit c : is_digit c = true -> value_char c.
Proof.
  intros Hc. apply is_digit_cases in Hc.
  destruct Hc as [->|[->|[->|[->|[->|[->|[->|[->|[->| ->]]]]]]]]]; done.
Qed.

Lemma dumps_at_first indent level v :
  exists c s, dumps_at indent level v = String c s /\ value_char c.
Proof.
  destruct v as [|[]|z|d|str|[|x l]|[|[k x] d]]; try (by eexists _, _).
  - cbn [dumps_at]. unfold print_int. destruct (z <? 0); [by eexists _, _|].
    destruct (print_nat_first z) as (c & s & -> & Hc).
    exists c, s. split; [done|]. by apply value_char_digit.
  - cbn [dumps_at]. unfold print_dec. destruct (dmant d <? 0); [by eexists _, _|].
    rewrite append_nil_l.
    destruct (print_nat_first (Z.abs (dmant d) / pow10 (dscale d))) as (c & s & -> & Hc).
    rewrite append_cons. eexists _, _. split; [done|]. by apply value_char_digit.
Qed.

Lemma skip_ws_dumps_at indent level v s :
  skip_ws (dumps_at indent level v ++ s) = dumps_at indent level v ++ s.
Proof.
  destruct (dumps_at_first indent level v) as (c & s' & -> & Hc).
  rewrite append_cons. by apply skip_ws_value_char.
Qed.

Lemma delimited_item_sep indent level s : delimited (item_sep indent level ++ s).
Proof. destruct indent; done. Qed.

Lemma delimited_closing indent level (c : ascii) s :
  (c = "]"%char \/ c = "}"%char) ->
  delimited (nl_indent indent level ++ String c s).
Proof. destruct indent; [done|]. by intros [-> | ->]. Qed.

(** ** Reading what was written *)

Lemma parse_value_number fuel c s :
  is_digit c = true \/ c = "-"%char ->
  parse_value (S fuel) (String c s) = parse_number (String c s).
Proof.
  intros [Hc | ->]; [|done]. apply is_digit_cases in Hc.
  destruct Hc as [->|[->|[->|[->|[->|[->|[->|[->|[->| ->]]]]]]]]]; reflexivity.
Qed.

Lemma parse_value_print_int fuel z rest :
  delimited rest ->
  parse_value (S fuel) (print_int z ++ rest) = Some (PInt z, rest).
Proof.
  intros Hrest. rewrite <- parse_number_print_int by done.
  unfold print_int. destruct (z <? 0).
  - rewrite append_cons. apply parse_value_number. by right.
  - destruct (print_nat_first z) as (c & s & -> & Hc).
    rewrite append_cons. apply parse_value_number. by left.
Qed.

Lemma parse_value_print_dec fuel d rest :
  (1 <= dscale d)%nat -> delimited rest ->
  parse_value (S fuel) (print_dec d ++ rest) = Some (PFloat d, rest).
Proof.
  intros Hd Hrest. rewrite <- parse_number_print_dec by done.
  unfold print_dec. destruct (dmant d <? 0).
  - rewrite !append_cons. apply parse_value_number. by right.
  - rewrite append_nil_l.
    destruct (print_nat_first (Z.abs (dmant d) / pow10 (dscale d))) as (c & s & -> & Hc).
    rewrite !append_cons. apply parse_value_number. by left.
Qed.

Lemma parse_value_open_list fuel r c s :
  skip_ws r = String c s -> c <> "]"%char ->
  parse_value (S fuel) (String "[" r) =
  match parse_elems fuel (String c s) with
  | Some (vs, r') => Some (PList vs, r')
  | None => None
  end.
Proof.
  intros Hr Hc. cbn [parse_value]. rewrite Hr.
  destruct c as [[] [] [] [] [] [] [] []]; done.
Qed.

Lemma parse_value_open_dict fuel r c s :
  skip_ws r = String c s -> c <> "}"%char ->
  parse_value (S fuel) (String "{" r) =
  match parse_members fuel (String c s) with
  | Some (kvs, r') => Some (PDict (dict_of_pairs kvs), r')
  | None => None
  end.
Proof.
  intros Hr Hc. cbn [parse_value]. rewrite Hr.
  destruct c as [[] [] [] [] [] [] [] []]; done.
Qed.

Lemma assoc_set_fresh {V} k (v : V) (d : list (string * V)) :
  k ∉ map fst d -> assoc_set k v d = (d ++ [(k, v)])%list.
Proof.
  induction d as [|[k' v'] d IH]; [done|]. intros Hk. cbn [assoc_set].
  rewrite map_cons, not_elem_of_cons in Hk. destruct Hk as [Hne Hk].
  destruct (String.eqb_spec k k'); [done|]. cbn [app]. by rewrite IH.
Qed.

Lemma dict_of_pairs_app (acc d : list (string * pyval)) :
  NoDup (map fst (acc ++ d)%list) ->
  foldl (fun d kv => assoc_set (fst kv) (snd kv) d) acc d = (acc ++ d)%list.
Proof.
  revert acc. induction d as [|[k v] d IH]; intros acc Hnd.
  - by rewrite app_nil_r.
  - simpl. rewrite assoc_set_fresh.
    + rewrite IH; rewrite <- app_assoc; done.
    + rewrite map_app, map_cons in Hnd. apply list.NoDup_app in Hnd as (_ & Hdis & _).
      intros Hin. apply (Hdis k Hin). by left.
Qed.

Lemma dict_of_pairs_id d : NoDup (map fst d) -> dict_of_pairs d = d.
Proof. intros Hnd. unfold dict_of_pairs. by rewrite dict_of_pairs_app. Qed.

Section RoundTrip.
Variable indent : option nat.


Lemma parse_elems_dumps level x l fuel rest :
  Forall (reads_back indent) (x :: l) ->
  (need_items (x :: l) <= fuel)%nat ->
  parse_elems fuel
    (dumps_at indent (S level) x ++ dumps_items indent (S level) l ++
     nl_indent indent level ++ String "]" rest) =
  Some (x :: l, rest).
Proof.
  revert x fuel. induction l as [|y l IH]; intros x fuel Hall Hfuel.
  - apply list.Forall_cons in Hall as [Hx _]. cbn [need_items foldr] in Hfuel.
    destruct fuel as [|fuel]; [lia|]. cbn [parse_elems dumps_items].
    rewrite append_nil_l.
    rewrite Hx; [|lia|by apply delimited_closing; left].
    rewrite skip_ws_nl_indent. done.
  - apply list.Forall_cons in Hall as [Hx Hall]. cbn [need_items foldr] in Hfuel.
    destruct fuel as [|fuel]; [lia|]. cbn [parse_elems dumps_items].
    rewrite !append_assoc.
    rewrite Hx; [|lia|apply delimited_item_sep].
    assert (forall s, skip_ws (item_sep indent (S level) ++ s) =
                      String "," (match indent with
                                  | None => String " " s
                                  | Some _ => nl_indent indent (S level) ++ s
                                  end)) as Hsep.
    { intros s. unfold item_sep. destruct indent; [by rewrite append_assoc|done]. }
    rewrite Hsep.
    assert (forall s, skip_ws (match indent with
                               | None => String " " s
                               | Some _ => nl_indent indent (S level) ++ s
                               end) = skip_ws s) as Hsep2.
    { intros s. destruct indent; [apply skip_ws_nl_indent|done]. }
    rewrite Hsep2, skip_ws_dumps_at.
    rewrite <- !append_assoc. rewrite !append_assoc.
    rewrite IH; [done|done|]. fold (need_items (y :: l)) in Hfuel.
    cbn [need_items foldr] in *. lia.
Qed.

Lemma parse_members_dumps level k x d fuel rest :
  Forall (fun kv => reads_back indent (snd kv)) ((k, x) :: d) ->
  (need_members ((k, x) :: d) <= fuel)%nat ->
  parse_members fuel
    (dumps_string k ++ ": " ++ dumps_at indent (S level) x ++
     dumps_members indent (S level) d ++
     nl_indent indent level ++ String "}" rest) =
  Some ((k, x) :: d, rest).
Proof.
  revert k x fuel. induction d as [|[k' y] d IH]; intros k x fuel Hall Hfuel.
  - apply list.Forall_cons in Hall as [Hx _]. simpl in Hx. unfold need_members in Hfuel; simpl in Hfuel; fold need_members in Hfuel.
    destruct fuel as [|fuel]; [lia|].
    unfold dumps_string at 1. rewrite append_cons. cbn [parse_members dumps_members].
    rewrite append_assoc, append_cons, append_nil_l, parse_string_escape.
    rewrite append_nil_l.
    change (": " ++ ?s) with (String ":" (String " " s)).
    cbn [skip_ws is_ws]. rewrite skip_ws_dumps_at.
    rewrite Hx; [|lia|by apply delimited_closing; right].
    rewrite skip_ws_nl_indent. done.
  - apply list.Forall_cons in Hall as [Hx Hall]. simpl in Hx. unfold need_members in Hfuel; simpl in Hfuel; fold need_members in Hfuel.
    destruct fuel as [|fuel]; [lia|].
    unfold dumps_string at 1. rewrite append_cons. cbn [parse_members dumps_members].
    rewrite append_assoc, append_cons, append_nil_l, parse_string_escape.
    change (": " ++ ?s) with (String ":" (String " " s)) at 1.
    cbn [skip_ws is_ws]. rewrite skip_ws_dumps_at.
    rewrite !append_assoc.
    rewrite Hx; [|lia|apply delimited_item_sep].
    assert (forall s, skip_ws (item_sep indent (S level) ++ s) =
                      String "," (match indent with
                                  | None => String " " s
                                  | Some _ => nl_indent indent (S level) ++ s
                                  end)) as Hsep.
    { intros s. unfold item_sep. destruct indent; [by rewrite append_assoc|done]. }
    rewrite Hsep.
    assert (forall s, skip_ws (match indent with
                               | None => String " " s
                               | Some _ => nl_indent indent (S level) ++ s
                               end) = skip_ws s) as Hsep2.
    { intros s. destruct indent; [apply skip_ws_nl_indent|done]. }
    rewrite Hsep2.
    assert (forall s, skip_ws (dumps_string k' ++ s) = dumps_string k' ++ s) as Hkey.
    { intros s. unfold dumps_string. by rewrite append_cons. }
    rewrite Hkey.
    rewrite IH; [done|done|]. unfold need_members. simpl. lia.
Qed.

Theorem parse_value_dumps v : wf_json v -> reads_back indent v.
Proof.
  induction v as [|b|z|d|s|l IH|d IH] using pyval_ind; intros Hwf level fuel rest Hfuel Hrest.
  - destruct fuel; [simpl in Hfuel; lia|]. done.
  - destruct fuel; [simpl in Hfuel; lia|]. by destruct b.
  - destruct fuel; [simpl in Hfuel; lia|]. by apply parse_value_print_int.
  - destruct fuel; [simpl in Hfuel; lia|]. inversion Hwf; subst.
    by apply parse_value_print_dec.
  - destruct fuel; [simpl in Hfuel; lia|]. apply parse_value_dumps_string.
  - inversion Hwf as [| | | | |l' Hl|]; subst.
    rewrite need_list in Hfuel. destruct fuel as [|fuel]; [lia|].
    destruct l as [|x l]; [done|].
    rewrite dumps_at_list, !append_assoc, append_cons, append_nil_l.
    destruct (dumps_at_first indent (S level) x) as (c & s & Hc & Hvc).
    rewrite (parse_value_open_list fuel _ c
               (s ++ dumps_items indent (S level) l ++ nl_indent indent level ++
                String "]" rest)).
    + rewrite <- append_cons, <- Hc.
      rewrite parse_elems_dumps; [done| |lia].
      apply Forall_forall. intros v Hv. rewrite Forall_forall in IH, Hl.
      apply IH; [done|]. by apply Hl.
    + rewrite skip_ws_nl_indent, Hc, append_cons. rewrite skip_ws_value_char by done.
      by rewrite append_cons, append_nil_l.
    + by destruct Hvc as (_ & ? & _).
  - inversion Hwf as [| | | | | |d' Hnd Hd]; subst.
    rewrite need_dict in Hfuel. destruct fuel as [|fuel]; [lia|].
    destruct d as [|[k x] d]; [done|].
    rewrite dumps_at_dict, !append_assoc, append_cons, append_nil_l.
    erewrite parse_value_open_dict;
      [|rewrite skip_ws_nl_indent; unfold dumps_string at 1;
        rewrite append_cons; cbn [skip_ws is_ws]; reflexivity|done].
    rewrite <- append_cons.
    change (String "034" (escape_string k ++ String "034" "")) with (dumps_string k).
    change ("}" ++ rest) with (String "}" rest).
    rewrite parse_members_dumps; [by rewrite dict_of_pairs_id| |lia].
    apply Forall_forall. intros kv Hkv. rewrite Forall_forall in IH, Hd.
    apply IH; [done|]. by apply Hd.
Qed.

Lemma length_item_sep level : (1 <= String.length (item_sep indent level))%nat.
Proof. destruct indent; simpl; lia. Qed.

Lemma need_items_le_length level l :
  Forall (fun v => forall level, (need v <= String.length (dumps_at indent level v))%nat) l ->
  (need_items l <= String.length (dumps_items indent level l))%nat.
Proof.
  induction 1 as [|x l Hx Hl IH]; [done|].
  cbn [need_items foldr dumps_items]. fold (need_items l).
  rewrite !length_append. pose proof (length_item_sep level). specialize (Hx level). lia.
Qed.

Lemma need_members_le_length level d :
  Forall (fun kv => forall level,
            (need (snd kv) <= String.length (dumps_at indent level (snd kv)))%nat) d ->
  (need_members d <= String.length (dumps_members indent level d))%nat.
Proof.
  induction 1 as [|[k x] d Hx Hd IH]; [done|].
  unfold need_members. cbn [foldr dumps_members snd]. fold (need_members d).
  rewrite !length_append. pose proof (length_item_sep level).
  specialize (Hx level). simpl in Hx. lia.
Qed.

Lemma need_le_length v level :
  (need v <= String.length (dumps_at indent level v))%nat.
Proof.
  revert level. induction v as [|b|z|d|s|l IH|d IH] using pyval_ind; intros level.
  - simpl. lia.
  - destruct b; simpl; lia.
  - destruct (dumps_at_first indent level (PInt z)) as (c & s & -> & _). simpl. lia.
  - destruct (dumps_at_first indent level (PFloat d)) as (c & s & -> & _). simpl. lia.
  - simpl. lia.
  - rewrite need_list. destruct l as [|x l]; [simpl; lia|].
    rewrite dumps_at_list, !length_append.
    apply list.Forall_cons in IH as [Hx Hl].
    pose proof (need_items_le_length (S level) l Hl). specialize (Hx (S level)).
    cbn [need_items foldr]. fold (need_items l). simpl. lia.
  - rewrite need_dict. destruct d as [|[k x] d]; [simpl; lia|].
    rewrite dumps_at_dict, !length_append.
    apply list.Forall_cons in IH as [Hx Hd]. simpl in Hx.
    pose proof (need_members_le_length (S level) d Hd). specialize (Hx (S level)).
    unfold need_members. cbn [foldr snd]. fold (need_members d). simpl. lia.
Qed.

(** [json.loads(json.dumps(v)) == v] *)
Theorem json_loads_dumps v : wf_json v -> json_loads (json_dumps indent v) = Ok v.
Proof.
  intros Hwf. unfold json_loads, json_dumps.
  rewrite <- (append_nil_r (dumps_at indent 0 v)) at 2.
  rewrite skip_ws_dumps_at.
  rewrite (parse_value_dumps v Hwf); [done| |done].
  pose proof (need_le_length v 0). lia.
Qed.

End RoundTrip.

(** * Persisting and restoring the history *)

Lemma rstrip_snoc s c : is_space c = false -> rstrip (s ++ String c "") = s ++ String c "".
Proof.
  intros Hc. induction s as [|c' s IH].
  - rewrite append_nil_l. simpl. by rewrite Hc.
  - rewrite append_cons. cbn [rstrip]. rewrite IH.
    destruct s; by rewrite ?append_cons.
Qed.

Lemma dumps_list_shape indent level l :
  exists body, dumps_at indent level (PList l) = String "[" (body ++ String "]" "").
Proof.
  destruct l as [|x l]; [by exists ""|].
  rewrite dumps_at_list. eexists. rewrite append_cons, append_nil_l.
  f_equal. rewrite <- !append_assoc. reflexivity.
Qed.

Lemma strip_dumps_list indent level l :
  strip (dumps_at indent level (PList l)) = dumps_at indent level (PList l).
Proof.
  destruct (dumps_list_shape indent level l) as [body ->].
  unfold strip. cbn [lstrip is_space]. rewrite <- append_cons. by apply rstrip_snoc.
Qed.

Lemma dumps_list_nonempty indent level l :
  String.eqb (dumps_at indent level (PList l)) "" = false.
Proof. by destruct (dumps_list_shape indent level l) as [body ->]. Qed.

Lemma wf_json_PNum x : wf_num x -> wf_json (PNum x).
Proof. destruct x; simpl; by constructor. Qed.

Lemma wf_json_snapshot ts cpu mem avail disk pc freq :
  wf_num cpu -> wf_num mem -> wf_num avail -> wf_num disk -> wf_num freq ->
  wf_json (snapshot ts cpu mem avail disk pc freq).
Proof.
  intros. constructor.
  - apply (bool_decide_unpack _). by vm_compute.
  - repeat constructor; cbn; try by apply wf_json_PNum.
Qed.

Section PersistenceFacts.
Context `{PyFormat} `{Sklearn}.
Import Runs.

Lemma windows_save_metrics_run w :
  Windows.config_file ∉ fs_denied (fs w) ->
  Windows.save_metrics w =
  (Ok tt,
   {| self := self w;
      fs := {| fs_files :=
                 <[Windows.config_file := Text (json_dumps (Some 2%nat) (history_of w))]>
                   (fs_files (fs w));
               fs_denied := fs_denied (fs w) |};
      stdout := stdout w |}).
Proof.
  intros Hden. destruct w as [[h m sc] [files denied] out].
  unfold Windows.save_metrics, bind, get_history, write_file. simpl in *.
  by rewrite bool_decide_eq_false_2.
Qed.

Lemma windows_load_metrics_list w l :
  fs_files (fs w) !! Windows.config_file = Some (Text (json_dumps (Some 2%nat) (PList l))) ->
  Forall wf_json l ->
  Windows.load_metrics w =
  (Ok tt,
   {| self := {| metrics_history := PList l; model := model (self w);
                 scaler := scaler (self w) |};
      fs := fs w;
      stdout := stdout w ++
        ["✅ Loaded " ++ print_nat (Z.of_nat (length l)) ++ " historical records"] |}).
Proof.
  intros Hfile Hwf. destruct w as [[h m sc] [files denied] out]. simpl in Hfile.
  unfold Windows.load_metrics, bind, path_exists, try_except, read_text, lift,
    set_history, print.
  cbn [fs fs_files self metrics_history model scaler stdout].
  rewrite Hfile. rewrite bool_decide_eq_true_2 by by eexists.
  cbn [fs fs_files self metrics_history model scaler stdout]. rewrite Hfile.
  cbv zeta. unfold json_dumps. rewrite strip_dumps_list, dumps_list_nonempty. cbn [negb].
  change (dumps_at (Some 2%nat) 0 (PList l)) with (json_dumps (Some 2%nat) (PList l)).
  rewrite json_loads_dumps by by constructor.
  done.
Qed.

Lemma streamlit_load_metrics_list w l :
  fs_files (fs w) !! Streamlit.metrics_file = Some (Text (json_dumps None (PList l))) ->
  Forall wf_json l ->
  Streamlit.load_metrics w =
  (Ok tt,
   {| self := {| metrics_history := PList l; model := model (self w);
                 scaler := scaler (self w) |};
      fs := fs w; stdout := stdout w |}).
Proof.
  intros Hfile Hwf. destruct w as [[h m sc] [files denied] out]. simpl in Hfile.
  unfold Streamlit.load_metrics, bind, path_exists, try_except, read_text, lift,
    set_history, print.
  cbn [fs fs_files self metrics_history model scaler stdout].
  rewrite Hfile. rewrite bool_decide_eq_true_2 by by eexists.
  cbn [fs fs_files self metrics_history model scaler stdout]. rewrite Hfile.
  cbv zeta. unfold json_dumps. rewrite strip_dumps_list, dumps_list_nonempty. cbn [negb].
  change (dumps_at None 0 (PList l)) with (json_dumps None (PList l)).
  rewrite json_loads_dumps by by constructor.
  done.
Qed.

(** The Streamlit [load_metrics] never raises. *)
Lemma streamlit_load_metrics_total w : outcome Streamlit.load_metrics w = Ok tt.
Proof.
  destruct w as [[h m sc] [files denied] out].
  unfold outcome, Streamlit.load_metrics, bind, path_exists, try_except, read_text,
    lift, set_history, ret.
  cbn [fs fs_files self metrics_history model scaler stdout].
  destruct (bool_decide _); [|done].
  cbn [fs fs_files self metrics_history model scaler stdout].
  destruct (files !! Streamlit.metrics_file) as [[content| |]|]; try done.
  cbv zeta. destruct (negb (String.eqb (strip content) "")); [|done].
  by destruct (json_loads (strip content)).
Qed.

Lemma streamlit_save_metrics_run w l metrics :
  history_of w = PList l ->
  Streamlit.metrics_file ∉ fs_denied (fs w) ->
  Streamlit.save_metrics metrics w =
  (Ok tt,
   {| self := {| metrics_history := PList (last_n 100 (l ++ [metrics]));
                 model := model (self w); scaler := scaler (self w) |};
      fs := {| fs_files :=
                 <[Streamlit.metrics_file :=
                     Text (json_dumps None (PList (last_n 100 (l ++ [metrics]))))]>
                   (fs_files (fs w));
               fs_denied := fs_denied (fs w) |};
      stdout := stdout w |}).
Proof.
  destruct w as [[h m sc] [files denied] out]. unfold history_of. simpl.
  intros -> Hden.
  unfold Streamlit.save_metrics, bind, get_history, set_history, lift, try_except,
    write_file, ret.
  cbn [metrics_history self py_append py_len fst snd fs stdout model scaler
       fs_denied fs_files].
  destruct (100 <? length (l ++ [metrics]))%nat eqn:Hlen.
  - cbn [py_last metrics_history self fs stdout model scaler fst snd fs_denied fs_files].
    by rewrite bool_decide_eq_false_2.
  - apply Nat.ltb_ge in Hlen.
    cbn [metrics_history self fs stdout model scaler fst snd fs_denied fs_files].
    rewrite last_n_short by done. by rewrite bool_decide_eq_false_2.
Qed.

End PersistenceFacts.

Lemma wf_json_sample_no i : wf_json (Examples.sample_no i).
Proof. unfold Examples.sample_no, sample. apply wf_json_snapshot; simpl; lia. Qed.

Lemma Forall_wf_json_samples l : Forall wf_json (map Examples.sample_no l).
Proof.
  apply Forall_forall. intros e He.
  apply list_elem_of_In, in_map_iff in He as (i & <- & _).
  apply wf_json_sample_no.
Qed.

(** C6.  Restoring immediately after persisting returns the history that
    was persisted: for every history whose entries are values JSON text
    represents (a float shows a fractional digit, the keys of a dictionary
    are distinct; every snapshot of the sampler is one), [save_metrics]
    replaces the whole metrics file by the text of the history, and
    [load_metrics], run on the files it leaves, by the same manager or by a
    fresh one, succeeds and sets the history to the persisted one.  The same
    holds for the Streamlit pair, whose [save_metrics] appends a snapshot
    before it writes. *)
Theorem restore_after_persist `{PyFormat} `{Sklearn} :
  (forall w w' l,
      Runs.history_of w = PList l -> Forall wf_json l ->
      Windows.config_file ∉ fs_denied (fs w) ->
      fs w' = fs (Runs.after Windows.save_metrics w) ->
      Runs.outcome Windows.save_metrics w = Ok tt /\
      fs_files (fs (Runs.after Windows.save_metrics w)) !! Windows.config_file =
        Some (Text (json_dumps (Some 2%nat) (PList l))) /\
      json_loads (json_dumps (Some 2%nat) (PList l)) = Ok (PList l) /\
      Runs.outcome Windows.load_metrics w' = Ok tt /\
      Runs.history_of (Runs.after Windows.load_metrics w') = PList l) /\
  (forall w w' l metrics,
      Runs.history_of w = PList l -> Forall wf_json (l ++ [metrics]) ->
      Streamlit.metrics_file ∉ fs_denied (fs w) ->
      fs w' = fs (Runs.after (Streamlit.save_metrics metrics) w) ->
      Runs.outcome (Streamlit.save_metrics metrics) w = Ok tt /\
      Runs.outcome Streamlit.load_metrics w' = Ok tt /\
      Runs.history_of (Runs.after Streamlit.load_metrics w') =
        Runs.history_of (Runs.after (Streamlit.save_metrics metrics) w)) /\
  (forall ts cpu mem avail disk pc freq,
      wf_num cpu -> wf_num mem -> wf_num avail -> wf_num disk -> wf_num freq ->
      wf_json (snapshot ts cpu mem avail disk pc freq)).
Proof.
  split; [|split].
  - intros w w' l Hh Hwf Hden Hfs. unfold Runs.outcome, Runs.after in *.
    rewrite (windows_save_metrics_run w Hden) in *. cbn [fst snd fs fs_files] in *.
    rewrite Hh in *.
    assert (fs_files (fs w') !! Windows.config_file =
            Some (Text (json_dumps (Some 2%nat) (PList l)))) as Hfile.
    { rewrite Hfs. apply lookup_insert_eq. }
    rewrite (windows_load_metrics_list w' l Hfile Hwf).
    repeat split; try done.
    + apply lookup_insert_eq.
    + apply json_loads_dumps. by constructor.
  - intros w w' l metrics Hh Hwf Hden Hfs. unfold Runs.outcome, Runs.after in *.
    rewrite (streamlit_save_metrics_run w l metrics Hh Hden) in *.
    cbn [fst snd fs fs_files] in *.
    assert (fs_files (fs w') !! Streamlit.metrics_file =
            Some (Text (json_dumps None (PList (last_n 100 (l ++ [metrics])))))) as Hfile.
    { rewrite Hfs. apply lookup_insert_eq. }
    rewrite (streamlit_load_metrics_list w' _ Hfile).
    + done.
    + unfold last_n. by apply Forall_drop.
  - apply wf_json_snapshot.
Qed.

Lemma restore_after_persist_witness :
  Runs.history_of
    (Runs.after (@Windows.load_metrics constant_learner)
       (Runs.after (@Windows.save_metrics constant_learner)
          (Examples.world_of Examples.manager_10))) =
  PList (map Examples.sample_no (seq 0 10)).
Proof.
  pose proof (@restore_after_persist decimal_format constant_learner) as [Hwin _].
  destruct (Hwin (Examples.world_of Examples.manager_10)
              (Runs.after (@Windows.save_metrics constant_learner)
                 (Examples.world_of Examples.manager_10))
              (map Examples.sample_no (seq 0 10)))
    as (_ & _ & _ & _ & Hh).
  - reflexivity.
  - apply Forall_wf_json_samples.
  - cbn. apply not_elem_of_empty.
  - reflexivity.
  - exact Hh.
Defined.

(** C7.  [load_metrics] is specified never to fail, whatever the metrics
    file holds.  The Streamlit [load_metrics] indeed never raises.  The
    command-line [load_metrics] does: when the file holds the text [42],
    [json.loads] returns the number 42, the history is set to it, and taking
    its [len] for the message raises [TypeError], which the handler for
    [JSONDecodeError] lets through. *)
Theorem windows_load_metrics_raises_on_number :
  Runs.outcome (@Windows.load_metrics constant_learner)
    Examples.world_metrics_42 = Raise TypeError /\
  Runs.history_of
    (Runs.after (@Windows.load_metrics constant_learner)
       Examples.world_metrics_42) = PInt 42 /\
  (forall (F : PyFormat) (L : Sklearn) (w : world),
      Runs.outcome Streamlit.load_metrics w = Ok tt).
Proof.
  split; [|split].
  - unfold Runs.outcome, Windows.load_metrics, bind, path_exists, try_except,
      read_text, lift, set_history, print.
    cbn [fs fs_files self Examples.world_metrics_42].
    rewrite lookup_singleton_eq.
    rewrite bool_decide_eq_true_2 by by eexists.
    cbn [fs fs_files self Examples.world_metrics_42]. rewrite lookup_singleton_eq.
    reflexivity.
  - unfold Runs.history_of, Runs.after, Windows.load_metrics, bind, path_exists,
      try_except, read_text, lift, set_history, print.
    cbn [fs fs_files self Examples.world_metrics_42].
    rewrite lookup_singleton_eq.
    rewrite bool_decide_eq_true_2 by by eexists.
    cbn [fs fs_files self Examples.world_metrics_42]. rewrite lookup_singleton_eq.
    reflexivity.
  - intros F L w. apply streamlit_load_metrics_total.
Qed.

(** * Further properties of the front ends *)

(** ** The classifier on arbitrary values *)

Lemma py_getitem_raise d k e :
  py_getitem d k = Raise e -> e = KeyError k \/ e = TypeError.
Proof.
  destruct d; simpl; try (intros [= <-]; by right).
  destruct (assoc k d); [done|]. intros [= <-]. by left.
Qed.

Lemma py_gt_raise v k e : py_gt v k = Raise e -> e = TypeError /\ as_num v = None.
Proof. unfold py_gt. destruct (as_num v); [done|]. by intros [= <-]. Qed.

(** X1.  The classifier reads both [cpu_percent] and [memory_percent]
    before it compares anything, and compares memory only when the CPU test
    fails.  So it returns a state exactly when both keys are present, the
    CPU reading is a number, and either that number is above 80 or the
    memory reading is a number too; the state is then one of the four names,
    the one of the cascade when both readings are numbers.  In every other
    case it raises [KeyError] for the first missing key or [TypeError], and
    the Streamlit classifier raises the same exception in the same cases. *)
Theorem classifier_domain (metrics : pyval) :
  ((exists name, analyze_system_state metrics = Ok name) <->
   exists c m x,
     py_getitem metrics "cpu_percent" = Ok c /\
     py_getitem metrics "memory_percent" = Ok m /\
     as_num c = Some x /\
     (num_gtb x (NInt 80) = true \/ is_Some (as_num m))) /\
  (forall name, analyze_system_state metrics = Ok name ->
     exists s, name = state_name s /\
       analyze_state metrics = Ok (streamlit_name s, streamlit_color s) /\
       forall x y,
         py_getitem metrics "cpu_percent" = Ok (PNum x) ->
         py_getitem metrics "memory_percent" = Ok (PNum y) ->
         s = classify_spec x y) /\
  (forall e, analyze_system_state metrics = Raise e ->
     analyze_state metrics = Raise e /\
     (e = KeyError "cpu_percent" \/ e = KeyError "memory_percent" \/ e = TypeError)).
Proof.
  unfold analyze_system_state, analyze_state.
  destruct (py_getitem metrics "cpu_percent") as [c|e1] eqn:Hc; cbn [rbind].
  2:{ split; [|split].
      - split; [by intros [? ?]|]. by intros (? & ? & ? & ? & _).
      - done.
      - intros e [= <-]. split; [done|].
        destruct (py_getitem_raise _ _ _ Hc) as [-> | ->]; auto. }
  destruct (py_getitem metrics "memory_percent") as [m|e2] eqn:Hm; cbn [rbind].
  2:{ split; [|split].
      - split; [by intros [? ?]|]. by intros (? & ? & ? & _ & ? & _).
      - done.
      - intros e [= <-]. split; [done|].
        destruct (py_getitem_raise _ _ _ Hm) as [-> | ->]; auto. }
  unfold py_gt.
  destruct (as_num c) as [x|] eqn:Hx; cbn [rbind].
  2:{ split; [|split].
      - split; [by intros [? ?]|]. intros (? & ? & ? & [= <-] & _ & ? & _). congruence.
      - done.
      - intros e [= <-]. auto. }
  assert (forall x', c = PNum x' -> x' = x) as Hcx.
  { intros x' ->. rewrite as_num_PNum in Hx. by injection Hx. }
  destruct (num_gtb x (NInt 80)) eqn:H80; cbn [rbind].
  { split; [|split].
    - split; [|by eexists]. intros _. exists c, m, x. auto.
    - intros name [= <-]. exists CRITICAL. split; [done|]. split; [done|].
      intros x' y [= ->] _. unfold classify_spec. rewrite (Hcx x' eq_refl), H80. done.
    - done. }
  destruct (as_num m) as [y|] eqn:Hy; cbn [rbind].
  2:{ split; [|split].
      - split; [by intros [? ?]|].
        intros (? & ? & ? & [= <-] & [= <-] & Hx' & [H|[? H]]); [|by rewrite Hy in H].
        rewrite Hx in Hx'. injection Hx' as <-. by rewrite H80 in H.
      - done.
      - intros e [= <-]. auto. }
  assert (forall y', m = PNum y' -> y' = y) as Hmy.
  { intros y' ->. rewrite as_num_PNum in Hy. by injection Hy. }
  split; [|split].
  - split; [|by destruct (num_gtb y (NInt 85)), (num_gtb x (NInt 60)),
                 (num_gtb y (NInt 70)), (num_gtb x (NInt 30)), (num_gtb y (NInt 50));
               cbn; eexists].
    intros _. exists c, m, x. repeat split; try done. right. by eexists.
  - intros name Hname.
    exists (classify_spec x y).
    assert (forall x' y', Ok c = Ok (PNum x') -> Ok m = Ok (PNum y') ->
                          classify_spec x y = classify_spec x' y') as Hlast.
    { intros x' y' [= ->] [= ->]. by rewrite (Hcx x' eq_refl), (Hmy y' eq_refl). }
    split; [|split; [|exact Hlast]]; clear Hlast;
      unfold classify_spec; rewrite H80;
      destruct (num_gtb y (NInt 85)), (num_gtb x (NInt 60)),
        (num_gtb y (NInt 70)), (num_gtb x (NInt 30)), (num_gtb y (NInt 50));
      cbn in *; by injection Hname as <-.
  - intros e.
    by destruct (num_gtb y (NInt 85)), (num_gtb x (NInt 60)),
      (num_gtb y (NInt 70)), (num_gtb x (NInt 30)), (num_gtb y (NInt 50)).
Qed.

Lemma classifier_domain_witness :
  exists name,
    analyze_system_state
      (PDict [("cpu_percent", PInt 90); ("memory_percent", PNone)]) = Ok name.
Proof.
  apply (proj2 (proj1 (classifier_domain
                         (PDict [("cpu_percent", PInt 90); ("memory_percent", PNone)])))).
  exists (PInt 90), PNone, (NInt 90). repeat split. by left.
Defined.

(** ** Loading the history *)

Lemma json_loads_raise s e : json_loads s = Raise e -> e = JSONDecodeError.
Proof.
  unfold json_loads.
  destruct (parse_value _ _) as [[v r]|]; [|by intros [= <-]].
  destruct (skip_ws r); [done|]. by intros [= <-].
Qed.

Lemma json_loads_empty : json_loads "" = Raise JSONDecodeError.
Proof. reflexivity. Qed.

Section LoadFacts.
Context `{PyFormat} `{Sklearn}.
Import Runs.

(** The command-line [load_metrics] on a metrics file that holds text. *)
Lemma windows_load_metrics_text w content :
  fs_files (fs w) !! Windows.config_file = Some (Text content) ->
  Windows.load_metrics w =
  if String.eqb (strip content) "" then
    (Ok tt,
     {| self := {| metrics_history := PList []; model := model (self w);
                   scaler := scaler (self w) |};
        fs := fs w;
        stdout := stdout w ++ ["⚠️  Empty metrics file, starting fresh"] |})
  else
    match json_loads (strip content) with
    | Raise _ =>
        (Ok tt,
         {| self := {| metrics_history := PList []; model := model (self w);
                       scaler := scaler (self w) |};
            fs := fs w;
            stdout := stdout w ++ ["⚠️  Corrupted metrics file, starting fresh"] |})
    | Ok v =>
        match py_len v with
        | Ok n =>
            (Ok tt,
             {| self := {| metrics_history := v; model := model (self w);
                           scaler := scaler (self w) |};
                fs := fs w;
                stdout := stdout w ++
                  ["✅ Loaded " ++ print_nat (Z.of_nat n) ++ " historical records"] |})
        | Raise e =>
            (Raise e,
             {| self := {| metrics_history := v; model := model (self w);
                           scaler := scaler (self w) |};
                fs := fs w; stdout := stdout w |})
        end
    end.
Proof.
  intros Hfile. destruct w as [[h m sc] [files denied] out]. simpl in Hfile.
  unfold Windows.load_metrics, bind, path_exists, try_except, read_text, lift,
    set_history, print.
  cbn [fs fs_files self metrics_history model scaler stdout].
  rewrite Hfile. rewrite bool_decide_eq_true_2 by by eexists.
  cbn [fs fs_files self metrics_history model scaler stdout]. rewrite Hfile.
  cbv zeta. destruct (String.eqb (strip content) ""); cbn [negb]; [done|].
  destruct (json_loads (strip content)) as [v|e] eqn:Hv.
  - cbn [fs fs_files self metrics_history model scaler stdout].
    destruct (py_len v) as [n|e] eqn:Hn; [done|].
    cbn [fs fs_files self metrics_history model scaler stdout].
    destruct v; try discriminate; simpl in Hn; injection Hn as <-; done.
  - apply json_loads_raise in Hv as ->. done.
Qed.

(** X2.  When the metrics file of the command-line manager holds only
    white space, or plain text that [json.loads] rejects, [load_metrics]
    returns normally: the history becomes the empty list, whatever it was,
    one warning line is printed, and the model, the scaler and every file
    stay as they were.  When there is no metrics file the history is not
    reset: it stays as it was, and one line is printed. *)
Theorem windows_load_metrics_recovers (w : world) :
  (forall content,
      fs_files (fs w) !! Windows.config_file = Some (Text content) ->
      strip content = "" \/
      (plain (strip content) = true /\
       json_loads (strip content) = Raise JSONDecodeError) ->
      exists line,
        Windows.load_metrics w =
        (Ok tt,
         {| self := {| metrics_history := PList []; model := model (self w);
                       scaler := scaler (self w) |};
            fs := fs w; stdout := stdout w ++ [line] |})) /\
  (fs_files (fs w) !! Windows.config_file = None ->
   exists line, Windows.load_metrics w = (Ok tt, printed line w)).
Proof.
  split.
  - intros content Hfile Hbad.
    rewrite (windows_load_metrics_text w content Hfile).
    destruct (String.eqb (strip content) "") eqn:Hblank; [by eexists|].
    destruct Hbad as [Hb | [_ Hb]].
    + rewrite Hb in Hblank. done.
    + rewrite Hb. by eexists.
  - intros Hfile. destruct w as [[h m sc] [files denied] out]. simpl in Hfile.
    unfold Windows.load_metrics, bind, path_exists, print, printed.
    cbn [fs fs_files self stdout]. rewrite Hfile.
    rewrite bool_decide_eq_false_2 by (by intros [? ?]).
    by eexists.
Qed.

(** X3.  When the metrics file holds plain text, the command-line
    [load_metrics] either returns normally or raises [TypeError], and it
    raises exactly when the text, stripped, is JSON for a value without a
    length: a number, [true], [false] or [null].  Whenever the text is JSON
    for a value, the history is that value afterwards, list or not, also
    when [load_metrics] raises. *)
Theorem windows_load_metrics_raises_iff (w : world) (content : string) :
  fs_files (fs w) !! Windows.config_file = Some (Text content) ->
  plain (strip content) = true ->
  (outcome Windows.load_metrics w = Ok tt \/
   outcome Windows.load_metrics w = Raise TypeError) /\
  (outcome Windows.load_metrics w = Raise TypeError <->
   exists v, json_loads (strip content) = Ok v /\
             (v = PNone \/ (exists b, v = PBool b) \/ exists x, v = PNum x)) /\
  (forall v, json_loads (strip content) = Ok v ->
             history_of (after Windows.load_metrics w) = v).
Proof.
  intros Hfile _. unfold outcome, after, history_of.
  rewrite (windows_load_metrics_text w content Hfile).
  destruct (String.eqb (strip content) "") eqn:Hblank.
  { apply String.eqb_eq in Hblank. rewrite Hblank, json_loads_empty.
    split; [by left|]. split; [|done].
    split; [done|]. by intros (v & ? & _). }
  destruct (json_loads (strip content)) as [v|e].
  2:{ split; [by left|]. split; [|done]. split; [done|]. by intros (v & ? & _). }
  split; [|split].
  - destruct v; simpl; auto.
  - split.
    + intros Hr. exists v. split; [done|].
      destruct v as [|b|z|d| | |]; simpl in Hr; try done.
      * by left.
      * right. left. by exists b.
      * right. right. by exists (NInt z).
      * right. right. by exists (NFloat d).
    + intros (v' & [= <-] & [-> | [[b ->] | [[z|d] ->]]]); done.
  - intros v' [= <-]. by destruct v.
Qed.

End LoadFacts.

Section LoadFacts2.
Context `{PyFormat} `{Sklearn}.
Import Runs.

(** X4.  The Streamlit [load_metrics] prints nothing and writes nothing.
    With no metrics file, or one that holds only white space, it leaves the
    manager as it is, history included.  With any other plain text it
    replaces the history: by the value the text is JSON for, whatever that
    value is, and by the empty list when [json.loads] rejects the text.  A
    metrics file that is a pickle gives the empty list as well. *)
Theorem streamlit_load_metrics_outcomes (w : world) :
  (fs_files (fs w) !! Streamlit.metrics_file = None ->
   Streamlit.load_metrics w = (Ok tt, w)) /\
  (forall content,
      fs_files (fs w) !! Streamlit.metrics_file = Some (Text content) ->
      (strip content = "" -> Streamlit.load_metrics w = (Ok tt, w)) /\
      (strip content <> "" -> plain (strip content) = true ->
       Streamlit.load_metrics w =
       (Ok tt,
        {| self := {| metrics_history :=
                        match json_loads (strip content) with
                        | Ok v => v
                        | Raise _ => PList []
                        end;
                      model := model (self w); scaler := scaler (self w) |};
           fs := fs w; stdout := stdout w |}))) /\
  (forall f,
      fs_files (fs w) !! Streamlit.metrics_file = Some f ->
      (forall content, f <> Text content) ->
      Streamlit.load_metrics w =
      (Ok tt,
       {| self := {| metrics_history := PList []; model := model (self w);
                     scaler := scaler (self w) |};
          fs := fs w; stdout := stdout w |})).
Proof.
  destruct w as [[h m sc] [files denied] out].
  unfold Streamlit.load_metrics, bind, path_exists, try_except, read_text, lift,
    set_history, ret.
  cbn [fs fs_files self metrics_history model scaler stdout].
  split; [|split].
  - intros ->. by rewrite bool_decide_eq_false_2 by (by intros [? ?]).
  - intros content Hfile. rewrite Hfile, bool_decide_eq_true_2 by by eexists.
    cbn [fs fs_files self metrics_history model scaler stdout]. rewrite Hfile.
    cbv zeta. split.
    + intros ->. done.
    + intros Hne _. apply String.eqb_neq in Hne. rewrite Hne. cbn [negb].
      by destruct (json_loads (strip content)).
  - intros f Hfile Hno. rewrite Hfile, bool_decide_eq_true_2 by by eexists.
    cbn [fs fs_files self metrics_history model scaler stdout]. rewrite Hfile.
    destruct f as [content|t s|pm]; [by destruct (Hno content)|done|done].
Qed.

(** X5.  Loading and predicting write nothing: [load_metrics] of either
    manager and [load_model] leave every file and every write permission as
    they were, on every path, and [load_metrics] leaves the model and the
    scaler alone; [load_model] leaves the history alone, and [predict_state]
    changes nothing at all, whether it returns or raises. *)
Theorem loading_writes_nothing (w : world) :
  (fs (after Windows.load_metrics w) = fs w /\
   model (self (after Windows.load_metrics w)) = model (self w) /\
   scaler (self (after Windows.load_metrics w)) = scaler (self w)) /\
  (fs (after Streamlit.load_metrics w) = fs w /\
   model (self (after Streamlit.load_metrics w)) = model (self w) /\
   scaler (self (after Streamlit.load_metrics w)) = scaler (self w) /\
   stdout (after Streamlit.load_metrics w) = stdout w) /\
  (fs (after Windows.load_model w) = fs w /\
   history_of (after Windows.load_model w) = history_of w) /\
  (forall metrics, after (Windows.predict_state metrics) w = w).
Proof.
  destruct w as [[h m sc] [files denied] out].
  unfold after, history_of.
  split; [|split; [|split]].
  - unfold Windows.load_metrics, bind, path_exists, try_except, read_text, lift,
      set_history, print.
    cbn [fs fs_files self metrics_history model scaler stdout].
    destruct (bool_decide _); [|done].
    cbn [fs fs_files self metrics_history model scaler stdout].
    destruct (files !! Windows.config_file) as [[content|t s|pm]|]; try done.
    cbv zeta. destruct (negb (String.eqb (strip content) "")); [|done].
    destruct (json_loads (strip content)) as [v|e]; [|by destruct e].
    cbn [fs fs_files self metrics_history model scaler stdout].
    destruct (py_len v) as [n|e]; [done|by destruct e].
  - unfold Streamlit.load_metrics, bind, path_exists, try_except, read_text, lift,
      set_history, ret.
    cbn [fs fs_files self metrics_history model scaler stdout].
    destruct (bool_decide _); [|done].
    cbn [fs fs_files self metrics_history model scaler stdout].
    destruct (files !! Streamlit.metrics_file) as [[content|t s|pm]|]; try done.
    cbv zeta. destruct (negb (String.eqb (strip content) "")); [|done].
    by destruct (json_loads (strip content)).
  - unfold Windows.load_model, bind, path_exists, try_except, file_is_empty,
      read_pickle, set_model, set_scaler, print, ret.
    cbn [fs fs_files self metrics_history model scaler stdout].
    destruct (bool_decide _); [|done].
    cbn [fs fs_files self metrics_history model scaler stdout].
    destruct (files !! Windows.model_file) as [[content|t s|pm]|] eqn:Hfile.
    + destruct (String.eqb content ""); cbn [negb]; [done|].
      cbn [fs fs_files self metrics_history model scaler stdout].
      by rewrite Hfile.
    + cbn [negb fs fs_files self metrics_history model scaler stdout].
      by rewrite Hfile.
    + cbn [negb fs fs_files self metrics_history model scaler stdout].
      rewrite Hfile. by destruct pm.
    + done.
  - intros metrics.
    unfold Windows.predict_state, bind, get_model, get_scaler, lift, ret.
    cbn [fs fs_files self metrics_history model scaler stdout].
    destruct m as [t|]; [|done].
    destruct (features_of metrics) as [features|]; [|done].
    cbn [fs fs_files self metrics_history model scaler stdout].
    destruct (scaler_transform sc [features]) as [X|]; [|done].
    destruct (tree_predict t X) as [[|c cs]|]; try done.
    unfold bind, lift, ret. by destruct (state_of_class c).
Qed.

End LoadFacts2.

(** ** Loading the model *)

Section ModelFacts.
Context `{PyFormat} `{Sklearn}.
Import Runs.

(** [load_model] on each kind of model file. *)
Lemma windows_load_model_run w :
  Windows.load_model w =
  match fs_files (fs w) !! Windows.model_file with
  | None =>
      (Ok false,
       printed "ℹ️  No trained model found, you can train one using option 3" w)
  | Some (Pickle t s) =>
      (Ok true,
       {| self := {| metrics_history := history_of w; model := Some t; scaler := s |};
          fs := fs w;
          stdout := stdout w ++ ["✅ ML Model loaded successfully!"] |})
  | Some (PartialPickle (Some t)) =>
      (Ok false,
       printed "ℹ️  You can train a new model using option 3"
         (printed ("⚠️  Could not load model: " ++ str_of_exn (KeyError "scaler"))
            {| self := {| metrics_history := history_of w; model := Some t;
                          scaler := scaler (self w) |};
               fs := fs w; stdout := stdout w |}))
  | Some (PartialPickle None) =>
      (Ok false,
       printed "ℹ️  You can train a new model using option 3"
         (printed ("⚠️  Could not load model: " ++ str_of_exn (KeyError "model")) w))
  | Some (Text content) =>
      if String.eqb content "" then
        (Ok false, printed "⚠️  Empty model file, will need to train" w)
      else
        (Ok false,
         printed "ℹ️  You can train a new model using option 3"
           (printed ("⚠️  Could not load model: " ++ str_of_exn ValueError) w))
  end.
Proof.
  destruct w as [[h m sc] [files denied] out].
  unfold Windows.load_model, bind, path_exists, try_except, file_is_empty,
    read_pickle, set_model, set_scaler, print, ret, printed, history_of.
  cbn [fs fs_files self metrics_history model scaler stdout].
  destruct (files !! Windows.model_file) as [[content|t s|pm]|] eqn:Hfile.
  - rewrite bool_decide_eq_true_2 by by eexists.
    cbn [fs fs_files self metrics_history model scaler stdout]. rewrite Hfile.
    destruct (String.eqb content ""); cbn [negb]; [done|].
    cbn [fs fs_files self metrics_history model scaler stdout].
    by rewrite Hfile.
  - rewrite bool_decide_eq_true_2 by by eexists.
    cbn [negb fs fs_files self metrics_history model scaler stdout]. rewrite Hfile.
    cbn [negb fs fs_files self metrics_history model scaler stdout].
    by rewrite Hfile.
  - rewrite bool_decide_eq_true_2 by by eexists.
    cbn [negb fs fs_files self metrics_history model scaler stdout]. rewrite Hfile.
    cbn [negb fs fs_files self metrics_history model scaler stdout].
    rewrite Hfile. by destruct pm.
  - by rewrite bool_decide_eq_false_2 by (by intros [? ?]).
Qed.

(** [predict_state] reads the model and the scaler of the manager and
    nothing else. *)
Lemma windows_predict_state_reads metrics w1 w2 :
  model (self w1) = model (self w2) -> scaler (self w1) = scaler (self w2) ->
  outcome (Windows.predict_state metrics) w1 = outcome (Windows.predict_state metrics) w2.
Proof.
  destruct w1 as [[h1 m1 sc1] f1 out1], w2 as [[h2 m2 sc2] f2 out2]. simpl.
  intros -> ->.
  unfold outcome, Windows.predict_state, bind, get_model, get_scaler, lift, ret.
  cbn [fs fs_files self metrics_history model scaler stdout].
  destruct m2 as [t|]; [|done].
  destruct (features_of metrics) as [features|]; [|done].
  cbn [fs fs_files self metrics_history model scaler stdout].
  destruct (scaler_transform sc2 [features]) as [X|]; [|done].
  destruct (tree_predict t X) as [[|c cs]|]; try done.
  unfold bind, lift, ret. by destruct (state_of_class c).
Qed.

(** X6.  [load_model] never raises.  It returns [True] exactly when the
    model file is the pickle of a dictionary with a model and a scaler, and
    then the manager has that model and that scaler.  In every other case
    (no file, an empty file, a file that is no pickle, a dictionary that
    lacks an entry) it returns [False].  The manager is then as it was, with
    one exception: from the pickle of a dictionary with a model and no
    scaler the model is taken before the missing scaler is noticed, so the
    manager is left with the new model beside its old scaler.  The history
    is never changed. *)
Theorem load_model_outcomes (w : world) :
  (exists b, outcome Windows.load_model w = Ok b) /\
  history_of (after Windows.load_model w) = history_of w /\
  (outcome Windows.load_model w = Ok true <->
   exists t s, fs_files (fs w) !! Windows.model_file = Some (Pickle t s)) /\
  (forall t s,
      fs_files (fs w) !! Windows.model_file = Some (Pickle t s) ->
      self (after Windows.load_model w) =
      {| metrics_history := history_of w; model := Some t; scaler := s |}) /\
  (forall t,
      fs_files (fs w) !! Windows.model_file = Some (PartialPickle (Some t)) ->
      outcome Windows.load_model w = Ok false /\
      self (after Windows.load_model w) =
      {| metrics_history := history_of w; model := Some t; scaler := scaler (self w) |}) /\
  (outcome Windows.load_model w = Ok false ->
   (forall t, fs_files (fs w) !! Windows.model_file <> Some (PartialPickle (Some t))) ->
   self (after Windows.load_model w) = self w).
Proof.
  unfold outcome, after. rewrite windows_load_model_run.
  destruct (fs_files (fs w) !! Windows.model_file) as [[content|t s|[t|]]|].
  - destruct (String.eqb content ""); simpl;
      (split; [by eexists|]); (split; [done|]); (split; [|done]);
      (split; [done|]); by intros (? & ? & ?).
  - simpl. split; [by eexists|]. split; [done|]. split; [|split; [|done]].
    + split; [by eexists; eexists|done].
    + by intros t' s' [= -> ->].
  - simpl. split; [by eexists|]. split; [done|]. split.
    { split; [done|]. by intros (? & ? & ?). }
    split; [done|]. split.
    + by intros t' [= ->].
    + intros _ Hno. by destruct (Hno t).
  - simpl. split; [by eexists|]. split; [done|]. split; [|done].
    split; [done|]. by intros (? & ? & ?).
  - simpl. split; [by eexists|]. split; [done|]. split; [|done].
    split; [done|]. by intros (? & ? & ?).
Qed.

End ModelFacts.

Section ModelRoundTrip.
Context `{PyFormat} `{SklearnSpec}.
Import Runs.

(** X7.  A model survives a restart.  After [train_model] has succeeded on a
    history of at least ten snapshots, [load_model], run by any manager on
    the files training left, returns [True] and installs the model and the
    scaler that training installed; [predict_state] then answers every
    request as it does in the manager that trained. *)
Theorem trained_model_reloads (w w' : world) (l : list pyval) :
  history_of w = PList l -> Forall is_snapshot l -> (10 <= length l)%nat ->
  Windows.model_file ∉ fs_denied (fs w) ->
  fs w' = fs (after Windows.train_model w) ->
  outcome Windows.train_model w = Ok true /\
  outcome Windows.load_model w' = Ok true /\
  model (self (after Windows.load_model w')) =
    model (self (after Windows.train_model w)) /\
  scaler (self (after Windows.load_model w')) =
    scaler (self (after Windows.train_model w)) /\
  forall metrics,
    outcome (Windows.predict_state metrics) (after Windows.load_model w') =
    outcome (Windows.predict_state metrics) (after Windows.train_model w).
Proof.
  intros Hh Hwf Hlen Hden Hfs.
  destruct (windows_training_fits w l Hh Hwf Hlen) as (X & y & s & t & HXy & Hfit & _).
  pose proof (windows_train_model_fit w l X y s t Hh Hlen HXy Hfit) as Hrun.
  rewrite bool_decide_eq_false_2 in Hrun by done.
  unfold outcome, after in *. rewrite Hrun in *. cbn [fst snd] in *.
  assert (fs_files (fs w') !! Windows.model_file = Some (Pickle t s)) as Hfile.
  { rewrite Hfs. unfold printed, model_saved, trained. simpl. apply lookup_insert_eq. }
  rewrite windows_load_model_run, Hfile. cbn [fst snd self model scaler].
  split; [done|]. split; [done|].
  assert (model (self (printed "✅ ML Model trained successfully!"
                         (model_saved Windows.model_file (trained w s t)))) = Some t)
    as Hm by done.
  assert (scaler (self (printed "✅ ML Model trained successfully!"
                          (model_saved Windows.model_file (trained w s t)))) = s)
    as Hs by done.
  split; [done|]. split; [done|].
  intros metrics. apply windows_predict_state_reads; by rewrite ?Hm, ?Hs.
Qed.

End ModelRoundTrip.

(** ** Saving the history *)

Section SaveFacts.
Context `{PyFormat} `{Sklearn}.
Import Runs.


(** X9.  The Streamlit [save_metrics] does not raise when the metrics file
    cannot be written: the history is updated in memory all the same (the
    last 100 entries of the old history followed by the new sample), the
    error is shown on the page, and no file is touched. *)
Theorem streamlit_save_metrics_unwritable (w : world) (l : list pyval) (metrics : pyval) :
  history_of w = PList l ->
  Streamlit.metrics_file ∈ fs_denied (fs w) ->
  Streamlit.save_metrics metrics w =
  (Ok tt,
   {| self := {| metrics_history := PList (last_n 100 (l ++ [metrics]));
                 model := model (self w); scaler := scaler (self w) |};
      fs := fs w;
      stdout := stdout w ++ ["Error saving metrics: " ++ str_of_exn OSError] |}).
Proof.
  destruct w as [[h m sc] [files denied] out]. unfold history_of. simpl.
  intros -> Hden.
  unfold Streamlit.save_metrics, bind, get_history, set_history, lift, try_except,
    write_file, ret, Streamlit.st_error, print.
  cbn [metrics_history self py_append py_len fst snd fs stdout model scaler
       fs_denied fs_files].
  destruct (100 <? length (l ++ [metrics]))%nat eqn:Hlen.
  - cbn [py_last metrics_history self fs stdout model scaler fst snd fs_denied fs_files].
    by rewrite bool_decide_eq_true_2.
  - apply Nat.ltb_ge in Hlen.
    cbn [metrics_history self fs stdout model scaler fst snd fs_denied fs_files].
    rewrite last_n_short by done. by rewrite bool_decide_eq_true_2.
Qed.


(** The Streamlit [save_metrics], sample after sample, on a writable file:
    the file holds the text of the history after each. *)
Lemma streamlit_save_all_run samples w l :
  history_of w = PList l ->
  Streamlit.metrics_file ∉ fs_denied (fs w) ->
  samples <> [] ->
  outcome (save_all samples) w = Ok tt /\
  history_of (after (save_all samples) w) = PList (last_n 100 (l ++ samples)) /\
  fs_files (fs (after (save_all samples) w)) !! Streamlit.metrics_file =
    Some (Text (json_dumps None (PList (last_n 100 (l ++ samples))))).
Proof.
  revert w l. induction samples as [|metrics rest IH]; intros w l Hh Hden Hne; [done|].
  pose proof (streamlit_save_metrics_run w l metrics Hh Hden) as Hrun.
  cbn [save_all]. unfold outcome, after, bind in *. rewrite Hrun.
  destruct rest as [|m2 rest].
  - cbn [save_all ret fst snd fs fs_files self metrics_history].
    split; [done|]. split; [done|]. apply lookup_insert_eq.
  - match goal with |- context [save_all _ ?w1] => set (w2 := w1) end.
    destruct (IH w2 (last_n 100 (l ++ [metrics]))) as (Hok & Hh2 & Hf2); try done.
    split; [done|]. rewrite Hh2, Hf2.
    rewrite last_n_app. by rewrite <- app_assoc.
Qed.

(** X11.  The Streamlit history survives a restart as the window it is in
    memory.  After any non-empty series of samples has been collected, each
    with [save_metrics], on top of any history, a manager that runs
    [load_metrics] on the files left has as its history the last 100 entries
    of the old history followed by the samples, in order: what was evicted
    in memory is not in the file either. *)
Theorem streamlit_restart_restores_window (w w' : world) (l samples : list pyval) :
  history_of w = PList l ->
  Forall wf_json (l ++ samples) ->
  samples <> [] ->
  Streamlit.metrics_file ∉ fs_denied (fs w) ->
  fs w' = fs (after (save_all samples) w) ->
  outcome Streamlit.load_metrics w' = Ok tt /\
  history_of (after Streamlit.load_metrics w') = PList (last_n 100 (l ++ samples)) /\
  history_of (after Streamlit.load_metrics w') = history_of (after (save_all samples) w).
Proof.
  intros Hh Hwf Hne Hden Hfs.
  destruct (streamlit_save_all_run samples w l Hh Hden Hne) as (_ & Hh2 & Hf2).
  rewrite <- Hfs in Hf2.
  assert (Forall wf_json (last_n 100 (l ++ samples))) as Hwf2.
  { unfold last_n. by apply Forall_drop. }
  unfold outcome, after in *.
  rewrite (streamlit_load_metrics_list w' _ Hf2 Hwf2).
  cbn [fst snd]. by rewrite Hh2.
Qed.

End SaveFacts.

(** ** The training table *)

(** The label of an entry, as each trainer computes it. *)
Lemma label_agrees entry :
  (do state <- analyze_system_state entry; state_map state) =
  (do state <- analyze_state entry; Streamlit.state_map (fst state)).
Proof.
  unfold analyze_system_state, analyze_state.
  destruct (py_getitem entry "cpu_percent") as [c|]; [|done].
  destruct (py_getitem entry "memory_percent") as [m|]; [|done].
  cbn [rbind]. unfold py_gt.
  destruct (as_num c) as [x|]; [|done]. cbn [rbind].
  destruct (num_gtb x (NInt 80)); [done|]. cbn [rbind].
  destruct (as_num m) as [y|]; [|done]. cbn [rbind].
  by destruct (num_gtb y (NInt 85)), (num_gtb x (NInt 60)), (num_gtb y (NInt 70)),
    (num_gtb x (NInt 30)), (num_gtb y (NInt 50)).
Qed.

Lemma training_data_agree entries X y :
  Windows.training_data entries X y = Streamlit.training_data entries X y.
Proof.
  revert X y. induction entries as [|entry rest IH]; intros X y; [done|].
  cbn [Windows.training_data Streamlit.training_data].
  destruct (features_of entry) as [features|]; [|done]. cbn [rbind].
  pose proof (label_agrees entry) as Hl.
  destruct (analyze_system_state entry) as [st|e];
    destruct (analyze_state entry) as [st'|e']; cbn [rbind] in *.
  - rewrite Hl. destruct (Streamlit.state_map (fst st')); [|done].
    cbn [rbind]. apply IH.
  - by rewrite Hl.
  - by rewrite <- Hl.
  - by injection Hl as ->.
Qed.

(** X12.  The two trainers build the same table from the same history,
    whatever the history holds: the same rows, the same labels, and the same
    exception when an entry cannot be used.  The state names of the two
    classifiers differ ([IDLE] and [OPTIMAL], [HIGH_LOAD] and [HIGH LOAD]),
    the class indices they are mapped to do not. *)
Theorem trainers_build_same_table (entries : list pyval) :
  Windows.training_data entries [] [] = Streamlit.training_data entries [] [] /\
  forall entry,
    (do state <- analyze_system_state entry; state_map state) =
    (do state <- analyze_state entry; Streamlit.state_map (fst state)).
Proof. split; [apply training_data_agree|apply label_agrees]. Qed.

(** The table of a list of sampler snapshots. *)
Lemma windows_training_data_readings rs X y :
  Windows.training_data (map collect_system_metrics rs) X y =
  Ok (X ++ map (fun r => [PNum (rd_cpu r); PNum (rd_memory r); PNum (rd_disk r);
                          PInt (rd_pids r)]) rs,
      y ++ map (fun r => class_of (classify_spec (rd_cpu r) (rd_memory r))) rs)%list.
Proof.
  revert X y. induction rs as [|r rs IH]; intros X y.
  - simpl. by rewrite !app_nil_r.
  - cbn [map Windows.training_data]. unfold collect_system_metrics at 1 2.
    rewrite features_of_snapshot. cbn [rbind].
    rewrite (analyze_system_state_classify
               (snapshot (rd_timestamp r) (rd_cpu r) (rd_memory r) (rd_available_gb r)
                         (rd_disk r) (rd_pids r) (rd_cpu_freq r))
               (rd_cpu r) (rd_memory r) eq_refl eq_refl).
    cbn [rbind]. rewrite state_map_state_name. cbn [rbind].
    rewrite IH. by rewrite <- !app_assoc.
Qed.

(** X13.  The model is trained to reproduce the rule engine.  From a history
    of sampler snapshots each trainer derives one row per snapshot, in
    order, made of its CPU, memory and disk readings and its process count,
    and as its label the severity rank of the state the threshold cascade
    gives that same snapshot: 0 for IDLE up to 3 for CRITICAL.  The
    timestamp, the available memory and the CPU frequency are not used. *)
Theorem training_table_follows_rules (rs : list reading) :
  Windows.training_data (map collect_system_metrics rs) [] [] =
    Ok (map (fun r => [PNum (rd_cpu r); PNum (rd_memory r); PNum (rd_disk r);
                       PInt (rd_pids r)]) rs,
        map (fun r => Z.of_nat (severity (classify_spec (rd_cpu r) (rd_memory r)))) rs) /\
  Streamlit.training_data (map collect_system_metrics rs) [] [] =
    Ok (map (fun r => [PNum (rd_cpu r); PNum (rd_memory r); PNum (rd_disk r);
                       PInt (rd_pids r)]) rs,
        map (fun r => Z.of_nat (severity (classify_spec (rd_cpu r) (rd_memory r)))) rs).
Proof.
  split; [|rewrite <- training_data_agree]; apply windows_training_data_readings.
Qed.

Lemma windows_training_data_app pre rest X y :
  Windows.training_data (pre ++ rest) X y =
  do Xy <- Windows.training_data pre X y;
  Windows.training_data rest (fst Xy) (snd Xy).
Proof.
  revert X y. induction pre as [|entry pre IH]; intros X y; [done|].
  cbn [app Windows.training_data].
  destruct (features_of entry); [|done]. cbn [rbind].
  destruct (analyze_system_state entry) as [st|]; [|done]. cbn [rbind].
  destruct (state_map st); [|done]. cbn [rbind]. apply IH.
Qed.

Section TrainingErrors.
Context `{PyFormat} `{Sklearn}.
Import Runs.

(** Both trainers stop at the table when it cannot be built. *)
Lemma train_model_table_error w l e :
  history_of w = PList l -> (10 <= length l)%nat ->
  Windows.training_data l [] [] = Raise e ->
  Windows.train_model w = (Raise e, w) /\ Streamlit.train_model w = (Raise e, w).
Proof.
  destruct w as [[h m sc] f out]. unfold history_of. simpl. intros -> Hlen He.
  unfold Windows.train_model, Streamlit.train_model, bind, get_history, lift.
  cbn [self metrics_history py_len py_iter].
  apply Nat.ltb_ge in Hlen. rewrite Hlen.
  rewrite <- training_data_agree, He. done.
Qed.

(** X14.  An entry of the history that cannot be used stops training before
    anything is fitted.  When the history has at least ten entries and the
    first entry that is no sampler snapshot lacks a feature (its feature row
    raises, [KeyError] for the first missing key or [TypeError] when the
    entry is no dictionary) or cannot be classified, [train_model] of either
    manager raises that exception, and the manager, the files and the
    printed text are exactly as before: no model, no scaler, no model
    file. *)
Theorem train_model_bad_entry (w : world) (pre post : list pyval) (bad : pyval)
    (e : exn) :
  history_of w = PList (pre ++ bad :: post) ->
  (10 <= length (pre ++ bad :: post))%nat ->
  Forall is_snapshot pre ->
  features_of bad = Raise e \/
    ((exists row, features_of bad = Ok row) /\ analyze_system_state bad = Raise e) ->
  Windows.train_model w = (Raise e, w) /\
  Streamlit.train_model w = (Raise e, w) /\
  (e = TypeError \/ exists k, e = KeyError k).
Proof.
  intros Hh Hlen Hpre Hbad.
  assert (Windows.training_data (pre ++ bad :: post) [] [] = Raise e) as He.
  { rewrite windows_training_data_app.
    destruct (windows_training_data_wf pre [] [] Hpre) as (X & y & -> & _).
    cbn [rbind fst snd Windows.training_data].
    destruct Hbad as [-> | [[row ->] ->]]; done. }
  destruct (train_model_table_error w _ e Hh Hlen He) as [Hw Hs].
  split; [done|]. split; [done|].
  destruct Hbad as [Hf | [_ Ha]].
  - unfold features_of in Hf.
    repeat match type of Hf with
           | rbind (py_getitem ?d ?k) _ = _ =>
               destruct (py_getitem d k) eqn:?; cbn [rbind] in Hf
           end; try discriminate;
      injection Hf as <-;
      match goal with
      | Hg : py_getitem _ _ = Raise _ |- _ =>
          destruct (py_getitem_raise _ _ _ Hg) as [-> | ->]; eauto
      end.
  - unfold analyze_system_state in Ha.
    destruct (py_getitem bad "cpu_percent") as [c|] eqn:Hc; cbn [rbind] in Ha.
    2:{ injection Ha as <-. destruct (py_getitem_raise _ _ _ Hc) as [-> | ->]; eauto. }
    destruct (py_getitem bad "memory_percent") as [m|] eqn:Hm; cbn [rbind] in Ha.
    2:{ injection Ha as <-. destruct (py_getitem_raise _ _ _ Hm) as [-> | ->]; eauto. }
    unfold py_gt in Ha.
    destruct (as_num c) as [x|]; cbn [rbind] in Ha; [|injection Ha as <-; auto].
    destruct (num_gtb x (NInt 80)); cbn [rbind] in Ha; [done|].
    destruct (as_num m) as [y|]; cbn [rbind] in Ha; [|injection Ha as <-; auto].
    by destruct (num_gtb y (NInt 85)), (num_gtb x (NInt 60)), (num_gtb y (NInt 70)),
      (num_gtb x (NInt 30)), (num_gtb y (NInt 50)).
Qed.

End TrainingErrors.

(** ** The layout of the recommendations *)

Section LayoutFacts.
Context `{PyFormat}.

Lemma process_line_typed p :
  process_line (entry_of p) =
  Ok ("   • " ++ ps_name p ++ ": CPU " ++ format_1f (ps_cpu p) ++ "% | RAM " ++
      format_1f (ps_memory p) ++ "%").
Proof.
  unfold process_line.
  change (py_getitem (entry_of p) "name") with (Ok (PStr (ps_name p)) : result pyval).
  change (py_getitem (entry_of p) "cpu") with (Ok (PNum (ps_cpu p)) : result pyval).
  change (py_getitem (entry_of p) "memory") with (Ok (PNum (ps_memory p)) : result pyval).
  cbn [rbind]. rewrite !py_format_1f_PNum. done.
Qed.

Lemma append_process_lines_exact (l : list ProcessSample) (acts : list pyval) :
  exists lines,
    append_process_lines (map entry_of l) (PList acts) = Ok (PList (acts ++ lines)) /\
    Forall2 (fun p line => exists text, process_line (entry_of p) = Ok text /\
                                        line = PStr text) l lines.
Proof.
  revert acts. induction l as [|p l IH]; intros acts.
  - exists []. simpl. by rewrite app_nil_r.
  - cbn [map append_process_lines]. rewrite process_line_typed.
    cbn [rbind py_append].
    edestruct IH as (lines & -> & Hl). eexists (_ :: lines).
    rewrite <- app_assoc. split; [done|].
    constructor; [|done]. eexists. split; [apply process_line_typed|done].
Qed.

(** X15.  The action list of the command-line engine has a fixed layout.
    For a snapshot with numeric readings, a state of the classifier and a
    well-formed process enumeration it is: the advisory template of the
    state, which depends on nothing else and has 3 lines for IDLE and
    MODERATE, 4 for HIGH_LOAD and 5 for CRITICAL; then the memory readout,
    then the CPU readout; then, only when some process has cpu > 0 or memory
    > 0, a header line and one line for each of the first five ranked
    processes, in ranking order. *)
Theorem windows_recommendation_layout :
  exists advisories : State -> list pyval,
    (length (advisories IDLE) = 3 /\ length (advisories MODERATE) = 3 /\
     length (advisories HIGH_LOAD) = 4 /\ length (advisories CRITICAL) = 5)%nat /\
    forall samples m cpu mem s,
      py_getitem m "cpu_percent" = Ok (PNum cpu) ->
      py_getitem m "memory_percent" = Ok (PNum mem) ->
      exists memory_readout cpu_readout report,
        memory_line m = Ok memory_readout /\
        cpu_line m = Ok cpu_readout /\
        get_recommendations (map info_of samples) m (PStr (state_name s)) =
          Ok (PDict [("state", PStr (state_name s));
                     ("actions",
                      PList (advisories s ++ [memory_readout; cpu_readout] ++ report));
                     ("priority", PStr (priority_name s))]) /\
        (List.filter ps_active samples = [] -> report = []) /\
        (List.filter ps_active samples <> [] ->
         exists header lines,
           report = header :: lines /\
           length lines = (5 `min` length (List.filter ps_active samples))%nat /\
           Forall2 (fun p line => exists text, process_line (entry_of p) = Ok text /\
                                               line = PStr text)
                   (take 5 (ranked samples)) lines).
Proof.
  exists (fun s =>
            match s with
            | CRITICAL =>
                [PStr "⚠️ CRITICAL: System under heavy load";
                 PStr "🔴 Close unnecessary applications immediately";
                 PStr "🔴 Disable startup programs";
                 PStr "🔴 Clear temporary files";
                 PStr "🔴 Restart high-memory processes"]
            | HIGH_LOAD =>
                [PStr "⚡ System experiencing high load";
                 PStr "🟡 Consider closing browser tabs";
                 PStr "🟡 Disable background apps";
                 PStr "🟡 Check for Windows updates running"]
            | MODERATE =>
                [PStr "✅ System running normally";
                 PStr "🟢 Performance optimizations available";
                 PStr "🟢 Consider disk cleanup if needed"]
            | IDLE =>
                [PStr "✅ System running optimally";
                 PStr "🟢 No immediate actions needed";
                 PStr "🟢 Good time for maintenance tasks"]
            end).
  split; [done|].
  intros samples m cpu mem s Hc Hm.
  pose proof (memory_line_numeric m mem Hm) as Hml.
  pose proof (cpu_line_numeric m cpu Hc) as Hcl.
  assert (length (take 5 (ranked samples))
          = (5 `min` length (List.filter ps_active samples))%nat) as Hlen.
  { rewrite length_take. by rewrite (Permutation_length (ranked_perm samples)). }
  unfold get_recommendations. rewrite Hml, Hcl, get_top_processes_typed.
  destruct (take 5 (ranked samples)) as [|p top] eqn:Htop.
  - do 3 eexists. split; [done|]. split; [done|].
    split; [|split].
    + destruct s;
        cbn [state_name py_eq_str String.eqb Ascii.eqb Bool.eqb rbind map py_truthy
             assoc_set priority_name app]; reflexivity.
    + done.
    + intros Hne. simpl in Hlen.
      destruct (List.filter ps_active samples); [done|simpl in Hlen; lia].
  - destruct s;
      cbn [state_name py_eq_str String.eqb Ascii.eqb Bool.eqb rbind map py_truthy
           assoc_set priority_name py_getitem assoc py_append];
      match goal with
      | |- context [append_process_lines (entry_of p :: map entry_of top) (PList ?a)] =>
          destruct (append_process_lines_exact (p :: top) a) as (lines & Hrun & Hl);
          cbn [map] in Hrun; rewrite Hrun
      end;
      cbn [rbind assoc_set String.eqb Ascii.eqb Bool.eqb];
      (do 3 eexists; split; [done|]; split; [done|]; split;
       [rewrite <- !app_assoc; reflexivity|]; split;
       [intros Hnil; rewrite Hnil in Hlen; simpl in Hlen; lia|];
       intros _; do 2 eexists; split; [reflexivity|]; split; [|exact Hl];
       rewrite <- (Forall2_length _ _ _ Hl); exact Hlen).
Qed.

(** X16.  The dashboard engine reads the metrics only where its template
    shows them.  In the optimal branch, taken for IDLE and for every state
    that is none of the other three names, it returns its three advisories
    for any metrics value whatsoever.  For MODERATE and HIGH_LOAD it reads
    the memory reading alone and appends one readout to 3 and 4 advisories;
    for CRITICAL it appends the memory and the CPU readout to 4 advisories.
    A metrics value without a memory reading makes the three other branches
    raise. *)
Theorem dashboard_recommendation_readouts :
  exists advisories : State -> list pyval,
    (length (advisories IDLE) = 3 /\ length (advisories MODERATE) = 3 /\
     length (advisories HIGH_LOAD) = 4 /\ length (advisories CRITICAL) = 4)%nat /\
    (forall m state,
        state <> PStr "CRITICAL" -> state <> PStr "HIGH_LOAD" ->
        state <> PStr "MODERATE" ->
        dashboard_get_recommendations m state =
        Ok (PDict [("state", state); ("actions", PList (advisories IDLE))])) /\
    (forall m s memory_readout,
        s = MODERATE \/ s = HIGH_LOAD ->
        memory_line m = Ok memory_readout ->
        dashboard_get_recommendations m (PStr (state_name s)) =
        Ok (PDict [("state", PStr (state_name s));
                   ("actions", PList (advisories s ++ [memory_readout]))])) /\
    (forall m memory_readout cpu_readout,
        memory_line m = Ok memory_readout ->
        cpu_line m = Ok cpu_readout ->
        dashboard_get_recommendations m (PStr "CRITICAL") =
        Ok (PDict [("state", PStr "CRITICAL");
                   ("actions",
                    PList (advisories CRITICAL ++ [memory_readout; cpu_readout]))])) /\
    (forall m s e,
        s <> IDLE -> memory_line m = Raise e ->
        dashboard_get_recommendations m (PStr (state_name s)) = Raise e).
Proof.
  exists (fun s =>
            match s with
            | CRITICAL =>
                [PStr "⚠️ CRITICAL: System under heavy load";
                 PStr "🔴 Close unnecessary applications immediately";
                 PStr "🔴 Disable startup programs";
                 PStr "🔴 Clear temporary files"]
            | HIGH_LOAD =>
                [PStr "⚡ System experiencing high load";
                 PStr "🟡 Consider closing browser tabs";
                 PStr "🟡 Disable background apps";
                 PStr "🟡 Check for Windows updates running"]
            | MODERATE =>
                [PStr "✅ System running normally";
                 PStr "🟢 Performance optimizations available";
                 PStr "🟢 Consider disk cleanup if needed"]
            | IDLE =>
                [PStr "✅ System running optimally";
                 PStr "🟢 No immediate actions needed";
                 PStr "🟢 Good time for maintenance tasks"]
            end).
  split; [done|]. split; [|split; [|split]].
  - intros m state Hc Hh Hm. unfold dashboard_get_recommendations.
    assert (forall name, state <> PStr name -> py_eq_str state name = false) as Hne.
    { intros name Hn. destruct state; try done. simpl.
      apply String.eqb_neq. by intros ->. }
    by rewrite !Hne.
  - intros m s ml [-> | ->] Hml; unfold dashboard_get_recommendations;
      cbn [state_name py_eq_str String.eqb Ascii.eqb Bool.eqb]; by rewrite Hml.
  - intros m ml cl Hml Hcl. unfold dashboard_get_recommendations.
    cbn [py_eq_str String.eqb Ascii.eqb Bool.eqb]. by rewrite Hml, Hcl.
  - intros m s e Hs Hml. unfold dashboard_get_recommendations.
    destruct s; try done;
      cbn [state_name py_eq_str String.eqb Ascii.eqb Bool.eqb]; by rewrite Hml.
Qed.

End LayoutFacts.

(** ** Rankings and unread counters *)

Lemma collect_processes_typed_app samples rest acc :
  collect_processes (map info_of samples ++ rest) acc =
  collect_processes rest (acc ++ map entry_of (List.filter ps_active samples))%list.
Proof.
  revert acc. induction samples as [|p samples IH]; intros acc.
  - simpl. by rewrite app_nil_r.
  - cbn [map app collect_processes List.filter].
    change (py_getitem (info_of p) "cpu_percent") with (Ok (PNum (ps_cpu p)) : result pyval).
    change (py_getitem (info_of p) "memory_percent") with (Ok (PNum (ps_memory p)) : result pyval).
    change (py_getitem (info_of p) "name") with (Ok (PStr (ps_name p)) : result pyval).
    cbn [rbind]. rewrite !py_gt_PNum. cbn [rbind].
    change (ps_active p)
      with (num_gtb (ps_cpu p) (NInt 0) || num_gtb (ps_memory p) (NInt 0)).
    destruct (num_gtb (ps_cpu p) (NInt 0)); cbn [rbind orb].
    + rewrite IH. by rewrite <- app_assoc.
    + destruct (num_gtb (ps_memory p) (NInt 0)).
      * rewrite IH. by rewrite <- app_assoc.
      * apply IH.
Qed.

Lemma mapM_app_raise {A B} (f : A -> result B) l1 ks b l2 e :
  mapM f l1 = Ok ks -> f b = Raise e -> mapM f (l1 ++ b :: l2) = Raise e.
Proof.
  revert ks. induction l1 as [|a l1 IH]; intros ks.
  - intros _ Hb. simpl. by rewrite Hb.
  - cbn [app mapM]. destruct (f a); [|done]. cbn [rbind].
    destruct (mapM f l1) as [ks'|]; [|done]. intros _ Hb.
    by rewrite (IH ks' eq_refl Hb).
Qed.

(** X17.  The ranking of the command-line manager and of the dashboard does
    not pass over a process whose counter is no number, as psutil reports
    one it may not read ([None]): it raises [TypeError].  This happens when
    the CPU counter of a process is no number, when its CPU counter is not
    above 0 and its memory counter is no number, and, at the sort, when its
    CPU counter is above 0 and its memory counter is no number; the
    processes before it, and in the last case after it, being well
    formed. *)
Theorem top_processes_raises_on_unread_counter (n : nat) (pre : list ProcessSample) :
  (forall info post c,
      py_getitem info "cpu_percent" = Ok c -> as_num c = None ->
      get_top_processes n (map info_of pre ++ info :: post) = Raise TypeError) /\
  (forall info post x m,
      py_getitem info "cpu_percent" = Ok (PNum x) -> num_gtb x (NInt 0) = false ->
      py_getitem info "memory_percent" = Ok m -> as_num m = None ->
      get_top_processes n (map info_of pre ++ info :: post) = Raise TypeError) /\
  (forall name post x m,
      num_gtb x (NInt 0) = true -> as_num m = None ->
      get_top_processes n
        (map info_of pre ++
         PDict [("name", name); ("cpu_percent", PNum x); ("memory_percent", m)] ::
         map info_of post) = Raise TypeError).
Proof.
  split; [|split].
  - intros info post c Hc Hn. unfold get_top_processes.
    rewrite collect_processes_typed_app. cbn [collect_processes].
    rewrite Hc. cbn [rbind]. unfold py_gt. by rewrite Hn.
  - intros info post x m Hc Hx Hm Hn. unfold get_top_processes.
    rewrite collect_processes_typed_app. cbn [collect_processes].
    rewrite Hc. cbn [rbind]. rewrite py_gt_PNum, Hx. cbn [rbind].
    rewrite Hm. cbn [rbind]. unfold py_gt. by rewrite Hn.
  - intros name post x m Hx Hn. unfold get_top_processes.
    rewrite collect_processes_typed_app. cbn [collect_processes].
    cbn [py_getitem assoc String.eqb Ascii.eqb Bool.eqb rbind].
    rewrite py_gt_PNum, Hx. cbn [rbind].
    rewrite (collect_processes_typed post). cbn [rbind app].
    unfold py_sort_desc.
    rewrite <- app_assoc. cbn [app].
    erewrite mapM_app_raise; [done|apply mapM_usage_key|].
    unfold usage_key. cbn [py_getitem assoc String.eqb Ascii.eqb Bool.eqb rbind].
    unfold py_add. rewrite as_num_PNum. by rewrite Hn.
Qed.

(** The ranking by a key: a stable descending sort. *)
Section Keyed.
Context {A : Type} (key : A -> num).

Lemma keyed_sort l :
  Forall (fun x => fst x = key (snd x)) (sort_desc (map (fun a => (key a, a)) l)).
Proof.
  rewrite sort_desc_perm. apply Forall_forall. intros x Hx.
  apply list_elem_of_In, in_map_iff in Hx as (p & <- & _). done.
Qed.

Lemma ranked_by_perm l : ranked_by key l ≡ₚ l.
Proof.
  unfold ranked_by.
  rewrite (Permutation_map snd (sort_desc_perm _)).
  rewrite map_map. simpl. by rewrite map_id.
Qed.

Lemma ranked_by_sorted l :
  StronglySorted (fun a b => num_le (key b) (key a)) (ranked_by key l).
Proof.
  unfold ranked_by.
  pose proof (keyed_sort l) as Hd. pose proof (sort_desc_sorted (map (fun a => (key a, a)) l)) as Hs.
  induction Hs as [|x s Hs IH Hx]; [constructor|].
  apply Forall_cons in Hd as [Hdx Hd]. cbn [map].
  constructor; [by apply IH|].
  apply Forall_forall. intros p Hp.
  apply list_elem_of_In, in_map_iff in Hp as (y & <- & Hy).
  apply list_elem_of_In in Hy.
  rewrite Forall_forall in Hx, Hd. specialize (Hx y Hy). specialize (Hd y Hy).
  unfold desc in *. by rewrite <- Hdx, <- Hd.
Qed.

Lemma ranked_by_stable k l :
  List.filter (fun a => num_eqb (key a) k) (ranked_by key l) =
  List.filter (fun a => num_eqb (key a) k) l.
Proof.
  unfold ranked_by.
  assert (forall s : list (num * A),
             Forall (fun x => fst x = key (snd x)) s ->
             List.filter (fun a => num_eqb (key a) k) (map snd s) =
             map snd (List.filter (has_key k) s)) as Hund.
  { induction 1 as [|x s Hx Hs IH]; [done|].
    cbn [map List.filter]. rewrite IH. unfold has_key. rewrite <- Hx.
    by destruct (num_eqb (fst x) k). }
  rewrite Hund by apply keyed_sort. rewrite sort_desc_stable.
  induction l as [|p l IH]; [done|].
  cbn [map List.filter]. unfold has_key at 1. cbn [fst].
  destruct (num_eqb (key p) k); cbn [map snd]; by rewrite IH.
Qed.

End Keyed.

Section StreamlitRanking.
Context `{PyRound}.

Lemma py_is_none_PNum x : py_is_none (PNum x) = false.
Proof. by destruct x. Qed.

Lemma py_round_2_PNum x : StreamlitApp.py_round_2 (PNum x) = Ok (PNum (round_2 x)).
Proof. unfold StreamlitApp.py_round_2. by rewrite as_num_PNum. Qed.

Lemma streamlit_collect_typed infos acc :
  StreamlitApp.collect_processes (map pinfo_of infos) acc =
  Ok (acc ++ map row_of (List.filter ps_active (omap measured infos)))%list.
Proof.
  revert acc. induction infos as [|[name [c|] [m|]] infos IH]; intros acc.
  - simpl. by rewrite app_nil_r.
  - cbn [map StreamlitApp.collect_processes].
    unfold pinfo_of at 1 2 3 4 5 6 7. cbn [pi_name pi_cpu pi_memory counter].
    cbn [py_getitem assoc String.eqb Ascii.eqb Bool.eqb rbind].
    rewrite !py_is_none_PNum. cbn [negb rbind].
    rewrite !py_gt_PNum, !py_round_2_PNum. cbn [rbind].
    change (omap measured ({| pi_name := name; pi_cpu := Some c; pi_memory := Some m |}
                             :: infos))
      with ({| ps_name := name; ps_cpu := c; ps_memory := m |} :: omap measured infos).
    cbn [List.filter]. unfold ps_active at 1. cbn [ps_cpu ps_memory].
    destruct (num_gtb c (NInt 0)); cbn [rbind orb].
    + rewrite IH. by rewrite <- app_assoc.
    + destruct (num_gtb m (NInt 0)).
      * rewrite IH. by rewrite <- app_assoc.
      * apply IH.
  - cbn [map StreamlitApp.collect_processes].
    unfold pinfo_of at 1 2. cbn [pi_name pi_cpu pi_memory counter].
    cbn [py_getitem assoc String.eqb Ascii.eqb Bool.eqb rbind].
    rewrite !py_is_none_PNum. cbn [negb rbind py_is_none]. apply IH.
  - cbn [map StreamlitApp.collect_processes].
    unfold pinfo_of at 1. cbn [pi_name pi_cpu pi_memory counter].
    cbn [py_getitem assoc String.eqb Ascii.eqb Bool.eqb rbind py_is_none]. apply IH.
  - cbn [map StreamlitApp.collect_processes].
    unfold pinfo_of at 1. cbn [pi_name pi_cpu pi_memory counter].
    cbn [py_getitem assoc String.eqb Ascii.eqb Bool.eqb rbind py_is_none]. apply IH.
Qed.

Lemma mapM_streamlit_usage_key l :
  mapM StreamlitApp.usage_key (map row_of l) = Ok (map shown_usage l).
Proof.
  induction l as [|p l IH]; [done|].
  cbn [map mapM]. rewrite IH.
  unfold StreamlitApp.usage_key, row_of.
  cbn [py_getitem assoc String.eqb Ascii.eqb Bool.eqb rbind].
  by rewrite py_add_PNum.
Qed.

Lemma streamlit_get_top_processes_typed n infos :
  StreamlitApp.get_top_processes n (map pinfo_of infos) =
  Ok (map row_of (take n (ranked_by shown_usage
                            (List.filter ps_active (omap measured infos))))).
Proof.
  unfold StreamlitApp.get_top_processes. rewrite streamlit_collect_typed.
  cbn [rbind app]. unfold py_sort_desc. rewrite mapM_streamlit_usage_key. cbn [rbind].
  f_equal. rewrite <- firstn_map. f_equal. unfold ranked_by.
  set (l := List.filter ps_active (omap measured infos)).
  assert (zip (map shown_usage l) (map row_of l) =
          map (prod_map id row_of) (map (fun p => (shown_usage p, p)) l)) as ->.
  { induction l as [|p l' IHl]; [done|]. simpl. by rewrite IHl. }
  rewrite sort_desc_map. rewrite !map_map. apply map_ext. by intros [k p].
Qed.

(** X18.  The ranking of the Streamlit page.  For every count [n] and every
    enumeration in which a counter may be unread ([None]), it does not
    raise: processes with an unread counter are passed over, and so are
    those with neither counter above 0.  It returns at most [n] rows (as many
    as qualify when fewer do), each the row of a qualifying process with its
    counters rounded; the rows are in descending order of the sum of the two
    rounded counters, and rows with the same sum keep the order of the
    enumeration. *)
Theorem streamlit_top_processes_ranked (n : nat) (infos : list ProcessInfo) :
  exists out : list ProcessSample,
    StreamlitApp.get_top_processes n (map pinfo_of infos) = Ok (map row_of out) /\
    length out = (n `min` length (List.filter ps_active (omap measured infos)))%nat /\
    Forall (fun p => (exists i, i ∈ infos /\ measured i = Some p) /\
                     (above 0 (ps_cpu p) \/ above 0 (ps_memory p))) out /\
    StronglySorted (fun a b => num_le (shown_usage b) (shown_usage a)) out /\
    forall k,
      List.filter (fun p => num_eqb (shown_usage p) k) out `prefix_of`
      List.filter (fun p => num_eqb (shown_usage p) k)
        (List.filter ps_active (omap measured infos)).
Proof.
  set (active := List.filter ps_active (omap measured infos)).
  exists (take n (ranked_by shown_usage active)).
  split; [apply streamlit_get_top_processes_typed|].
  split.
  { rewrite length_take. by rewrite (Permutation_length (ranked_by_perm _ active)). }
  split.
  { apply Forall_forall. intros p Hp.
    apply subseteq_take in Hp. rewrite ranked_by_perm in Hp.
    apply list_elem_of_In, filter_In in Hp as [Hin Hact].
    split.
    - apply list_elem_of_In in Hin. apply list_elem_of_omap in Hin as (i & Hi & Hm).
      by exists i.
    - unfold ps_active in Hact. apply orb_true_iff in Hact.
      unfold above. by rewrite <- !num_gtb_lt. }
  split.
  { pose proof (ranked_by_sorted shown_usage active) as Hs.
    rewrite <- (take_drop n (ranked_by shown_usage active)) in Hs.
    by apply StronglySorted_app_1_l in Hs. }
  intros k. rewrite <- (ranked_by_stable shown_usage k active).
  apply filter_take_prefix.
Qed.

Lemma streamlit_top_processes_float_order :
  @StreamlitApp.get_top_processes decimal_round 5
    (map pinfo_of [Scenarios.reported Scenarios.proc_a;
                   Scenarios.reported Scenarios.proc_b]) =
  Ok (map (@row_of decimal_round) [Scenarios.proc_b; Scenarios.proc_a]).
Proof. vm_compute. reflexivity. Qed.

End StreamlitRanking.

(** ** The page and the endpoint *)

(** X19.  The advice of the Streamlit page follows the classifier.  For a
    snapshot with numeric readings the page shows the advice list of the
    state the threshold cascade gives it; the four lists are pairwise
    different and have 3, 3, 4 and 5 lines, so the list shown tells the
    state.  The list depends on the state name alone, never on the metrics,
    and a name that is none of CRITICAL, HIGH LOAD and MODERATE, such as the
    HIGH_LOAD of the other front ends, gets the optimal list. *)
Theorem streamlit_advice_follows_state :
  exists advice : State -> list pyval,
    (forall s1 s2, advice s1 = advice s2 -> s1 = s2) /\
    (length (advice IDLE) = 3 /\ length (advice MODERATE) = 3 /\
     length (advice HIGH_LOAD) = 4 /\ length (advice CRITICAL) = 5)%nat /\
    (forall m cpu mem,
        py_getitem m "cpu_percent" = Ok (PNum cpu) ->
        py_getitem m "memory_percent" = Ok (PNum mem) ->
        StreamlitApp.page_advice m = Ok (PList (advice (classify_spec cpu mem)))) /\
    (forall s m,
        StreamlitApp.get_recommendations (PStr (streamlit_name s)) m = PList (advice s)) /\
    (forall state m,
        state <> PStr "CRITICAL" -> state <> PStr "HIGH LOAD" ->
        state <> PStr "MODERATE" ->
        StreamlitApp.get_recommendations state m = PList (advice IDLE)).
Proof.
  exists (fun s =>
            match StreamlitApp.get_recommendations (PStr (streamlit_name s)) PNone with
            | PList l => l
            | _ => []
            end).
  split; [|split; [|split; [|split]]].
  - by intros [] [].
  - done.
  - intros m cpu mem Hc Hm. unfold StreamlitApp.page_advice.
    rewrite (analyze_state_classify m cpu mem Hc Hm). cbn [rbind fst].
    by destruct (classify_spec cpu mem).
  - by intros [] m.
  - intros state m Hc Hh Hm. unfold StreamlitApp.get_recommendations.
    assert (forall name, state <> PStr name -> py_eq_str state name = false) as Hne.
    { intros name Hn. destruct state; try done. simpl.
      apply String.eqb_neq. by intros ->. }
    by rewrite !Hne.
Qed.

Section EndpointFacts.
Context `{PyFormat}.

(** X20.  The response of the dashboard endpoint is consistent.  For a
    reading with a well-formed process enumeration [get_metrics] returns a
    dictionary whose state is the state of the threshold cascade for the
    reading, whose recommendations carry that same state, and whose
    [top_processes] are the first five ranked processes; its [metrics] have
    no timestamp, the timestamp is a field of the response.  When the
    enumeration holds a process whose CPU counter was not read, the
    endpoint raises [TypeError] instead of answering. *)
Theorem dashboard_get_metrics_consistent (r : reading) :
  (forall samples,
      rd_procs r = map info_of samples ->
      exists actions,
        Dashboard.get_metrics r =
        Ok (PDict
              [("metrics", Dashboard.metrics_of r);
               ("state", PStr (state_name (classify_spec (rd_cpu r) (rd_memory r))));
               ("recommendations",
                PDict [("state",
                        PStr (state_name (classify_spec (rd_cpu r) (rd_memory r))));
                       ("actions", actions)]);
               ("top_processes", PList (map entry_of (take 5 (ranked samples))));
               ("timestamp", PStr (rd_timestamp r))]) /\
        py_getitem (Dashboard.metrics_of r) "timestamp" = Raise (KeyError "timestamp")) /\
  (forall pre info post,
      rd_procs r = (map info_of pre ++ info :: post)%list ->
      py_getitem info "cpu_percent" = Ok PNone ->
      Dashboard.get_metrics r = Raise TypeError).
Proof.
  assert (analyze_system_state (Dashboard.metrics_of r) =
          Ok (state_name (classify_spec (rd_cpu r) (rd_memory r)))) as Hst.
  { by apply analyze_system_state_classify. }
  assert (exists actions,
             dashboard_get_recommendations (Dashboard.metrics_of r)
               (PStr (state_name (classify_spec (rd_cpu r) (rd_memory r)))) =
             Ok (PDict [("state",
                         PStr (state_name (classify_spec (rd_cpu r) (rd_memory r))));
                        ("actions", actions)])) as [actions Hrec].
  { unfold dashboard_get_recommendations.
    rewrite (memory_line_numeric (Dashboard.metrics_of r) (rd_memory r) eq_refl).
    rewrite (cpu_line_numeric (Dashboard.metrics_of r) (rd_cpu r) eq_refl).
    destruct (classify_spec (rd_cpu r) (rd_memory r));
      cbn [state_name py_eq_str String.eqb Ascii.eqb Bool.eqb rbind assoc_set];
      by eexists. }
  split.
  - intros samples Hprocs. exists actions. split; [|done].
    unfold Dashboard.get_metrics. cbv zeta. rewrite Hst. cbn [rbind].
    rewrite Hrec. cbn [rbind]. rewrite Hprocs, get_top_processes_typed. done.
  - intros pre info post Hprocs Hc.
    unfold Dashboard.get_metrics. cbv zeta. rewrite Hst. cbn [rbind].
    rewrite Hrec. cbn [rbind]. rewrite Hprocs.
    unfold get_top_processes. rewrite collect_processes_typed_app.
    cbn [collect_processes]. rewrite Hc. done.
Qed.

End EndpointFacts.

(** ** Monitoring runs *)

Section MonitoringFacts.
Context `{PyFormat} `{Sklearn}.
Import Runs.

(** One pass of the monitoring loop, when the prediction (if a model is
    loaded) returns [pred] and changes nothing: the world before the pass
    saves, and the pass. *)
Lemma windows_monitoring_pass_run count r w l samples pred :
  rd_procs r = map info_of samples ->
  history_of w = PList l ->
  match model (self w) with
  | Some _ => Windows.predict_state (collect_system_metrics r)
  | None => ret PNone
  end w = (Ok pred, w) ->
  let state := state_name (classify_spec (rd_cpu r) (rd_memory r)) in
  exists actions,
    get_recommendations (rd_procs r) (collect_system_metrics r) (PStr state) =
      Ok (PDict [("state", PStr state); ("actions", PList actions);
                 ("priority",
                  PStr (priority_name (classify_spec (rd_cpu r) (rd_memory r))))]) /\
    let w1 :=
      {| self := {| metrics_history := PList (l ++ [collect_system_metrics r]);
                    model := model (self w); scaler := scaler (self w) |};
         fs := fs w;
         stdout :=
           (stdout w ++
            [(newline ++ Windows.rule)%string;
             ("📸 Sample #" ++ print_nat (Z.of_nat (S count)) ++ " | " ++ rd_clock r)%string;
             Windows.rule;
             ("State: " ++ state ++ " | Priority: " ++
                priority_name (classify_spec (rd_cpu r) (rd_memory r)))%string] ++
            (if py_truthy pred && negb (py_eq_str pred state)
             then [("🤖 AI Prediction: " ++ py_format pred)%string] else []) ++
            map py_format actions)%list |} in
    Windows.monitoring_pass count r w =
    if (S count `mod` 3 =? 0)%nat then Windows.save_metrics w1 else (Ok tt, w1).
Proof.
  intros Hprocs Hh Hpred state.
  destruct (get_recommendations_total samples (collect_system_metrics r)
              (rd_cpu r) (rd_memory r)
              (classify_spec (rd_cpu r) (rd_memory r)) eq_refl eq_refl)
    as [acts Hrec].
  exists acts. rewrite Hprocs. split; [exact Hrec|].
  destruct w as [[h m sc] [files denied] out].
  unfold history_of in *. cbn [self metrics_history model fs fs_denied] in *. subst h.
  unfold Windows.monitoring_pass.
  unfold bind at 1. unfold lift at 1.
  rewrite (analyze_system_state_classify (collect_system_metrics r)
             (rd_cpu r) (rd_memory r) eq_refl eq_refl).
  unfold bind at 1. unfold get_model at 1. cbn [self model].
  unfold bind at 1. rewrite Hpred.
  unfold bind, lift, get_history, set_history, ret, print.
  cbn [self model metrics_history scaler fs stdout py_append fst snd].
  rewrite Hprocs, Hrec.
  cbn [self model metrics_history scaler fs stdout py_append fst snd
       py_getitem assoc String.eqb Ascii.eqb Bool.eqb py_iter py_format].
  fold state.
  destruct (py_truthy pred && negb (py_eq_str pred state));
    cbn [self model metrics_history scaler fs stdout fst snd];
    rewrite print_all_run; cbn [self model metrics_history scaler fs stdout fst snd];
    rewrite <- ?app_assoc; cbn [app];
    by destruct (S count `mod` 3 =? 0)%nat.
Qed.

(** The loop, as long as predictions return and change nothing. *)
Lemma windows_monitoring_loop_run readings count w l :
  Forall wf_reading readings ->
  history_of w = PList l ->
  Windows.config_file ∉ fs_denied (fs w) ->
  (forall r w', model (self w') = model (self w) -> scaler (self w') = scaler (self w) ->
     exists pred,
       match model (self w') with
       | Some _ => Windows.predict_state (collect_system_metrics r)
       | None => ret PNone
       end w' = (Ok pred, w')) ->
  let w' := after (Windows.monitoring_loop count readings) w in
  outcome (Windows.monitoring_loop count readings) w = Ok tt /\
  history_of w' = PList (l ++ map collect_system_metrics readings) /\
  model (self w') = model (self w) /\ scaler (self w') = scaler (self w) /\
  fs_denied (fs w') = fs_denied (fs w).
Proof.
  intros Hwf. revert count w l.
  induction Hwf as [|r readings [samples Hr] Hwf IH]; intros count w l Hh Hden Hpred.
  - cbn. by rewrite app_nil_r.
  - destruct (Hpred r w eq_refl eq_refl) as [pred Hp].
    destruct (windows_monitoring_pass_run count r w l samples pred Hr Hh Hp)
      as (acts & _ & Hpass).
    cbv zeta in Hpass.
    match type of Hpass with
    | _ = if _ then Windows.save_metrics ?w0 else _ => set (w1 := w0) in *
    end.
    assert (Windows.monitoring_pass count r w =
            (Ok tt, after (Windows.monitoring_pass count r) w) /\
            history_of (after (Windows.monitoring_pass count r) w) =
              PList (l ++ [collect_system_metrics r]) /\
            model (self (after (Windows.monitoring_pass count r) w)) = model (self w) /\
            scaler (self (after (Windows.monitoring_pass count r) w)) = scaler (self w) /\
            fs_denied (fs (after (Windows.monitoring_pass count r) w)) = fs_denied (fs w))
      as (Hrun & Hh1 & Hm1 & Hs1 & Hden1).
    { unfold after. rewrite Hpass.
      destruct (S count `mod` 3 =? 0)%nat; [|done].
      by rewrite (windows_save_metrics_run w1) by done. }
    cbn [Windows.monitoring_loop]. unfold outcome, after in *.
    rewrite (bind_run _ _ _ _ _ Hrun).
    destruct (IH (S count) _ _ Hh1) as (Hok2 & Hh2 & Hm2 & Hs2 & Hden2).
    { by rewrite Hden1. }
    { intros r' w' Hm' Hs'. apply Hpred; congruence. }
    split; [done|]. rewrite Hh2. cbn [map]. rewrite <- app_assoc.
    repeat split; congruence.
Qed.

(** A whole run on a writable metrics file. *)
Lemma windows_run_monitoring_run duration interval readings w l :
  Forall wf_reading readings ->
  history_of w = PList l ->
  Windows.config_file ∉ fs_denied (fs w) ->
  (forall r w', model (self w') = model (self w) -> scaler (self w') = scaler (self w) ->
     exists pred,
       match model (self w') with
       | Some _ => Windows.predict_state (collect_system_metrics r)
       | None => ret PNone
       end w' = (Ok pred, w')) ->
  let w' := after (Windows.run_monitoring duration interval readings) w in
  outcome (Windows.run_monitoring duration interval readings) w = Ok tt /\
  history_of w' = PList (l ++ map collect_system_metrics readings) /\
  model (self w') = model (self w) /\ scaler (self w') = scaler (self w) /\
  fs_files (fs w') !! Windows.config_file =
    Some (Text (json_dumps (Some 2%nat)
                  (PList (l ++ map collect_system_metrics readings)))).
Proof.
  intros Hwf Hh Hden Hpred.
  unfold outcome, after, Windows.run_monitoring.
  rewrite !print_then.
  match goal with |- context [bind _ _ ?w0] => set (w2 := w0) end.
  destruct (windows_monitoring_loop_run readings 0 w2 l Hwf Hh Hden Hpred)
    as (Hok3 & Hh3 & Hm3 & Hs3 & Hden3).
  rewrite (bind_run _ _ _ _ _ (run_eq _ _ _ Hok3)).
  set (w3 := after (Windows.monitoring_loop 0 readings) w2) in *.
  assert (Windows.config_file ∉ fs_denied (fs w3)) as Hden3' by by rewrite Hden3.
  rewrite (bind_run _ _ _ _ _ (windows_save_metrics_run w3 Hden3')).
  unfold bind, get_history, lift, print, history_of in *.
  cbn [self metrics_history fs fs_files stdout fst snd].
  rewrite !Hh3. cbn [py_len fst snd self model scaler fs fs_files metrics_history].
  repeat split; try done. apply lookup_insert_eq.
Qed.

(** X21.  One pass of the monitoring loop with no model loaded prints,
    after a rule and the sample number, one line that pairs the state of the
    threshold cascade for the reading with the priority of that state, and
    then the actions of the recommendation, one per line; no prediction
    line is printed.  The snapshot is appended to the history, and the
    metrics file is written on every third pass only. *)
Theorem monitoring_pass_reports_state (count : nat) (r : reading) (w : world)
    (l : list pyval) (samples : list ProcessSample) :
  rd_procs r = map info_of samples ->
  history_of w = PList l ->
  model (self w) = None ->
  Windows.config_file ∉ fs_denied (fs w) ->
  let s := classify_spec (rd_cpu r) (rd_memory r) in
  let w' := after (Windows.monitoring_pass count r) w in
  outcome (Windows.monitoring_pass count r) w = Ok tt /\
  history_of w' = PList (l ++ [collect_system_metrics r]) /\
  (exists header actions,
      length header = 3%nat /\
      get_recommendations (rd_procs r) (collect_system_metrics r) (PStr (state_name s)) =
        Ok (PDict [("state", PStr (state_name s)); ("actions", PList actions);
                   ("priority", PStr (priority_name s))]) /\
      stdout w' =
        (stdout w ++ header ++
         [("State: " ++ state_name s ++ " | Priority: " ++ priority_name s)%string] ++
         map py_format actions)%list) /\
  ((S count `mod` 3 <> 0)%nat -> fs w' = fs w) /\
  ((S count `mod` 3 = 0)%nat ->
   fs_files (fs w') !! Windows.config_file =
     Some (Text (json_dumps (Some 2%nat) (PList (l ++ [collect_system_metrics r]))))).
Proof.
  intros Hr Hh Hm Hden s w'.
  assert (match model (self w) with
          | Some _ => Windows.predict_state (collect_system_metrics r)
          | None => ret PNone
          end w = (Ok PNone, w)) as Hp by by rewrite Hm.
  destruct (windows_monitoring_pass_run count r w l samples PNone Hr Hh Hp)
    as (acts & Hrec & Hpass).
  cbv zeta in Hpass. cbn [py_truthy andb app] in Hpass.
  match type of Hpass with
  | _ = if _ then Windows.save_metrics ?w0 else _ => set (w1 := w0) in *
  end.
  unfold w', outcome, after. rewrite Hpass.
  destruct (S count `mod` 3 =? 0)%nat eqn:Hmod.
  - rewrite (windows_save_metrics_run w1) by done.
    cbn [fst snd]. split; [done|]. split; [done|]. split.
    + eexists [_; _; _], acts. split; [done|]. split; [exact Hrec|].
      unfold w1. cbn [stdout app]. reflexivity.
    + apply Nat.eqb_eq in Hmod. split; [done|].
      intros _. apply lookup_insert_eq.
  - cbn [fst snd]. split; [done|]. split; [done|]. split.
    + eexists [_; _; _], acts. split; [done|]. split; [exact Hrec|].
      unfold w1. cbn [stdout app]. reflexivity.
    + apply Nat.eqb_neq in Hmod. done.
Qed.

(** X22.  What a monitoring run leaves on disk is its whole history.  With
    no model loaded, a writable metrics file and well-formed readings,
    [run_monitoring] ends with the metrics file holding the JSON text of the
    old history followed by one snapshot per reading; a manager that then
    runs [load_metrics] on those files has exactly that history. *)
Theorem run_monitoring_persists (duration interval : Z) (readings : list reading)
    (w w' : world) (l : list pyval) :
  Forall wf_reading readings ->
  history_of w = PList l ->
  model (self w) = None ->
  Windows.config_file ∉ fs_denied (fs w) ->
  Forall wf_json (l ++ map collect_system_metrics readings) ->
  fs w' = fs (after (Windows.run_monitoring duration interval readings) w) ->
  outcome (Windows.run_monitoring duration interval readings) w = Ok tt /\
  fs_files (fs (after (Windows.run_monitoring duration interval readings) w))
    !! Windows.config_file =
    Some (Text (json_dumps (Some 2%nat)
                  (PList (l ++ map collect_system_metrics readings)))) /\
  outcome Windows.load_metrics w' = Ok tt /\
  history_of (after Windows.load_metrics w') =
    history_of (after (Windows.run_monitoring duration interval readings) w).
Proof.
  intros Hwf Hh Hm Hden Hjson Hfs.
  destruct (windows_run_monitoring_run duration interval readings w l Hwf Hh Hden)
    as (Hok & Hh' & _ & _ & Hfile).
  { intros r w0 Hm0 _. exists PNone. by rewrite Hm0, Hm. }
  split; [done|]. split; [done|].
  rewrite <- Hfs in Hfile.
  unfold outcome, after in *.
  rewrite (windows_load_metrics_list w' _ Hfile Hjson). cbn [fst snd].
  by rewrite Hh'.
Qed.

End MonitoringFacts.

Section MonitoringErrors.
Context `{PyFormat} `{Sklearn}.
Import Runs.

Lemma windows_save_metrics_denied w :
  Windows.config_file ∈ fs_denied (fs w) ->
  Windows.save_metrics w = (Raise OSError, w).
Proof.
  intros Hden. destruct w as [[h m sc] [files denied] out].
  unfold Windows.save_metrics, bind, get_history, write_file. simpl in *.
  by rewrite bool_decide_eq_true_2.
Qed.

(** A pass with no model loaded, on a metrics file that cannot be written:
    it fails on every third pass, after the snapshot is appended. *)
Lemma windows_monitoring_pass_denied count r w l :
  wf_reading r ->
  history_of w = PList l ->
  model (self w) = None ->
  Windows.config_file ∈ fs_denied (fs w) ->
  exists out,
    Windows.monitoring_pass count r w =
    (if (S count `mod` 3 =? 0)%nat then Raise OSError else Ok tt,
     {| self := {| metrics_history := PList (l ++ [collect_system_metrics r]);
                   model := None; scaler := scaler (self w) |};
        fs := fs w; stdout := out |}).
Proof.
  intros [samples Hr] Hh Hm Hden.
  assert (match model (self w) with
          | Some _ => Windows.predict_state (collect_system_metrics r)
          | None => ret PNone
          end w = (Ok PNone, w)) as Hp by by rewrite Hm.
  destruct (windows_monitoring_pass_run count r w l samples PNone Hr Hh Hp)
    as (acts & _ & Hpass).
  cbv zeta in Hpass. rewrite Hpass, Hm. eexists.
  destruct (S count `mod` 3 =? 0)%nat; [|reflexivity].
  by rewrite windows_save_metrics_denied.
Qed.

(** The loop from its start on such a file: it stops at the third pass. *)
Lemma windows_monitoring_loop_denied readings w l :
  Forall wf_reading readings ->
  history_of w = PList l ->
  model (self w) = None ->
  Windows.config_file ∈ fs_denied (fs w) ->
  exists out,
    Windows.monitoring_loop 0 readings w =
    (if (3 <=? length readings)%nat then Raise OSError else Ok tt,
     {| self := {| metrics_history :=
                     PList (l ++ map collect_system_metrics (take 3 readings));
                   model := None; scaler := scaler (self w) |};
        fs := fs w; stdout := out |}).
Proof.
  intros Hwf Hh Hm Hden.
  destruct readings as [|r1 readings].
  { exists (stdout w). destruct w as [[h m sc] f out]. unfold history_of in Hh.
    simpl in *. subst. by rewrite app_nil_r. }
  apply Forall_cons in Hwf as [Hr1 Hwf].
  destruct (windows_monitoring_pass_denied 0 r1 w l Hr1 Hh Hm Hden) as [out1 Hp1].
  cbn [Nat.modulo Nat.divmod Nat.eqb fst snd Nat.sub] in Hp1.
  cbn [Windows.monitoring_loop]. rewrite (bind_run _ _ _ _ _ Hp1).
  match goal with |- context [Windows.monitoring_loop 1 readings ?w1'] => set (w1 := w1') end.
  destruct readings as [|r2 readings]; [by eexists|].
  apply Forall_cons in Hwf as [Hr2 Hwf].
  destruct (windows_monitoring_pass_denied 1 r2 w1 _ Hr2 eq_refl eq_refl Hden)
    as [out2 Hp2].
  cbn [Nat.modulo Nat.divmod Nat.eqb fst snd Nat.sub] in Hp2.
  cbn [Windows.monitoring_loop]. rewrite (bind_run _ _ _ _ _ Hp2).
  match goal with |- context [Windows.monitoring_loop 2 readings ?w2'] => set (w2 := w2') end.
  destruct readings as [|r3 readings].
  { eexists. cbn [Windows.monitoring_loop ret take map length Nat.leb].
    subst w2 w1. cbn [self scaler fs]. by rewrite <- app_assoc. }
  apply Forall_cons in Hwf as [Hr3 Hwf].
  destruct (windows_monitoring_pass_denied 2 r3 w2 _ Hr3 eq_refl eq_refl Hden)
    as [out3 Hp3].
  cbn [Nat.modulo Nat.divmod Nat.eqb fst snd Nat.sub] in Hp3.
  cbn [Windows.monitoring_loop]. unfold bind at 1. rewrite Hp3.
  eexists. cbn [take map length Nat.leb].
  subst w2 w1. cbn [self scaler fs]. by rewrite <- !app_assoc.
Qed.

(** X23.  A metrics file that cannot be written stops monitoring.  With no
    model loaded and well-formed readings, [run_monitoring] raises [OSError]:
    at the third sample, where the loop saves for the first time, or at the
    final save when the readings are fewer.  The samples taken up to then,
    at most three, have been appended to the history in memory; no file has
    changed. *)
Theorem run_monitoring_unwritable (duration interval : Z) (readings : list reading)
    (w : world) (l : list pyval) :
  Forall wf_reading readings ->
  history_of w = PList l ->
  model (self w) = None ->
  Windows.config_file ∈ fs_denied (fs w) ->
  outcome (Windows.run_monitoring duration interval readings) w = Raise OSError /\
  history_of (after (Windows.run_monitoring duration interval readings) w) =
    PList (l ++ map collect_system_metrics (take 3 readings)) /\
  fs (after (Windows.run_monitoring duration interval readings) w) = fs w.
Proof.
  intros Hwf Hh Hm Hden.
  unfold outcome, after, Windows.run_monitoring.
  rewrite !print_then.
  match goal with |- context [bind _ _ ?w0] => set (w0' := w0) end.
  destruct (windows_monitoring_loop_denied readings w0' l Hwf Hh Hm Hden)
    as [out Hloop].
  unfold bind. rewrite !Hloop.
  destruct (3 <=? length readings)%nat; [done|].
  rewrite !windows_save_metrics_denied by done.
  done.
Qed.

End MonitoringErrors.

Section MonitoringWithModel.
Context `{PyFormat} `{SklearnSpec}.
Import Runs.

(** X24.  Monitoring goes on after training.  When [train_model] has
    succeeded on a history of at least ten snapshots, a following
    [run_monitoring] on well-formed readings, with a writable metrics file,
    consults the model at every pass without failing: it returns normally,
    the history is the one trained on followed by one snapshot per reading,
    the model and the scaler are those training installed, and the metrics
    file holds the whole history. *)
Theorem monitoring_after_training (duration interval : Z) (readings : list reading)
    (w : world) (l : list pyval) :
  history_of w = PList l -> Forall is_snapshot l -> (10 <= length l)%nat ->
  Windows.model_file ∉ fs_denied (fs w) ->
  Windows.config_file ∉ fs_denied (fs w) ->
  Forall wf_reading readings ->
  let w1 := after Windows.train_model w in
  let w2 := after (Windows.run_monitoring duration interval readings) w1 in
  outcome Windows.train_model w = Ok true /\
  is_Some (model (self w1)) /\
  outcome (Windows.run_monitoring duration interval readings) w1 = Ok tt /\
  history_of w2 = PList (l ++ map collect_system_metrics readings) /\
  model (self w2) = model (self w1) /\
  scaler (self w2) = scaler (self w1) /\
  fs_files (fs w2) !! Windows.config_file =
    Some (Text (json_dumps (Some 2%nat)
                  (PList (l ++ map collect_system_metrics readings)))).
Proof.
  intros Hh Hwf Hlen Hdm Hdc Hrs w1 w2.
  destruct (windows_training_fits w l Hh Hwf Hlen)
    as (X & y & s & t & HXy & Hfit & Hy & Hyr & Hrows).
  assert (X <> []) as HX.
  { destruct (windows_training_data_wf l [] [] Hwf) as (X' & y' & HXy' & HX' & _).
    rewrite HXy in HXy'. injection HXy' as -> ->.
    destruct X'; [simpl in HX'; lia|done]. }
  pose proof (windows_train_model_fit w l X y s t Hh Hlen HXy Hfit) as Hrun.
  rewrite bool_decide_eq_false_2 in Hrun by done.
  assert (w1 = printed "✅ ML Model trained successfully!"
                 (model_saved Windows.model_file (trained w s t))) as Hw1.
  { unfold w1, after. by rewrite Hrun. }
  assert (history_of w1 = PList l) as Hh1 by (by rewrite Hw1).
  assert (model (self w1) = Some t) as Hm1 by (by rewrite Hw1).
  assert (scaler (self w1) = s) as Hs1 by (by rewrite Hw1).
  assert (Windows.config_file ∉ fs_denied (fs w1)) as Hdc1 by (by rewrite Hw1).
  split; [unfold outcome; by rewrite Hrun|].
  split; [by rewrite Hm1|].
  destruct (windows_run_monitoring_run duration interval readings w1 l Hrs Hh1 Hdc1)
    as (Hok & Hh2 & Hm2 & Hs2 & Hfile); [|done].
  intros r w' Hm' Hs'. rewrite Hm1 in Hm'. rewrite Hs1 in Hs'. rewrite Hm'.
  destruct (windows_predict_state_fitted w' (scaler (self w)) X y s t
              (rd_timestamp r) (rd_cpu r) (rd_memory r) (rd_available_gb r)
              (rd_disk r) (rd_pids r) (rd_cpu_freq r) Hm' Hs' Hfit HX Hrows Hyr)
    as (M & c & st & _ & _ & _ & _ & Hp).
  by eexists.
Qed.

End MonitoringWithModel.

(** ** The menu of the command-line front end *)

Section MenuFacts.
Context `{PyFormat} `{Sklearn}.
Import Runs.

Lemma set_history_then {A} h (k : M A) w :
  (set_history h;; k) w =
  k {| self := {| metrics_history := h; model := model (self w);
                  scaler := scaler (self w) |};
       fs := fs w; stdout := stdout w |}.
Proof. reflexivity. Qed.

Lemma set_model_then {A} m (k : M A) w :
  (set_model m;; k) w =
  k {| self := {| metrics_history := metrics_history (self w); model := m;
                  scaler := scaler (self w) |};
       fs := fs w; stdout := stdout w |}.
Proof. reflexivity. Qed.

Lemma set_scaler_then {A} s (k : M A) w :
  (set_scaler s;; k) w =
  k {| self := {| metrics_history := metrics_history (self w); model := model (self w);
                  scaler := s |};
       fs := fs w; stdout := stdout w |}.
Proof. reflexivity. Qed.

(** A quick analysis of a well-formed reading. *)
Lemma quick_analysis_run r w samples :
  rd_procs r = map info_of samples ->
  let s := classify_spec (rd_cpu r) (rd_memory r) in
  exists header actions,
    length header = 4%nat /\
    get_recommendations (rd_procs r) (collect_system_metrics r) (PStr (state_name s)) =
      Ok (PDict [("state", PStr (state_name s)); ("actions", PList actions);
                 ("priority", PStr (priority_name s))]) /\
    WindowsMain.quick_analysis r w =
    (Ok tt,
     {| self := self w; fs := fs w;
        stdout :=
          (stdout w ++ header ++
           [("State: " ++ state_name s)%string;
            ("Priority: " ++ priority_name s ++ newline)%string] ++
           map py_format actions ++ [Windows.rule])%list |}).
Proof.
  intros Hprocs s.
  destruct (get_recommendations_total samples (collect_system_metrics r)
              (rd_cpu r) (rd_memory r) s eq_refl eq_refl) as [acts Hrec].
  eexists [_; _; _; _], acts. split; [done|]. rewrite Hprocs. split; [exact Hrec|].
  destruct w as [m f out].
  unfold WindowsMain.quick_analysis. rewrite print_then.
  unfold bind at 1. unfold lift at 1.
  rewrite (analyze_system_state_classify (collect_system_metrics r)
             (rd_cpu r) (rd_memory r) eq_refl eq_refl).
  fold s. unfold bind at 1. unfold lift at 1. rewrite Hprocs, Hrec.
  rewrite !print_then.
  unfold bind, lift, print.
  cbn [self fs stdout py_getitem assoc String.eqb Ascii.eqb Bool.eqb py_iter py_format
       fst snd].
  rewrite print_all_run. cbn [self fs stdout fst snd].
  rewrite <- !app_assoc. reflexivity.
Qed.

End MenuFacts.

Section SessionFacts.
Context `{PyFormat} `{SklearnSpec}.
Import Runs.

Lemma session_ok_same w w' :
  self w' = self w -> fs_denied (fs w') = fs_denied (fs w) ->
  session_ok w -> session_ok w'.
Proof. unfold session_ok. by intros -> ->. Qed.

(** Predictions return, and change nothing, in a manager whose model is
    absent or fitted. *)
Lemma model_ok_predicts w r w' :
  model_ok (self w) ->
  model (self w') = model (self w) -> scaler (self w') = scaler (self w) ->
  exists pred,
    match model (self w') with
    | Some _ => Windows.predict_state (collect_system_metrics r)
    | None => ret PNone
    end w' = (Ok pred, w').
Proof.
  intros [Hnone | (s0 & X & y & t & Hm & Hfit & HX & Hrows & Hy)] Hm' Hs'.
  - rewrite Hm', Hnone. by eexists.
  - rewrite Hm in Hm'. rewrite Hm'.
    destruct (windows_predict_state_fitted w' s0 X y (scaler (self w)) t
                (rd_timestamp r) (rd_cpu r) (rd_memory r) (rd_available_gb r)
                (rd_disk r) (rd_pids r) (rd_cpu_freq r) Hm' Hs' Hfit HX Hrows Hy)
      as (M & c & st & _ & _ & _ & _ & Hp).
    by eexists.
Qed.

Lemma windows_run_monitoring_denied duration interval readings w l :
  Forall wf_reading readings ->
  history_of w = PList l ->
  Windows.config_file ∉ fs_denied (fs w) ->
  (forall r w', model (self w') = model (self w) -> scaler (self w') = scaler (self w) ->
     exists pred,
       match model (self w') with
       | Some _ => Windows.predict_state (collect_system_metrics r)
       | None => ret PNone
       end w' = (Ok pred, w')) ->
  fs_denied (fs (after (Windows.run_monitoring duration interval readings) w)) =
    fs_denied (fs w).
Proof.
  intros Hwf Hh Hden Hpred.
  unfold after, Windows.run_monitoring.
  rewrite !print_then.
  match goal with |- context [bind _ _ ?w0] => set (w2 := w0) end.
  destruct (windows_monitoring_loop_run readings 0 w2 l Hwf Hh Hden Hpred)
    as (Hok3 & Hh3 & Hm3 & Hs3 & Hden3).
  rewrite (bind_run _ _ _ _ _ (run_eq _ _ _ Hok3)).
  set (w3 := after (Windows.monitoring_loop 0 readings) w2) in *.
  assert (Windows.config_file ∉ fs_denied (fs w3)) as Hden3' by by rewrite Hden3.
  rewrite (bind_run _ _ _ _ _ (windows_save_metrics_run w3 Hden3')).
  unfold bind, get_history, lift, print, history_of in *.
  cbn [self metrics_history fs fs_files stdout fst snd].
  rewrite !Hh3. cbn [py_len fst snd self model scaler fs fs_denied metrics_history].
  exact Hden3.
Qed.

(** A monitoring run in a session. *)
Lemma session_monitoring duration interval readings w l :
  Forall wf_reading readings ->
  session_ok w -> history_of w = PList l ->
  outcome (Windows.run_monitoring duration interval readings) w = Ok tt /\
  session_ok (after (Windows.run_monitoring duration interval readings) w) /\
  history_of (after (Windows.run_monitoring duration interval readings) w) =
    PList (l ++ map collect_system_metrics readings).
Proof.
  intros Hwf ((l0 & Hh0 & Hsnap) & Hmodel & Hdc & Hdm) Hh.
  unfold history_of in Hh. rewrite Hh in Hh0. injection Hh0 as <-.
  pose proof (fun r w' => model_ok_predicts w r w' Hmodel) as Hpred.
  destruct (windows_run_monitoring_run duration interval readings w l Hwf Hh Hdc Hpred)
    as (Hok & Hh' & Hm' & Hs' & _).
  pose proof (windows_run_monitoring_denied duration interval readings w l Hwf Hh Hdc Hpred)
    as Hden'.
  split; [done|]. split; [|done].
  split; [|split; [|by rewrite Hden']].
  - eexists. split; [exact Hh'|]. apply Forall_app. split; [done|].
    apply Forall_forall. intros e He.
    apply list_elem_of_In, in_map_iff in He as (r & <- & _).
    unfold collect_system_metrics. by repeat eexists.
  - destruct Hmodel as [Hnone | (s0 & X & y & t & Hm & Hfit & HX)].
    + left. congruence.
    + right. exists s0, X, y, t. rewrite Hm', Hs'. done.
Qed.

(** Training in a session. *)
Lemma session_training w l :
  session_ok w -> history_of w = PList l ->
  exists b,
    outcome Windows.train_model w = Ok b /\
    session_ok (after Windows.train_model w) /\
    history_of (after Windows.train_model w) = PList l.
Proof.
  intros ((l0 & Hh0 & Hsnap) & Hmodel & Hdc & Hdm) Hh.
  unfold history_of in Hh. rewrite Hh in Hh0. injection Hh0 as <-.
  destruct (decide (length l < 10)%nat) as [Hshort | Hlong].
  - exists false. unfold outcome, after.
    rewrite (windows_train_model_short w l Hh Hshort). cbn [fst snd].
    split; [done|]. split; [|done].
    apply (session_ok_same w); [done|done|].
    by repeat split; eauto.
  - assert (10 <= length l)%nat as Hlen by lia.
    destruct (windows_training_fits w l Hh Hsnap Hlen)
      as (X & y & s & t & HXy & Hfit & Hy & Hyr & Hrows).
    assert (X <> []) as HX.
    { destruct (windows_training_data_wf l [] [] Hsnap) as (X' & y' & HXy' & HX' & _).
      rewrite HXy in HXy'. injection HXy' as -> ->.
      destruct X'; [simpl in HX'; lia|done]. }
    exists true. unfold outcome, after.
    rewrite (windows_train_model_fit w l X y s t Hh Hlen HXy Hfit).
    rewrite bool_decide_eq_false_2 by done. cbn [fst snd].
    unfold printed, model_saved, trained, history_of.
    cbn [self fs stdout metrics_history model scaler fs_denied].
    split; [done|]. split; [|done].
    split; [|split; [|done]].
    + by exists l.
    + right. exists (scaler (self w)), X, y, t. done.
Qed.

End SessionFacts.

Section SessionSteps.
Context `{PyFormat} `{SklearnSpec}.
Import Runs.

Lemma print_recent_snapshots i l w :
  Forall is_snapshot l ->
  exists lines,
    length lines = (2 * length l)%nat /\
    WindowsMain.print_recent i l w =
    (Ok tt, {| self := self w; fs := fs w; stdout := (stdout w ++ lines)%list |}).
Proof.
  intros Hl. revert i w. induction Hl as [|e l He Hl IH]; intros i w.
  - exists []. split; [done|]. destruct w. cbn. by rewrite app_nil_r.
  - destruct He as (ts & cpu & mem & avail & disk & pc & freq & ->).
    cbn [WindowsMain.print_recent].
    unfold bind at 1. unfold lift at 1.
    change (py_getitem (snapshot ts cpu mem avail disk pc freq) "timestamp")
      with (Ok (PStr ts) : result pyval).
    cbn [fst snd]. rewrite print_then.
    unfold bind at 1. unfold lift at 1.
    change (py_getitem (snapshot ts cpu mem avail disk pc freq) "cpu_percent")
      with (Ok (PNum cpu) : result pyval).
    cbn [fst snd]. unfold bind at 1. unfold lift at 1.
    rewrite py_format_1f_PNum. cbn [fst snd].
    unfold bind at 1. unfold lift at 1.
    change (py_getitem (snapshot ts cpu mem avail disk pc freq) "memory_percent")
      with (Ok (PNum mem) : result pyval).
    cbn [fst snd]. unfold bind at 1. unfold lift at 1.
    rewrite py_format_1f_PNum. cbn [fst snd]. rewrite print_then.
    edestruct (IH (S i)) as (lines & Hlen & ->).
    cbn [self fs stdout]. eexists (_ :: _ :: lines).
    split; [simpl; lia|]. by rewrite <- !app_assoc.
Qed.

(** Choice 4 on a history of snapshots: lines are printed, nothing else
    changes. *)
Lemma view_history_run w l :
  history_of w = PList l -> Forall is_snapshot l ->
  exists lines,
    WindowsMain.view_history w =
    (Ok tt, {| self := self w; fs := fs w; stdout := (stdout w ++ lines)%list |}).
Proof.
  intros Hh Hl. destruct w as [[h m sc] f out]. unfold history_of in Hh.
  cbn [self metrics_history] in Hh. subst h.
  unfold WindowsMain.view_history.
  unfold bind at 1. unfold get_history at 1. cbn [self metrics_history].
  unfold bind at 1. unfold lift at 1. cbn [py_len]. rewrite print_then.
  cbn [self fs stdout].
  destruct l as [|e l]; cbn [py_truthy].
  - unfold print. cbn [self fs stdout]. eexists. rewrite <- !app_assoc. reflexivity.
  - unfold bind at 1. unfold lift at 1. cbn [py_last]. rewrite print_then.
    unfold bind at 1. unfold lift at 1. cbn [py_iter self fs stdout].
    edestruct (print_recent_snapshots 1 (drop (length (e :: l) - 5) (e :: l)))
      as (lines & _ & ->).
    { by apply Forall_drop. }
    cbn [self fs stdout]. eexists. rewrite <- !app_assoc. reflexivity.
Qed.

(** One turn of the menu in a session. *)
Lemma menu_step_session typed r readings w l :
  wf_turn (typed, r, readings) ->
  session_ok w -> history_of w = PList l ->
  let m := WindowsMain.menu_step typed r readings in
  outcome m w = Ok (negb (is_exit (typed, r, readings))) /\
  session_ok (after m w) /\
  history_of (after m w) = PList (l ++ turn_samples (typed, r, readings)) /\
  (is_exit (typed, r, readings) = true ->
   fs_files (fs (after m w)) !! Windows.config_file =
     Some (Text (json_dumps (Some 2%nat) (PList l)))).
Proof.
  intros [[samples Hr] Hrs] Hok Hh m. cbn [fst snd] in Hr, Hrs.
  unfold m, WindowsMain.menu_step, turn_samples, is_exit. cbn [fst snd].
  unfold outcome, after. destruct w as [m0 f0 out0].
  do 11 (rewrite print_then; cbn [self fs stdout]). cbv zeta.
  match goal with
  | |- context [(if _ then _ else _) ?w1] => set (w0 := w1)
  end.
  assert (session_ok w0) as Hok0 by exact Hok.
  assert (history_of w0 = PList l) as Hh0 by exact Hh.
  clearbody w0. clear Hok Hh.
  set (c := strip typed).
  destruct (String.eqb c "1") eqn:E1.
  { apply String.eqb_eq in E1. rewrite E1. cbn [String.eqb Ascii.eqb Bool.eqb orb negb].
    destruct (quick_analysis_run r w0 samples Hr) as (hd & acts & _ & _ & Hrun).
    rewrite (bind_run _ _ _ _ _ Hrun). unfold ret. cbn [fst snd].
    rewrite app_nil_r. split; [done|]. split; [by apply (session_ok_same w0)|].
    split; [exact Hh0|]. intros [=]. }
  destruct (String.eqb c "2") eqn:E2.
  { apply String.eqb_eq in E2. rewrite E2. cbn [String.eqb Ascii.eqb Bool.eqb orb negb].
    destruct (session_monitoring 60 5 readings w0 l Hrs Hok0 Hh0) as (Hrun & Hok1 & Hh1).
    rewrite (bind_run _ _ _ _ _ (run_eq _ _ _ Hrun)). unfold ret. cbn [fst snd].
    split; [done|]. split; [exact Hok1|]. split; [exact Hh1|]. intros [=]. }
  destruct (String.eqb c "3") eqn:E3.
  { apply String.eqb_eq in E3. rewrite E3. cbn [String.eqb Ascii.eqb Bool.eqb orb negb].
    rewrite print_then.
    match goal with
    | |- context [bind Windows.train_model _ ?w1] => set (w0' := w1)
    end.
    assert (session_ok w0') as Hok0' by (by apply (session_ok_same w0)).
    assert (history_of w0' = PList l) as Hh0' by exact Hh0.
    clearbody w0'.
    destruct (session_training w0' l Hok0' Hh0') as (b & Hrun & Hok1 & Hh1).
    rewrite (bind_run _ _ _ _ _ (run_eq _ _ _ Hrun)).
    set (w1 := after Windows.train_model w0') in *. clearbody w1.
    rewrite app_nil_r.
    destruct b; unfold bind, print, ret; cbn [fst snd self fs stdout].
    - split; [done|]. split; [by apply (session_ok_same w1)|].
      split; [exact Hh1|]. intros [=].
    - split; [done|]. split; [exact Hok1|]. split; [exact Hh1|]. intros [=]. }
  destruct (String.eqb c "4") eqn:E4.
  { apply String.eqb_eq in E4. rewrite E4. cbn [String.eqb Ascii.eqb Bool.eqb orb negb].
    destruct Hok0 as ((l0 & Hl0 & Hsnap) & Hrest).
    assert (l0 = l) as -> by (unfold history_of in Hh0; congruence).
    destruct (view_history_run w0 l Hh0 Hsnap) as (lines & Hrun).
    rewrite (bind_run _ _ _ _ _ Hrun). unfold ret. cbn [fst snd].
    rewrite app_nil_r. split; [done|].
    split; [apply (session_ok_same w0); [done|done|]; split; [by exists l|done]|].
    split; [exact Hh0|]. intros [=]. }
  destruct (String.eqb c "5") eqn:E5.
  { apply String.eqb_eq in E5. rewrite E5. cbn [String.eqb Ascii.eqb Bool.eqb orb negb].
    destruct (session_monitoring 300 10 readings w0 l Hrs Hok0 Hh0) as (Hrun & Hok1 & Hh1).
    rewrite (bind_run _ _ _ _ _ (run_eq _ _ _ Hrun)). unfold ret. cbn [fst snd].
    split; [done|]. split; [exact Hok1|]. split; [exact Hh1|]. intros [=]. }
  cbn [orb].
  destruct (String.eqb c "6") eqn:E6.
  { cbn [negb]. rewrite print_then.
    match goal with
    | |- context [bind Windows.save_metrics _ ?w1] => set (w0' := w1)
    end.
    assert (session_ok w0') as Hok0' by (by apply (session_ok_same w0)).
    assert (history_of w0' = PList l) as Hh0' by exact Hh0.
    clearbody w0'.
    pose proof Hok0' as (Hhist & Hmodel & Hdc & Hdm).
    rewrite (bind_run _ _ _ _ _ (windows_save_metrics_run w0' Hdc)).
    rewrite print_then. unfold ret. cbn [fst snd self fs fs_files stdout].
    rewrite app_nil_r. split; [done|].
    split; [by apply (session_ok_same w0')|].
    split; [exact Hh0'|]. intros _. rewrite Hh0'. apply lookup_insert_eq. }
  cbn [negb]. rewrite print_then. unfold ret. cbn [fst snd].
  rewrite app_nil_r. split; [done|]. split; [by apply (session_ok_same w0)|].
  split; [exact Hh0|]. intros [=].
Qed.

End SessionSteps.

Section MenuTheorems.
Context `{PyFormat} `{Sklearn}.
Import Runs.

Lemma bind_raise {A B} (m : M A) (k : A -> M B) w e w' :
  m w = (Raise e, w') -> bind m k w = (Raise e, w').
Proof. unfold bind. by intros ->. Qed.

(** [load_metrics] when there is no metrics file. *)
Lemma windows_load_metrics_absent w :
  fs_files (fs w) !! Windows.config_file = None ->
  exists line, Windows.load_metrics w = (Ok tt, printed line w).
Proof.
  intros Hfile. destruct w as [m0 f0 out0].
  unfold Windows.load_metrics, bind, path_exists, print, printed.
  cbn [fs fs_files self stdout] in *. rewrite Hfile.
  rewrite bool_decide_eq_false_2 by (by intros [? ?]). by eexists.
Qed.

(** X25.  Choice 1 of the menu reports and keeps nothing.  For a well-formed
    reading it prints the state of the threshold cascade for the reading,
    the priority of that state and the actions of the recommendation, and
    goes back to the menu; the sample is not appended to the history, and
    the manager and the files are exactly as before, whatever they hold. *)
Theorem quick_analysis_keeps_nothing (typed : string) (r : reading)
    (readings : list reading) (w : world) (samples : list ProcessSample) :
  strip typed = "1" ->
  rd_procs r = map info_of samples ->
  let s := classify_spec (rd_cpu r) (rd_memory r) in
  let m := WindowsMain.menu_step typed r readings in
  outcome m w = Ok true /\
  self (after m w) = self w /\
  fs (after m w) = fs w /\
  exists menu actions,
    get_recommendations (rd_procs r) (collect_system_metrics r) (PStr (state_name s)) =
      Ok (PDict [("state", PStr (state_name s)); ("actions", PList actions);
                 ("priority", PStr (priority_name s))]) /\
    stdout (after m w) =
      (stdout w ++ menu ++
       [("State: " ++ state_name s)%string;
        ("Priority: " ++ priority_name s ++ newline)%string] ++
       map py_format actions ++ [Windows.rule])%list.
Proof.
  intros Hc Hr s m.
  unfold m, WindowsMain.menu_step, outcome, after. destruct w as [m0 f0 out0].
  do 11 (rewrite print_then; cbn [self fs stdout]). cbv zeta.
  match goal with
  | |- context [(if _ then _ else _) ?w1] => set (w0 := w1)
  end.
  assert (self w0 = m0) as Hself by reflexivity.
  assert (fs w0 = f0) as Hfs by reflexivity.
  assert (exists menu, stdout w0 = (out0 ++ menu)%list) as (menu & Hout).
  { eexists. unfold w0. cbn [stdout]. rewrite <- !app_assoc. reflexivity. }
  clearbody w0.
  rewrite Hc. cbn [String.eqb Ascii.eqb Bool.eqb].
  destruct (quick_analysis_run r w0 samples Hr) as (hd & acts & _ & Hrec & Hrun).
  rewrite (bind_run _ _ _ _ _ Hrun). unfold ret. cbn [fst snd self fs stdout].
  split; [reflexivity|]. split; [exact Hself|]. split; [exact Hfs|].
  exists (menu ++ hd)%list, acts. split; [exact Hrec|].
  rewrite Hout, <- !app_assoc. reflexivity.
Qed.

(** The start of [main]: a new manager on the files that are there. *)
Lemma main_start p turns w :
  exists banner,
    WindowsMain.main p turns w =
    (Windows.load_metrics;; Windows.load_model;; WindowsMain.menu_loop turns)
      {| self := Windows.init; fs := fs w; stdout := (stdout w ++ banner)%list |}.
Proof.
  destruct w as [m0 f0 out0].
  unfold WindowsMain.main, WindowsMain.display_system_info.
  rewrite set_history_then, set_model_then, set_scaler_then.
  cbn [self fs stdout metrics_history model scaler].
  eexists.
  change (print ?a;; print ?b;; print ?c;; print ?d;; print ?e;; print ?f;; print ?g;;
          print ?h)
    with (fun w => (print a;; print b;; print c;; print d;; print e;; print f;; print g;;
                    print h) w).
  unfold bind at 1.
  do 7 (rewrite print_then; cbn [self fs stdout]).
  unfold print at 1. cbn [self fs stdout].
  rewrite <- !app_assoc. reflexivity.
Qed.

(** Leaving the menu at once, from any manager. *)
Lemma menu_exit_run typed r readings rest w :
  strip typed = "6" ->
  Windows.config_file ∉ fs_denied (fs w) ->
  exists lines,
    WindowsMain.menu_loop ((typed, r, readings) :: rest) w =
    (Ok true,
     {| self := self w;
        fs := {| fs_files :=
                   <[Windows.config_file :=
                       Text (json_dumps (Some 2%nat) (history_of w))]> (fs_files (fs w));
                 fs_denied := fs_denied (fs w) |};
        stdout := (stdout w ++ lines)%list |}).
Proof.
  intros Hc Hden. destruct w as [m0 f0 out0].
  cbn [WindowsMain.menu_loop]. unfold WindowsMain.menu_step.
  unfold bind at 1.
  do 11 (rewrite print_then; cbn [self fs stdout]). cbv zeta.
  match goal with
  | |- context [(if _ then _ else _) ?w1] => set (w0 := w1)
  end.
  assert (self w0 = m0) as Hself by reflexivity.
  assert (fs w0 = f0) as Hfs by reflexivity.
  assert (exists menu, stdout w0 = (out0 ++ menu)%list) as (menu & Hout).
  { eexists. unfold w0. cbn [stdout]. rewrite <- !app_assoc. reflexivity. }
  clearbody w0.
  rewrite Hc. cbn [String.eqb Ascii.eqb Bool.eqb].
  rewrite print_then.
  match goal with
  | |- context [bind Windows.save_metrics _ ?w1] => set (w0' := w1)
  end.
  assert (Windows.config_file ∉ fs_denied (fs w0')) as Hden'.
  { unfold w0'. cbn [fs]. by rewrite Hfs. }
  rewrite (bind_run _ _ _ _ _ (windows_save_metrics_run w0' Hden')).
  rewrite print_then. unfold ret, w0', history_of.
  cbn [fst snd self fs stdout fs_files fs_denied metrics_history].
  rewrite Hself, Hfs, Hout.
  eexists. rewrite <- !app_assoc. reflexivity.
Qed.

(** Loading the model and leaving the menu at once. *)
Lemma load_model_exit_run typed r readings rest w :
  strip typed = "6" ->
  Windows.config_file ∉ fs_denied (fs w) ->
  let m := Windows.load_model;; WindowsMain.menu_loop ((typed, r, readings) :: rest) in
  outcome m w = Ok true /\
  history_of (after m w) = history_of w /\
  fs_files (fs (after m w)) =
    <[Windows.config_file := Text (json_dumps (Some 2%nat) (history_of w))]>
      (fs_files (fs w)).
Proof.
  intros Hc Hden m. unfold m, outcome, after.
  pose proof (windows_load_model_run w) as Hload.
  assert (exists b w1, Windows.load_model w = (Ok b, w1) /\
                       history_of w1 = history_of w /\ fs w1 = fs w)
    as (b & w1 & Hrun & Hh1 & Hfs1).
  { rewrite Hload.
    destruct (fs_files (fs w) !! Windows.model_file) as [[content|t s|[t|]]|];
      [destruct (String.eqb content "")| | | |]; by do 2 eexists. }
  rewrite (bind_run _ _ _ _ _ Hrun).
  destruct (menu_exit_run typed r readings rest w1 Hc) as (lines & Hexit).
  { by rewrite Hfs1. }
  rewrite Hexit. cbn [fst snd self fs fs_files]. unfold history_of in *.
  cbn [self metrics_history]. by rewrite Hh1, Hfs1.
Qed.

(** X26.  Starting the program and leaving it at once rewrites the metrics
    file.  [main] makes a new manager, loads the history and the model and
    shows the menu; with choice 6 it saves and returns.  If there was no
    metrics file, or one that held only white space or plain text that
    [json.loads] rejects, the file holds [[]] afterwards: the old content is
    gone.  If it held plain JSON text of a list, that list is the history
    when [main] returns.  If it held plain JSON text of a value without a
    length, [main] raises [TypeError] before the menu is shown and no file
    is changed.  The other files are never changed. *)
Theorem main_exit_rewrites_metrics_file (p : platform) (typed : string) (r : reading)
    (readings : list reading) (rest : list (string * reading * list reading))
    (w : world) :
  strip typed = "6" ->
  Windows.config_file ∉ fs_denied (fs w) ->
  let m := WindowsMain.main p ((typed, r, readings) :: rest) in
  (fs_files (fs w) !! Windows.config_file = None ->
   outcome m w = Ok true /\
   fs_files (fs (after m w)) = <[Windows.config_file := Text "[]"]> (fs_files (fs w))) /\
  (forall content,
      fs_files (fs w) !! Windows.config_file = Some (Text content) ->
      (strip content = "" \/
       (plain (strip content) = true /\
        json_loads (strip content) = Raise JSONDecodeError) ->
       outcome m w = Ok true /\
       fs_files (fs (after m w)) =
         <[Windows.config_file := Text "[]"]> (fs_files (fs w))) /\
      (forall l,
          plain (strip content) = true ->
          json_loads (strip content) = Ok (PList l) ->
          outcome m w = Ok true /\
          history_of (after m w) = PList l /\
          forall path, path <> Windows.config_file ->
            fs_files (fs (after m w)) !! path = fs_files (fs w) !! path) /\
      (forall v,
          plain (strip content) = true ->
          json_loads (strip content) = Ok v -> py_len v = Raise TypeError ->
          outcome m w = Raise TypeError /\ fs (after m w) = fs w)).
Proof.
  intros Hc Hden m. unfold m, outcome, after.
  destruct (main_start p ((typed, r, readings) :: rest) w) as (banner & ->).
  set (w0 := {| self := Windows.init; fs := fs w; stdout := (stdout w ++ banner)%list |}).
  assert (forall w1,
             Windows.load_metrics w0 = (Ok tt, w1) -> fs w1 = fs w ->
             ((Windows.load_metrics;; Windows.load_model;;
               WindowsMain.menu_loop ((typed, r, readings) :: rest)) w0).1 = Ok true /\
             history_of ((Windows.load_metrics;; Windows.load_model;;
               WindowsMain.menu_loop ((typed, r, readings) :: rest)) w0).2 =
               history_of w1 /\
             fs_files (fs ((Windows.load_metrics;; Windows.load_model;;
               WindowsMain.menu_loop ((typed, r, readings) :: rest)) w0).2) =
               <[Windows.config_file := Text (json_dumps (Some 2%nat) (history_of w1))]>
                 (fs_files (fs w))) as Hgo.
  { intros w1 Hload Hfs1. rewrite (bind_run _ _ _ _ _ Hload).
    destruct (load_model_exit_run typed r readings rest w1 Hc) as (Hok & Hh & Hf).
    { by rewrite Hfs1. }
    unfold outcome, after in *. by rewrite Hok, Hh, Hf, Hfs1. }
  split.
  - intros Hfile.
    destruct (windows_load_metrics_absent w0 Hfile) as (line & Hload).
    destruct (Hgo _ Hload eq_refl) as (Hok & _ & Hf). done.
  - intros content Hfile.
    pose proof (windows_load_metrics_text w0 content Hfile) as Hload.
    split; [|split].
    + intros Hbad.
      assert (exists line,
                 Windows.load_metrics w0 =
                 (Ok tt, {| self := Windows.init; fs := fs w;
                            stdout := ((stdout w ++ banner) ++ [line])%list |}))
        as (line & Hload').
      { rewrite Hload.
        destruct (String.eqb (strip content) "") eqn:Hblank; [by eexists|].
        destruct Hbad as [Hb | [_ Hb]]; [by rewrite Hb in Hblank|].
        rewrite Hb. by eexists. }
      destruct (Hgo _ Hload' eq_refl) as (Hok & _ & Hf). done.
    + intros l _ Hl.
      destruct (String.eqb (strip content) "") eqn:Hblank.
      { apply String.eqb_eq in Hblank. by rewrite Hblank, json_loads_empty in Hl. }
      rewrite Hl in Hload. cbn [py_len] in Hload.
      destruct (Hgo _ Hload eq_refl) as (Hok & Hh & Hf).
      split; [done|]. split; [done|].
      intros path Hpath. rewrite Hf. by apply lookup_insert_ne.
    + intros v _ Hv Hlen.
      destruct (String.eqb (strip content) "") eqn:Hblank.
      { apply String.eqb_eq in Hblank. by rewrite Hblank, json_loads_empty in Hv. }
      rewrite Hv, Hlen in Hload.
      match goal with
      | |- context [bind Windows.load_metrics ?k w0] =>
          assert (bind Windows.load_metrics k w0 =
                  (Raise TypeError,
                   {| self := {| metrics_history := v; model := model (self w0);
                                 scaler := scaler (self w0) |};
                      fs := fs w0; stdout := stdout w0 |})) as ->
            by (unfold bind at 1; rewrite Hload; reflexivity)
      end.
      done.
Qed.

End MenuTheorems.

Section SessionTheorems.
Context `{PyFormat} `{SklearnSpec}.
Import Runs.

(** A session of the menu, by induction on the turns. *)
Lemma menu_loop_session
    (turns : list (string * reading * list reading)) (w : world) (l : list pyval) :
  Forall wf_turn turns ->
  session_ok w ->
  history_of w = PList l ->
  let m := WindowsMain.menu_loop turns in
  outcome m w = Ok (existsb is_exit turns) /\
  session_ok (after m w) /\
  history_of (after m w) = PList (l ++ concat (map turn_samples (played turns))) /\
  (existsb is_exit turns = true ->
   fs_files (fs (after m w)) !! Windows.config_file =
     Some (Text (json_dumps (Some 2%nat)
                   (PList (l ++ concat (map turn_samples (played turns))))))).
Proof.
  intros Hwf. revert w l.
  induction Hwf as [|[[typed r] readings] turns Ht Hwf IH]; intros w l Hok Hh m.
  - unfold m, outcome, after. cbn. rewrite app_nil_r. done.
  - destruct (menu_step_session typed r readings w l Ht Hok Hh)
      as (Hrun & Hok1 & Hh1 & Hfile).
    unfold m. cbn [WindowsMain.menu_loop existsb played].
    unfold outcome, after in *.
    rewrite (bind_run _ _ _ _ _ (run_eq _ _ _ Hrun)).
    destruct (is_exit (typed, r, readings)) eqn:Hexit; cbn [negb orb].
    + unfold ret. cbn [fst snd map concat].
      assert (turn_samples (typed, r, readings) = []) as Hnone.
      { unfold turn_samples, is_exit in *. cbn [fst snd] in *.
        apply String.eqb_eq in Hexit. by rewrite Hexit. }
      rewrite Hnone, !app_nil_r in *. auto.
    + destruct (IH _ _ Hok1 Hh1) as (Hrun2 & Hok2 & Hh2 & Hfile2).
      unfold outcome, after in *. cbn [map concat].
      rewrite <- app_assoc in Hh2, Hfile2. rewrite app_assoc in Hfile2.
      rewrite <- app_assoc in Hfile2. done.
Qed.


(** X27.  No turn of the menu loses a sample.  In a session that starts
    with a history of snapshots, a model that is absent or was fitted by
    [train_model], and writable files, every sequence of well-formed turns
    runs without an exception, whatever is typed: the loop is left exactly
    when some turn chose 6, and the history is then the old history followed
    by the snapshots of the monitoring runs (choices 2 and 5) played up to
    there, in order.  Nothing is ever evicted, and when the loop is left the
    metrics file holds the text of that whole history. *)
Theorem menu_session_keeps_every_sample
    (turns : list (string * reading * list reading)) (w : world) (l : list pyval) :
  Forall wf_turn turns ->
  session_ok w ->
  history_of w = PList l ->
  let m := WindowsMain.menu_loop turns in
  outcome m w = Ok (existsb is_exit turns) /\
  session_ok (after m w) /\
  history_of (after m w) = PList (l ++ concat (map turn_samples (played turns))) /\
  (existsb is_exit turns = true ->
   fs_files (fs (after m w)) !! Windows.config_file =
     Some (Text (json_dumps (Some 2%nat)
                   (PList (l ++ concat (map turn_samples (played turns))))))).
Proof. apply menu_loop_session. Qed.

End SessionTheorems.

Section MainTheorems.
Context `{PyFormat} `{SklearnSpec}.
Import Runs.


(** Printing the entries of choice 4 that are snapshots. *)
Lemma print_recent_app i good l2 w :
  Forall is_snapshot good ->
  exists lines,
    WindowsMain.print_recent i (good ++ l2) w =
    WindowsMain.print_recent (i + length good) l2
      {| self := self w; fs := fs w; stdout := (stdout w ++ lines)%list |}.
Proof.
  intros Hl. revert i w. induction Hl as [|e l He Hl IH]; intros i w.
  - exists []. destruct w as [m0 f0 out0]. cbn [app length self fs stdout].
    by rewrite Nat.add_0_r, app_nil_r.
  - destruct He as (ts & cpu & mem & avail & disk & pc & freq & ->).
    cbn [WindowsMain.print_recent app].
    unfold bind at 1. unfold lift at 1.
    change (py_getitem (snapshot ts cpu mem avail disk pc freq) "timestamp")
      with (Ok (PStr ts) : result pyval).
    cbn [fst snd]. rewrite print_then.
    unfold bind at 1. unfold lift at 1.
    change (py_getitem (snapshot ts cpu mem avail disk pc freq) "cpu_percent")
      with (Ok (PNum cpu) : result pyval).
    cbn [fst snd]. unfold bind at 1. unfold lift at 1.
    rewrite py_format_1f_PNum. cbn [fst snd].
    unfold bind at 1. unfold lift at 1.
    change (py_getitem (snapshot ts cpu mem avail disk pc freq) "memory_percent")
      with (Ok (PNum mem) : result pyval).
    cbn [fst snd]. unfold bind at 1. unfold lift at 1.
    rewrite py_format_1f_PNum. cbn [fst snd]. rewrite print_then.
    edestruct (IH (S i)) as (lines & ->).
    cbn [self fs stdout length]. eexists (_ :: _ :: lines).
    replace (i + S (length l))%nat with (S i + length l)%nat by lia.
    by rewrite <- !app_assoc.
Qed.

(** X29.  Choice 4 ends the program on a history that holds a foreign
    entry.  [load_metrics] takes any JSON list as the history; if one of
    its last five entries is not a dictionary with a [timestamp] while those
    before it among the five are snapshots, choice 4 raises the exception
    of that subscript.  [main] does not catch it: the loop ends without the
    turn that saves, and neither the manager nor a file is changed by the
    failing turn. *)
Theorem view_history_foreign_entry (typed : string) (r : reading)
    (readings : list reading) (rest : list (string * reading * list reading))
    (w : world) (l good later : list pyval) (e : pyval) (x : exn) :
  strip typed = "4" ->
  history_of w = PList l ->
  drop (length l - 5) l = (good ++ e :: later)%list ->
  Forall is_snapshot good ->
  py_getitem e "timestamp" = Raise x ->
  let m := WindowsMain.menu_loop ((typed, r, readings) :: rest) in
  outcome m w = Raise x /\
  self (after m w) = self w /\
  fs (after m w) = fs w.
Proof.
  intros Hc Hh Hdrop Hgood He m. unfold m, outcome, after.
  destruct w as [[h m0 sc] f0 out0]. unfold history_of in Hh.
  cbn [self metrics_history] in Hh. subst h.
  cbn [WindowsMain.menu_loop]. unfold WindowsMain.menu_step.
  match goal with
  | |- context [bind ?step ?k ?w] =>
      assert (exists out, step w =
                (Raise x, {| self := {| metrics_history := PList l; model := m0;
                                        scaler := sc |};
                             fs := f0; stdout := out |})) as (out & Hstep)
  end.
  { do 11 (rewrite print_then; cbn [self fs stdout]). cbv zeta.
    rewrite Hc. cbn [String.eqb Ascii.eqb Bool.eqb].
    match goal with
    | |- context [bind WindowsMain.view_history ?k ?w1] =>
        assert (exists out, WindowsMain.view_history w1 =
                  (Raise x, {| self := {| metrics_history := PList l; model := m0;
                                          scaler := sc |};
                               fs := f0; stdout := out |})) as (out & Hview)
    end.
    { unfold WindowsMain.view_history.
      unfold bind at 1. unfold get_history at 1. cbn [self metrics_history fst snd].
      unfold bind at 1. unfold lift at 1. cbn [py_len]. rewrite print_then.
      cbn [self fs stdout].
      assert (py_truthy (PList l) = true) as ->.
      { destruct l; [|done]. by destruct good. }
      unfold bind at 1. unfold lift at 1. cbn [py_last]. rewrite print_then.
      unfold bind at 1. unfold lift at 1. cbn [py_iter self fs stdout].
      rewrite Hdrop.
      edestruct (print_recent_app 1 good (e :: later)) as (lines & ->); [done|].
      cbn [WindowsMain.print_recent self fs stdout].
      unfold bind at 1. unfold lift at 1. rewrite He. by eexists. }
    exists out. by apply bind_raise. }
  rewrite (bind_raise _ _ _ _ _ Hstep). done.
Qed.

End MainTheorems.

(** ** Closed instances *)

Lemma windows_load_metrics_recovers_witness :
  exists line,
    @Windows.load_metrics constant_learner
      (Scenarios.world_with Examples.manager_10 Windows.config_file "{not json") =
    (Ok tt,
     {| self := {| metrics_history := PList []; model := None; scaler := scaler_new |};
        fs := fs (Scenarios.world_with Examples.manager_10 Windows.config_file "{not json");
        stdout := [line] |}).
Proof.
  destruct (proj1 (windows_load_metrics_recovers
                     (Scenarios.world_with Examples.manager_10 Windows.config_file
                        "{not json")) "{not json") as [line Hrun].
  - apply lookup_singleton_eq.
  - right. split; reflexivity.
  - exists line. exact Hrun.
Defined.

Lemma windows_load_metrics_raises_iff_witness :
  Runs.outcome (@Windows.load_metrics constant_learner)
    (Scenarios.world_with Windows.init Windows.config_file "3.5") = Raise TypeError.
Proof.
  apply (proj2 (proj1 (proj2 (windows_load_metrics_raises_iff
                                (Scenarios.world_with Windows.init Windows.config_file "3.5")
                                "3.5" (lookup_singleton_eq _ _) eq_refl)))).
  exists (PFloat (Dec 35 1)). split; [reflexivity|].
  right. right. by exists (NFloat (Dec 35 1)).
Defined.

Lemma streamlit_load_metrics_outcomes_witness :
  @Streamlit.load_metrics constant_learner
    (Scenarios.world_with Examples.manager_10 Streamlit.metrics_file "[1, 2") =
  (Ok tt,
   {| self := {| metrics_history := PList []; model := None; scaler := scaler_new |};
      fs := fs (Scenarios.world_with Examples.manager_10 Streamlit.metrics_file "[1, 2");
      stdout := [] |}).
Proof.
  apply (proj2 (proj1 (proj2 (streamlit_load_metrics_outcomes
                                (Scenarios.world_with Examples.manager_10
                                   Streamlit.metrics_file "[1, 2")))
                 "[1, 2" (lookup_singleton_eq _ _))).
  - discriminate.
  - reflexivity.
Defined.

Lemma load_model_outcomes_witness :
  Runs.outcome (@Windows.load_model decimal_format constant_learner)
    (Scenarios.world_model_only Examples.manager_10) = Ok false /\
  self (Runs.after (@Windows.load_model decimal_format constant_learner)
          (Scenarios.world_model_only Examples.manager_10)) =
  {| metrics_history := metrics_history Examples.manager_10;
     model := Some (Some 2 : @sk_model constant_learner);
     scaler := scaler Examples.manager_10 |}.
Proof.
  apply (proj1 (proj2 (proj2 (proj2 (proj2
           (@load_model_outcomes decimal_format constant_learner
              (Scenarios.world_model_only Examples.manager_10)))))) (Some 2 : @sk_model constant_learner)).
  unfold Scenarios.world_model_only. cbn [fs fs_files]. apply lookup_singleton_eq.
Defined.

Lemma trained_model_reloads_witness :
  Runs.outcome (@Windows.load_model decimal_format constant_learner)
    (Scenarios.restarted
       (Runs.after (@Windows.train_model constant_learner)
          (Examples.world_of Examples.manager_10))) = Ok true.
Proof.
  apply (@trained_model_reloads decimal_format constant_learner constant_learner_spec
           (Examples.world_of Examples.manager_10)
           (Scenarios.restarted
              (Runs.after (@Windows.train_model constant_learner)
                 (Examples.world_of Examples.manager_10)))
           (map Examples.sample_no (seq 0 10))).
  - reflexivity.
  - apply Forall_is_snapshot_samples.
  - rewrite length_map, length_seq. lia.
  - cbn. apply not_elem_of_empty.
  - reflexivity.
Defined.

Lemma streamlit_save_metrics_unwritable_witness :
  Runs.outcome
    (@Streamlit.save_metrics decimal_format constant_learner (Examples.sample_no 10))
    (Scenarios.world_unwritable Examples.manager_10) = Ok tt /\
  Runs.history_of
    (Runs.after
       (@Streamlit.save_metrics decimal_format constant_learner (Examples.sample_no 10))
       (Scenarios.world_unwritable Examples.manager_10)) =
  PList (last_n 100 (map Examples.sample_no (seq 0 10) ++ [Examples.sample_no 10])).
Proof.
  unfold Runs.outcome, Runs.after.
  rewrite (@streamlit_save_metrics_unwritable decimal_format constant_learner
             (Scenarios.world_unwritable Examples.manager_10)
             (map Examples.sample_no (seq 0 10)) (Examples.sample_no 10)).
  - done.
  - reflexivity.
  - apply (bool_decide_unpack _). by vm_compute.
Defined.


Lemma streamlit_restart_restores_window_witness :
  Runs.history_of
    (Runs.after (@Streamlit.load_metrics constant_learner)
       (Runs.after (@Runs.save_all decimal_format constant_learner Examples.samples_150)
          (Examples.world_of Streamlit.init))) =
  PList (last_n 100 ([] ++ Examples.samples_150)).
Proof.
  assert (Forall wf_json ([] ++ Examples.samples_150)) as Hwf
    by apply Forall_wf_json_samples.
  assert (Examples.samples_150 <> []) as Hne by discriminate.
  assert (Streamlit.metrics_file ∉ fs_denied (fs (Examples.world_of Streamlit.init)))
    as Hden by (cbn; apply not_elem_of_empty).
  destruct (@streamlit_restart_restores_window decimal_format constant_learner
              (Examples.world_of Streamlit.init)
              (Runs.after (@Runs.save_all decimal_format constant_learner
                             Examples.samples_150)
                 (Examples.world_of Streamlit.init))
              [] Examples.samples_150 eq_refl Hwf Hne Hden eq_refl)
    as (_ & Hh & _).
  exact Hh.
Defined.

Lemma train_model_bad_entry_witness :
  @Windows.train_model constant_learner (Examples.world_of Scenarios.manager_bad_entry) =
  (Raise (KeyError "cpu_percent"), Examples.world_of Scenarios.manager_bad_entry).
Proof.
  apply (@train_model_bad_entry decimal_format constant_learner
           (Examples.world_of Scenarios.manager_bad_entry)
           (map Examples.sample_no (seq 0 9)) [] (PDict []) (KeyError "cpu_percent")).
  - reflexivity.
  - rewrite length_app, length_map, length_seq. simpl. lia.
  - apply Forall_is_snapshot_samples.
  - left. reflexivity.
Defined.

Lemma windows_recommendation_layout_witness :
  exists actions,
    @get_recommendations decimal_format
      (map info_of [Scenarios.python_exe])
      (sample (NFloat (Dec 905 1)) (NFloat (Dec 500 1)))
      (PStr (state_name CRITICAL)) =
    Ok (PDict [("state", PStr (state_name CRITICAL)); ("actions", PList actions);
               ("priority", PStr (priority_name CRITICAL))]) /\
    length actions = 9%nat.
Proof.
  destruct (@windows_recommendation_layout decimal_format)
    as (advisories & (_ & _ & _ & Hlen) & Hall).
  destruct (Hall [Scenarios.python_exe]
              (sample (NFloat (Dec 905 1)) (NFloat (Dec 500 1)))
              (NFloat (Dec 905 1)) (NFloat (Dec 500 1)) CRITICAL eq_refl eq_refl)
    as (ml & cl & report & _ & _ & Hrun & _ & Hrep).
  destruct Hrep as (header & lines & -> & Hlines & _); [discriminate|].
  eexists. split; [exact Hrun|].
  rewrite !length_app, Hlen. simpl. rewrite Hlines. reflexivity.
Defined.

Lemma dashboard_recommendation_readouts_witness :
  exists actions,
    @dashboard_get_recommendations decimal_format PNone (PStr "IDLE") =
    Ok (PDict [("state", PStr "IDLE"); ("actions", PList actions)]) /\
    length actions = 3%nat.
Proof.
  destruct (@dashboard_recommendation_readouts decimal_format)
    as (advisories & (Hlen & _) & Hopt & _).
  exists (advisories IDLE). split; [by apply Hopt|exact Hlen].
Defined.

Lemma top_processes_raises_on_unread_counter_witness :
  get_top_processes 5 (map info_of [Scenarios.python_exe] ++ [Scenarios.unread]) =
  Raise TypeError.
Proof.
  apply (proj1 (top_processes_raises_on_unread_counter 5 [Scenarios.python_exe])
           Scenarios.unread [] PNone); reflexivity.
Defined.

Lemma streamlit_advice_follows_state_witness :
  exists advice,
    StreamlitApp.page_advice (sample (NFloat (Dec 905 1)) (NFloat (Dec 500 1))) =
    Ok (PList advice) /\ length advice = 5%nat.
Proof.
  destruct streamlit_advice_follows_state as (advice & _ & (_ & _ & _ & Hlen) & Hpage & _).
  exists (advice CRITICAL). split; [|exact Hlen].
  apply (Hpage (sample (NFloat (Dec 905 1)) (NFloat (Dec 500 1)))
           (NFloat (Dec 905 1)) (NFloat (Dec 500 1))); reflexivity.
Defined.

Lemma dashboard_get_metrics_consistent_witness :
  exists actions,
    @Dashboard.get_metrics decimal_format Examples.reading_0 =
    Ok (PDict
          [("metrics", Dashboard.metrics_of Examples.reading_0);
           ("state", PStr "CRITICAL");
           ("recommendations",
            PDict [("state", PStr "CRITICAL"); ("actions", actions)]);
           ("top_processes", PList [entry_of Scenarios.python_exe]);
           ("timestamp", PStr "2024-01-01T00:00:00")]).
Proof.
  destruct (proj1 (@dashboard_get_metrics_consistent decimal_format Examples.reading_0)
              [Scenarios.python_exe] eq_refl) as (actions & Hrun & _).
  exists actions. exact Hrun.
Defined.

Lemma monitoring_pass_reports_state_witness :
  Runs.outcome (@Windows.monitoring_pass decimal_format constant_learner 0
                  Examples.reading_0)
    (Examples.world_of Examples.manager_10) = Ok tt.
Proof.
  apply (@monitoring_pass_reports_state decimal_format constant_learner 0
           Examples.reading_0 (Examples.world_of Examples.manager_10)
           (map Examples.sample_no (seq 0 10)) [Scenarios.python_exe]).
  - reflexivity.
  - reflexivity.
  - reflexivity.
  - cbn. apply not_elem_of_empty.
Defined.

Lemma run_monitoring_persists_witness :
  Runs.history_of
    (Runs.after (@Windows.load_metrics constant_learner)
       (Scenarios.restarted
          (Runs.after (@Windows.run_monitoring decimal_format constant_learner 60 5
                         [Examples.reading_0])
             (Examples.world_of Examples.manager_10)))) =
  Runs.history_of
    (Runs.after (@Windows.run_monitoring decimal_format constant_learner 60 5
                   [Examples.reading_0])
       (Examples.world_of Examples.manager_10)).
Proof.
  apply (@run_monitoring_persists decimal_format constant_learner 60 5
           [Examples.reading_0] (Examples.world_of Examples.manager_10)
           (Scenarios.restarted
              (Runs.after (@Windows.run_monitoring decimal_format constant_learner 60 5
                             [Examples.reading_0])
                 (Examples.world_of Examples.manager_10)))
           (map Examples.sample_no (seq 0 10))).
  - repeat constructor. by exists [Scenarios.python_exe].
  - reflexivity.
  - reflexivity.
  - cbn. apply not_elem_of_empty.
  - apply Forall_app. split; [apply Forall_wf_json_samples|].
    constructor; [|constructor].
    unfold collect_system_metrics. apply wf_json_snapshot; simpl; lia.
  - reflexivity.
Defined.

Lemma run_monitoring_unwritable_witness :
  Runs.outcome (@Windows.run_monitoring decimal_format constant_learner 60 5
                  [Examples.reading_0; Examples.reading_0; Examples.reading_0;
                   Examples.reading_0])
    (Scenarios.world_unwritable Examples.manager_10) = Raise OSError.
Proof.
  apply (@run_monitoring_unwritable decimal_format constant_learner 60 5
           [Examples.reading_0; Examples.reading_0; Examples.reading_0;
            Examples.reading_0]
           (Scenarios.world_unwritable Examples.manager_10)
           (map Examples.sample_no (seq 0 10))).
  - repeat constructor; by exists [Scenarios.python_exe].
  - reflexivity.
  - reflexivity.
  - apply (bool_decide_unpack _). by vm_compute.
Defined.

Lemma monitoring_after_training_witness :
  Runs.outcome (@Windows.run_monitoring decimal_format constant_learner 60 5
                  [Examples.reading_0; Examples.reading_0])
    (Runs.after (@Windows.train_model constant_learner)
       (Examples.world_of Examples.manager_10)) = Ok tt.
Proof.
  apply (@monitoring_after_training decimal_format constant_learner constant_learner_spec
           60 5 [Examples.reading_0; Examples.reading_0]
           (Examples.world_of Examples.manager_10)
           (map Examples.sample_no (seq 0 10))).
  - reflexivity.
  - apply Forall_is_snapshot_samples.
  - rewrite length_map, length_seq. lia.
  - cbn. apply not_elem_of_empty.
  - cbn. apply not_elem_of_empty.
  - repeat constructor; by exists [Scenarios.python_exe].
Defined.

Lemma quick_analysis_keeps_nothing_witness :
  self (Runs.after (@WindowsMain.menu_step decimal_format constant_learner " 1 "
                      Examples.reading_0 [])
          (Examples.world_of Examples.manager_10)) =
  Examples.manager_10.
Proof.
  apply (proj1 (proj2 (@quick_analysis_keeps_nothing decimal_format constant_learner
                         " 1 " Examples.reading_0 []
                         (Examples.world_of Examples.manager_10)
                         [Scenarios.python_exe] eq_refl eq_refl))).
Defined.

Lemma main_exit_rewrites_metrics_file_witness :
  Runs.outcome (@WindowsMain.main decimal_format constant_learner Sessions.this_machine
                  [(" 6 ", Examples.reading_0, [])])
    (Scenarios.world_with Examples.manager_10 Windows.config_file "{ not json") =
  Ok true /\
  fs_files (fs (Runs.after (@WindowsMain.main decimal_format constant_learner
                              Sessions.this_machine [(" 6 ", Examples.reading_0, [])])
                  (Scenarios.world_with Examples.manager_10 Windows.config_file
                     "{ not json"))) =
  <[Windows.config_file := Text "[]"]>
    (fs_files (fs (Scenarios.world_with Examples.manager_10 Windows.config_file
                     "{ not json"))).
Proof.
  refine (proj1 (proj2 (@main_exit_rewrites_metrics_file decimal_format constant_learner
                          Sessions.this_machine " 6 " Examples.reading_0 [] []
                          (Scenarios.world_with Examples.manager_10 Windows.config_file
                             "{ not json") eq_refl _)
                   "{ not json" _) _).
  - cbn. apply not_elem_of_empty.
  - unfold Scenarios.world_with. cbn [fs fs_files]. apply lookup_singleton_eq.
  - right. split; vm_compute; reflexivity.
Defined.

Lemma menu_session_keeps_every_sample_witness :
  Runs.outcome (@WindowsMain.menu_loop decimal_format constant_learner
                  Sessions.monitor_then_exit)
    (Examples.world_of Examples.manager_10) = Ok true.
Proof.
  apply (@menu_session_keeps_every_sample decimal_format constant_learner
           constant_learner_spec Sessions.monitor_then_exit
           (Examples.world_of Examples.manager_10)
           (map Examples.sample_no (seq 0 10))).
  - repeat constructor; by exists [Scenarios.python_exe].
  - split; [|split; [by left|split; cbn; apply not_elem_of_empty]].
    eexists. split; [reflexivity|apply Forall_is_snapshot_samples].
  - reflexivity.
Defined.


Lemma view_history_foreign_entry_witness :
  Runs.outcome (@WindowsMain.menu_loop decimal_format constant_learner
                  [("4", Examples.reading_0, [])])
    (Examples.world_of Scenarios.manager_bad_entry) = Raise (KeyError "timestamp").
Proof.
  apply (@view_history_foreign_entry decimal_format constant_learner
           "4" Examples.reading_0 [] []
           (Examples.world_of Scenarios.manager_bad_entry)
           (map Examples.sample_no (seq 0 9) ++ [PDict []])
           (map Examples.sample_no (seq 5 4)) [] (PDict []) (KeyError "timestamp")).
  - reflexivity.
  - reflexivity.
  - reflexivity.
  - apply Forall_is_snapshot_samples.
  - reflexivity.
Defined.
